(** * Sales bonus analyzer: header search, date decoding, invoice
      aggregation and the tiered bonus engine

    A shallow embedding of the core of [bonus_app_streamlit.py] (the second
    file, [bonus_app_streamlit2.py], has the same [parse_date],
    [find_header_row], [calculate_transaction_bonuses] and
    [analyze_workbook]; only the presentation code differs).

    Conventions of the model.
    - A Python exception is a value of [exn]; code that may raise returns
      [result].
    - Python [int] is [Z]; a Python [float] is represented by the rational
      number it denotes, and float arithmetic is exact rational arithmetic
      (rounding, infinities and NaN are outside the model).
    - A Python [str] is a [string] (of bytes); only the ASCII white space
      and the ASCII digits are recognised as such.
    - A Python [dict] that is iterated is an association list in insertion
      order, with keys compared by Python's [==]; the column map, which is
      only looked up, is a [gmap].
    - A [datetime.date] is represented by its proleptic Gregorian ordinal
      ([date.toordinal()]). *)

From Stdlib Require Import ZArith QArith Qround Lia Ascii String.
From stdpp Require Import gmap strings list fin_maps.

Local Open Scope Z_scope.

(* ===================================================================== *)
(** * Exceptions and results *)
(* ===================================================================== *)

Inductive exn : Type :=
| KeyError (arg : string)
| IndexError
| TypeError
| AttributeError
| OverflowError.

Inductive result (A : Type) : Type :=
| Ok (a : A)
| Raise (e : exn).
Arguments Ok {A} a.
Arguments Raise {A} e.

#[global] Instance result_ret : MRet result := fun A a => Ok a.
#[global] Instance result_bind : MBind result := fun A B f r =>
  match r with
  | Ok a => f a
  | Raise e => Raise e
  end.

(** A [for] loop whose body may raise: the first exception ends the loop. *)
Fixpoint for_each {S X : Type} (body : S -> X -> result S) (xs : list X) (s : S)
  : result S :=
  match xs with
  | [] => Ok s
  | x :: xs' => s' ← body s x; for_each body xs' s'
  end.

(* ===================================================================== *)
(** * Python values held by spreadsheet cells *)
(* ===================================================================== *)

(** [datetime.date], by ordinal. *)
Record date : Type := Date { toordinal : Z }.

(** [datetime.datetime]: the day and the microseconds elapsed in it. *)
Record datetime : Type := DateTime { dt_date : date; dt_micros : Z }.

(** Python numbers: [int], or [float] as the rational it denotes. *)
Inductive num : Type :=
| Int (z : Z)
| Float (q : Q).

(** What [iter_rows(values_only=True)] can yield for a cell. *)
Inductive cell : Type :=
| CNone
| CBool (b : bool)
| CNum (n : num)
| CStr (s : string)
| CDateTime (dt : datetime)
| CDate (d : date)
| CTime (micros : Z).

Definition num_to_Q (n : num) : Q :=
  match n with
  | Int z => inject_Z z
  | Float q => q
  end.

Definition num_add (a b : num) : num :=
  match a, b with
  | Int x, Int y => Int (x + y)
  | _, _ => Float (num_to_Q a + num_to_Q b)
  end.

Definition num_mul (a b : num) : num :=
  match a, b with
  | Int x, Int y => Int (x * y)
  | _, _ => Float (num_to_Q a * num_to_Q b)
  end.

(** [x > y] on rationals. *)
Definition Qgtb (x y : Q) : bool := negb (Qle_bool x y).

(** [bool] is a subclass of [int]: the numeric reading of a cell. *)
Definition as_num (c : cell) : option num :=
  match c with
  | CBool b => Some (Int (if b then 1 else 0))
  | CNum n => Some n
  | _ => None
  end.

Definition as_int (c : cell) : option Z :=
  match c with
  | CBool b => Some (if b then 1 else 0)
  | CNum (Int z) => Some z
  | _ => None
  end.

(** Truth value of a cell, as tested by [if emp] and by [x or 1]. *)
Definition truthy (c : cell) : bool :=
  match c with
  | CNone => false
  | CBool b => b
  | CNum n => negb (Qeq_bool (num_to_Q n) 0)
  | CStr s => negb (String.eqb s "")
  | CDateTime _ | CDate _ | CTime _ => true
  end.

Definition py_or (c dflt : cell) : cell := if truthy c then c else dflt.

Definition is_none (c : cell) : bool :=
  match c with CNone => true | _ => false end.

(** [s * n] for a string: [n] copies, none when [n <= 0]. *)
Fixpoint str_repeat (n : nat) (s : string) : string :=
  match n with
  | O => EmptyString
  | S n' => String.append s (str_repeat n' s)
  end.

(** [unit * qty]. Numbers multiply; a string times an integer is a
    repetition; every other pairing of cell values raises [TypeError]. *)
Definition py_mul (a b : cell) : result cell :=
  match as_num a, as_num b with
  | Some x, Some y => Ok (CNum (num_mul x y))
  | _, _ =>
      match a, as_int b, as_int a, b with
      | CStr s, Some n, _, _ => Ok (CStr (str_repeat (Z.to_nat n) s))
      | _, _, Some n, CStr s => Ok (CStr (str_repeat (Z.to_nat n) s))
      | _, _, _, _ => Raise TypeError
      end
  end.

(** [sum(lines)]: starts from the integer 0, raises [TypeError] on the
    first element that is not a number. *)
Definition py_sum (lines : list cell) : result num :=
  for_each (fun acc x =>
              match as_num x with
              | Some n => Ok (num_add acc n)
              | None => Raise TypeError
              end) lines (Int 0).

(** [sum(totals)] on a list of numbers. *)
Definition num_sum (totals : list num) : num :=
  fold_left num_add totals (Int 0).

(* ===================================================================== *)
(** * Python equality, as used for dictionary keys *)
(* ===================================================================== *)

Class PyEq (K : Type) : Type := py_eqb : K -> K -> bool.

Definition date_eqb (a b : date) : bool := toordinal a =? toordinal b.

Definition datetime_eqb (a b : datetime) : bool :=
  date_eqb (dt_date a) (dt_date b) && (dt_micros a =? dt_micros b).

(** Numbers (and booleans) are equal when they denote the same value,
    whatever their type; values of unrelated types are never equal. *)
Definition cell_eqb (a b : cell) : bool :=
  match as_num a, as_num b with
  | Some x, Some y => Qeq_bool (num_to_Q x) (num_to_Q y)
  | None, None =>
      match a, b with
      | CNone, CNone => true
      | CStr s, CStr t => String.eqb s t
      | CDateTime x, CDateTime y => datetime_eqb x y
      | CDate x, CDate y => date_eqb x y
      | CTime x, CTime y => x =? y
      | _, _ => false
      end
  | _, _ => false
  end.

#[global] Instance cell_pyeq : PyEq cell := cell_eqb.
#[global] Instance date_pyeq : PyEq date := date_eqb.
#[global] Instance string_pyeq : PyEq string := String.eqb.
#[global] Instance pair_pyeq {A B} `{PyEq A, PyEq B} : PyEq (A * B) :=
  fun x y => py_eqb (fst x) (fst y) && py_eqb (snd x) (snd y).

(* ===================================================================== *)
(** * Insertion-ordered dictionaries *)
(* ===================================================================== *)

Module Dict.
Section Ops.
Context {K V : Type} `{PyEq K}.

Definition t : Type := list (K * V).

(** [d.get(k)] *)
Fixpoint get (d : list (K * V)) (k : K) : option V :=
  match d with
  | [] => None
  | (k', v) :: d' => if py_eqb k' k then Some v else get d' k
  end.

(** [d[k] = v]: an existing key keeps its place (and its key object),
    a new key goes last. *)
Fixpoint set (d : list (K * V)) (k : K) (v : V) : list (K * V) :=
  match d with
  | [] => [(k, v)]
  | (k', v') :: d' =>
      if py_eqb k' k then (k', v) :: d' else (k', v') :: set d' k v
  end.

(** [d[k]] on a [defaultdict] whose factory makes [dflt]. *)
Definition get_default (dflt : V) (d : list (K * V)) (k : K) : V :=
  match get d k with
  | Some v => v
  | None => dflt
  end.

(** [d[k] = f(d[k])] on a [defaultdict]. *)
Definition update (dflt : V) (f : V -> V) (d : list (K * V)) (k : K)
  : list (K * V) :=
  set d k (f (get_default dflt d k)).

Definition mem (d : list (K * V)) (k : K) : bool :=
  match get d k with Some _ => true | None => false end.
End Ops.
End Dict.

(* ===================================================================== *)
(** * Calendar dates *)
(* ===================================================================== *)

Module Calendar.

Definition MINYEAR : Z := 1.
Definition MAXYEAR : Z := 9999.

Definition is_leap (y : Z) : bool :=
  (y mod 4 =? 0) && (negb (y mod 100 =? 0) || (y mod 400 =? 0)).

Definition days_in_month (y m : Z) : Z :=
  if m =? 2 then (if is_leap y then 29 else 28)
  else if (m =? 4) || (m =? 6) || (m =? 9) || (m =? 11) then 30
  else 31.

Definition days_before_year (y : Z) : Z :=
  let p := y - 1 in p * 365 + p / 4 - p / 100 + p / 400.

Definition days_before_month (y m : Z) : Z :=
  nth (Z.to_nat m) [0; 0; 31; 59; 90; 120; 151; 181; 212; 243; 273; 304; 334] 0
  + (if (2 <? m) && is_leap y then 1 else 0).

Definition ymd2ord (y m d : Z) : Z :=
  days_before_year y + days_before_month y m + d.

(** [datetime.date(y, m, d)]; [None] stands for its [ValueError]. *)
Definition make_date (y m d : Z) : option date :=
  if (MINYEAR <=? y) && (y <=? MAXYEAR) && (1 <=? m) && (m <=? 12)
     && (1 <=? d) && (d <=? days_in_month y m)
  then Some (Date (ymd2ord y m d))
  else None.

(** Ordinal of [date.max], 9999-12-31. *)
Definition MAXORDINAL : Z := 3652059.

End Calendar.

(* ===================================================================== *)
(** * [datetime.strptime] on the three formats of [parse_date] *)
(* ===================================================================== *)

(** Standard library code, embedded from [_strptime.py]. The library turns
    a format into a regular expression, one group per directive, matches it
    at the start of the text with backtracking, and raises [ValueError] when
    the match fails, when text remains after it, or when the fields do not
    form a date. [None] stands for [ValueError], the only exception that
    [parse_date] catches and the only one a string argument can cause. *)
Module Strptime.

Inductive directive : Type :=
| Dir_d            (* %d : 3[0-1] | [1-2]\d | 0[1-9] | [1-9] | " "[1-9] *)
| Dir_m            (* %m : 1[0-2] | 0[1-9] | [1-9]                      *)
| Dir_Y            (* %Y : \d\d\d\d                                     *)
| Dir_H            (* %H : 2[0-3] | [0-1]\d | \d                        *)
| Dir_M            (* %M : [0-5]\d | \d                                 *)
| Lit (c : ascii)  (* a literal character of the format                 *)
| Spaces.          (* white space in the format: \s+                    *)

Record fields : Type :=
  Fields { f_year : Z; f_month : Z; f_day : Z; f_hour : Z; f_minute : Z }.

(** Fields absent from the format keep these values. *)
Definition default_fields : fields := Fields 1900 1 1 0 0.

Definition code (c : ascii) : Z := Z.of_N (N_of_ascii c).

Definition between (lo hi : Z) (c : ascii) : bool :=
  (lo <=? code c) && (code c <=? hi).

Definition is_digit : ascii -> bool := between 48 57.

(** [str.isspace] on ASCII: tab to carriage return, the four separators
    and the space. *)
Definition is_space (c : ascii) : bool :=
  between 9 13 c || between 28 32 c.

(** Value of a character inside [int(...)]: a digit counts, the leading
    space admitted by [%d] does not. *)
Definition dval (c : ascii) : Z := if is_digit c then code c - 48 else 0.

(** One alternative of a group: a class per character. It gives the
    number read and the rest of the text. *)
Fixpoint alt (classes : list (ascii -> bool)) (acc : Z) (s : list ascii)
  : list (Z * list ascii) :=
  match classes, s with
  | [], _ => [(acc, s)]
  | p :: ps, c :: s' => if p c then alt ps (10 * acc + dval c) s' else []
  | _ :: _, [] => []
  end.

Definition alts (group : list (list (ascii -> bool))) (s : list ascii)
  : list (Z * list ascii) :=
  flat_map (fun classes => alt classes 0 s) group.

Definition digit_from (lo hi : Z) : ascii -> bool :=
  between (48 + lo) (48 + hi).

Definition group_d : list (list (ascii -> bool)) :=
  [ [digit_from 3 3; digit_from 0 1]; [digit_from 1 2; is_digit];
    [digit_from 0 0; digit_from 1 9]; [digit_from 1 9];
    [between 32 32; digit_from 1 9] ].
Definition group_m : list (list (ascii -> bool)) :=
  [ [digit_from 1 1; digit_from 0 2]; [digit_from 0 0; digit_from 1 9];
    [digit_from 1 9] ].
Definition group_Y : list (list (ascii -> bool)) :=
  [ [is_digit; is_digit; is_digit; is_digit] ].
Definition group_H : list (list (ascii -> bool)) :=
  [ [digit_from 2 2; digit_from 0 3]; [digit_from 0 1; is_digit]; [is_digit] ].
Definition group_M : list (list (ascii -> bool)) :=
  [ [digit_from 0 5; is_digit]; [is_digit] ].

(** [\s+], greedy: the longest run first, then shorter ones. *)
Fixpoint spaces (s : list ascii) : list (list ascii) :=
  match s with
  | c :: s' => if is_space c then spaces s' ++ [s'] else []
  | [] => []
  end.

(** The ways a directive can match at the start of [s], in the order
    the regular expression tries them. *)
Definition candidates (d : directive) (f : fields) (s : list ascii)
  : list (fields * list ascii) :=
  match d with
  | Dir_d => map (fun '(v, r) => (Fields (f_year f) (f_month f) v (f_hour f) (f_minute f), r)) (alts group_d s)
  | Dir_m => map (fun '(v, r) => (Fields (f_year f) v (f_day f) (f_hour f) (f_minute f), r)) (alts group_m s)
  | Dir_Y => map (fun '(v, r) => (Fields v (f_month f) (f_day f) (f_hour f) (f_minute f), r)) (alts group_Y s)
  | Dir_H => map (fun '(v, r) => (Fields (f_year f) (f_month f) (f_day f) v (f_minute f), r)) (alts group_H s)
  | Dir_M => map (fun '(v, r) => (Fields (f_year f) (f_month f) (f_day f) (f_hour f) v, r)) (alts group_M s)
  | Lit c =>
      match s with
      | c' :: r => if Ascii.eqb c c' then [(f, r)] else []
      | [] => []
      end
  | Spaces => map (fun r => (f, r)) (spaces s)
  end.

Fixpoint first_some {A B : Type} (k : A -> option B) (xs : list A) : option B :=
  match xs with
  | [] => None
  | x :: xs' => match k x with Some b => Some b | None => first_some k xs' end
  end.

(** Backtracking match of a whole format; the match found is the first
    one in the order of the alternatives, and has to reach the end of
    the regular expression. It gives the fields and the unread text. *)
Fixpoint run (fmt : list directive) (f : fields) (s : list ascii)
  : option (fields * list ascii) :=
  match fmt with
  | [] => Some (f, s)
  | d :: fmt' => first_some (fun '(f', r) => run fmt' f' r) (candidates d f s)
  end.

Definition strptime (s : string) (fmt : list directive) : option datetime :=
  match run fmt default_fields (list_ascii_of_string s) with
  | Some (f, []) =>
      match Calendar.make_date (f_year f) (f_month f) (f_day f) with
      | Some d => Some (DateTime d ((f_hour f * 60 + f_minute f) * 60000000))
      | None => None
      end
  | Some (_, _ :: _) => None     (* unconverted data remains *)
  | None => None                 (* does not match the format *)
  end.

(** "%d/%m/%Y %H:%M", "%Y-%m-%d", "%d/%m/%Y" *)
Definition fmt_dmy_hm : list directive :=
  [Dir_d; Lit "/"; Dir_m; Lit "/"; Dir_Y; Spaces; Dir_H; Lit ":"; Dir_M].
Definition fmt_ymd : list directive :=
  [Dir_Y; Lit "-"; Dir_m; Lit "-"; Dir_d].
Definition fmt_dmy : list directive :=
  [Dir_d; Lit "/"; Dir_m; Lit "/"; Dir_Y].

End Strptime.

(** [parse_date]: the first format that parses gives the date. *)
Definition parse_date_formats : list (list Strptime.directive) :=
  [Strptime.fmt_dmy_hm; Strptime.fmt_ymd; Strptime.fmt_dmy].

Fixpoint parse_date_with (fmts : list (list Strptime.directive)) (date_str : string)
  : option date :=
  match fmts with
  | [] => None
  | fmt :: fmts' =>
      match Strptime.strptime date_str fmt with
      | Some dt => Some (dt_date dt)
      | None => parse_date_with fmts' date_str
      end
  end.

Definition parse_date (date_str : string) : option date :=
  parse_date_with parse_date_formats date_str.

(* ===================================================================== *)
(** * [openpyxl.utils.datetime.from_excel] and the date of a cell *)
(* ===================================================================== *)

(** Code of the openpyxl library (3.x), embedded from its definition, with
    the default epoch of the Windows 1900 date system. *)
Module Excel.

Definition SECS_PER_DAY : Z := 86400.

(** Ordinal of [WINDOWS_EPOCH], 1899-12-30. *)
Definition EPOCH_ORDINAL : Z := 693594.

(** Python's [round] to an integer: ties go to the even neighbour. *)
Definition py_round (x : Q) : Z :=
  let f := Qfloor x in
  match Qcompare (x - inject_Z f) (1 # 2) with
  | Lt => f
  | Gt => f + 1
  | Eq => if Z.even f then f else f + 1
  end.

(** [from_excel] gives a [datetime], or a [time] for a serial in
    [0, 1). *)
Inductive xl_value : Type :=
| XDateTime (dt : datetime)
| XTime (micros : Z).

(** [day, fraction = divmod(value, 1)]; [diff] is the fraction rounded to
    milliseconds; serials below 1 are times of day; serials below 60 are
    shifted by the leap day that 1900 did not have; the sum with the
    epoch raises [OverflowError] outside years 1 to 9999. *)
Definition from_excel (value : Q) : result xl_value :=
  let day := Qfloor value in
  let fraction := (value - inject_Z day)%Q in
  let diff := py_round (fraction * inject_Z (SECS_PER_DAY * 1000)) in
  let diff_days := diff / (SECS_PER_DAY * 1000) in
  if Qle_bool 0 value && Qgtb 1 value && (diff_days =? 0)
  then Ok (XTime (diff * 1000))
  else
    let day := if Qgtb value 0 && Qgtb 60 value then day + 1 else day in
    let ord := EPOCH_ORDINAL + day + diff_days in
    if (1 <=? ord) && (ord <=? Calendar.MAXORDINAL)
    then Ok (XDateTime (DateTime (Date ord) (diff mod (SECS_PER_DAY * 1000) * 1000)))
    else Raise OverflowError.

(** The method call [.date()]: a [time] has no such attribute. *)
Definition date_of (x : xl_value) : result date :=
  match x with
  | XDateTime dt => Ok (dt_date dt)
  | XTime _ => Raise AttributeError
  end.

End Excel.

(** The date of a row, as [analyze_workbook] decodes it from the raw cell:
    a [datetime], else a number ([bool] included), else a string, else
    nothing. [Ok None] is the decode failure. *)
Definition normalize_date (date_raw : cell) : result (option date) :=
  match date_raw with
  | CDateTime dt => Ok (Some (dt_date dt))
  | CNum _ | CBool _ =>
      match as_num date_raw with
      | Some n => x ← Excel.from_excel (num_to_Q n);
                  d ← Excel.date_of x;
                  Ok (Some d)
      | None => Ok None
      end
  | CStr s => Ok (parse_date s)
  | CNone | CDate _ | CTime _ => Ok None
  end.

(* ===================================================================== *)
(** * Constants *)
(* ===================================================================== *)

Definition BONUS_OVER_400 : Z := 20.
Definition BONUS_OVER_700 : Z := 10.
Definition BONUS_AVG_130 : Z := 20.
Definition BONUS_AVG_140 : Z := 25.
Definition BONUS_AVG_150 : Z := 35.

Definition QUANTITY_COL_NAME : string := "כמות".

Definition COL_INVOICE : string := "מספר חשבונית".
Definition COL_EMPLOYEE : string := "מוכרן".
Definition COL_DATE : string := "תאריך".
Definition COL_UNIT_PRICE : string := "מחיר נטו ליחידה".

Definition REQUIRED_COLS : list string :=
  [COL_INVOICE; COL_EMPLOYEE; COL_DATE; COL_UNIT_PRICE].

(** The three category labels of the breakdown. *)
Definition CAT_OVER_400 : string := "בונוס על עסקאות מעל 400".
Definition CAT_OVER_700 : string := "בונוס על עסקאות מעל 700".
Definition CAT_AVERAGE : string := "בונוס על ממוצע עסקה".

(** The argument of the [KeyError] of [find_header_row]. *)
Definition HEADER_NOT_FOUND : string :=
  "לא נמצאה שורת כותרות מתאימה בקובץ (עמודות חובה לא אותרו יחד).".

(* ===================================================================== *)
(** * Header search *)
(* ===================================================================== *)

Definition sheet : Type := list (list cell).

(** [s.strip()] *)
Fixpoint lstrip (s : list ascii) : list ascii :=
  match s with
  | c :: s' => if Strptime.is_space c then lstrip s' else s
  | [] => []
  end.

Definition strip (s : string) : string :=
  string_of_list_ascii (rev (lstrip (rev (lstrip (list_ascii_of_string s))))).

Section Header.

(** [str(value)] for a cell that is not a string (the decimal form of a
    number, the ISO form of a date, ...) is left open. *)
Variable str_of : cell -> string.

Definition py_str (value : cell) : string :=
  match value with
  | CStr s => s
  | _ => str_of value
  end.

(** The label a cell contributes to the column map, if any. *)
Definition cell_key (value : cell) : option string :=
  match value with
  | CNone => None
  | _ => let key := strip (py_str value) in
         if String.eqb key "" then None else Some key
  end.

(** The inner loop of [find_header_row]: [col_idx[key] = i] for every
    cell of the row that has a label, from index [i] on. *)
Fixpoint scan_row (i : nat) (row : list cell) (col_idx : gmap string nat)
  : gmap string nat :=
  match row with
  | [] => col_idx
  | value :: row' =>
      scan_row (S i) row'
        (match cell_key value with
         | Some key => <[key := i]> col_idx
         | None => col_idx
         end)
  end.

Definition build_col_idx (row : list cell) : gmap string nat :=
  scan_row 0 row ∅.

(** [col_idx and all(col in col_idx for col in required_cols)] *)
Definition is_header (col_idx : gmap string nat) (required_cols : list string)
  : bool :=
  negb (bool_decide (col_idx = ∅))
  && forallb (fun col => bool_decide (is_Some (col_idx !! col))) required_cols.

(** The outer loop, from the row numbered [row_idx]. *)
Fixpoint find_header_from (row_idx : nat) (rows : sheet)
    (required_cols : list string) : result (nat * gmap string nat) :=
  match rows with
  | [] => Raise (KeyError HEADER_NOT_FOUND)
  | row :: rows' =>
      let col_idx := build_col_idx row in
      if is_header col_idx required_cols then Ok (row_idx, col_idx)
      else find_header_from (S row_idx) rows' required_cols
  end.

Definition find_header_row (sh : sheet) (required_cols : list string)
  : result (nat * gmap string nat) :=
  find_header_from 1 sh required_cols.

End Header.

(* ===================================================================== *)
(** * The bonus engine *)
(* ===================================================================== *)

(** Bonus amounts are floats that hold sums of the integer constants; they
    are kept in [Z]. *)
Definition bonuses_t : Type := list (cell * Z).
Definition details_t : Type := list (cell * list (string * Z)).
Definition daily_totals_t : Type := list (cell * list (date * list num)).
Definition transactions_count_t : Type := list (cell * list (date * Z)).

(** [d[k] += amount] on a [defaultdict(float)] *)
Definition bump {K} `{PyEq K} (d : list (K * Z)) (k : K) (amount : Z)
  : list (K * Z) :=
  Dict.update 0 (fun v => v + amount) d k.

(** [bonuses[emp] += amount; details[emp][cat] += amount] *)
Definition award (emp : cell) (cat : string) (amount : Z)
    (st : bonuses_t * details_t) : bonuses_t * details_t :=
  (bump (fst st) emp amount,
   Dict.update [] (fun det => bump det cat amount) (snd st) emp).

(** [sum(totals) / cnt if cnt else 0] *)
Definition day_average (totals : list num) (cnt : Z) : Q :=
  if cnt =? 0 then 0%Q else (num_to_Q (num_sum totals) / inject_Z cnt)%Q.

(** The body of [for total in totals]. *)
Definition transaction_bonus (emp : cell) (st : bonuses_t * details_t)
    (total : num) : bonuses_t * details_t :=
  let st := if Qgtb (num_to_Q total) 400
            then award emp CAT_OVER_400 BONUS_OVER_400 st else st in
  if Qgtb (num_to_Q total) 700
  then award emp CAT_OVER_700 BONUS_OVER_700 st else st.

(** The [if avg > 150 ... elif ... elif ...] chain. *)
Definition average_bonus (emp : cell) (st : bonuses_t * details_t) (avg : Q)
  : bonuses_t * details_t :=
  if Qgtb avg 150 then award emp CAT_AVERAGE BONUS_AVG_150 st
  else if Qgtb avg 140 then award emp CAT_AVERAGE BONUS_AVG_140 st
  else if Qgtb avg 130 then award emp CAT_AVERAGE BONUS_AVG_130 st
  else st.

(** [transactions_count[emp][date]], both levels being [defaultdict]s. *)
Definition count_of (transactions_count : transactions_count_t)
    (emp : cell) (d : date) : Z :=
  Dict.get_default 0 (Dict.get_default [] transactions_count emp) d.

(** The body of [for date, totals in daily.items()]. *)
Definition day_bonuses (transactions_count : transactions_count_t) (emp : cell)
    (st : bonuses_t * details_t) (day : date * list num)
  : bonuses_t * details_t :=
  let cnt := count_of transactions_count emp (fst day) in
  let avg := day_average (snd day) cnt in
  average_bonus emp (fold_left (transaction_bonus emp) (snd day) st) avg.

Definition calculate_transaction_bonuses (sales_data : daily_totals_t)
    (transactions_count : transactions_count_t) : bonuses_t * details_t :=
  fold_left
    (fun st emp_daily =>
       fold_left (day_bonuses transactions_count (fst emp_daily))
                 (snd emp_daily) st)
    sales_data ([], []).

(* ===================================================================== *)
(** * Aggregation of rows into invoices and daily statistics *)
(* ===================================================================== *)

Definition per_invoice_t : Type := list (cell * list (date * cell * list cell)).

(** [row[i]] on the tuple of a row. *)
Definition row_get (row : list cell) (i : nat) : result cell :=
  match row !! i with
  | Some c => Ok c
  | None => Raise IndexError
  end.

(** [col_idx[name]] *)
Definition col_get (col_idx : gmap string nat) (name : string) : result nat :=
  match col_idx !! name with
  | Some i => Ok i
  | None => Raise (KeyError name)
  end.

(** [row[col_idx[name]]] *)
Definition field (col_idx : gmap string nat) (row : list cell) (name : string)
  : result cell :=
  i ← col_get col_idx name; row_get row i.

(** The quantity of a row. The column map holds [None] for the quantity
    label when the header has no such column: the lookup below is then
    [None] as well. *)
Definition quantity (col_idx : gmap string nat) (row : list cell) : result cell :=
  match col_idx !! QUANTITY_COL_NAME with
  | Some i => c ← row_get row i; Ok (py_or c (CNum (Int 1)))
  | None => Ok (CNum (Int 1))
  end.

(** [per_invoice[emp][(date, invoice)].append(line_total)] *)
Definition append_line (per_invoice : per_invoice_t) (emp : cell)
    (key : date * cell) (line_total : cell) : per_invoice_t :=
  Dict.update []
    (fun invoices => Dict.update [] (fun lines => lines ++ [line_total]) invoices key)
    per_invoice emp.

(** What a data row contributes: its employee, date, invoice identifier,
    unit price and quantity. *)
Record line_item : Type := LineItem {
  li_emp : cell;
  li_date : date;
  li_invoice : cell;
  li_unit : cell;
  li_qty : cell
}.

(** The first part of the body of the loop over the data rows: the cells
    are read, the date is decoded, and the row is kept ([Some]) or skipped
    ([None]: the [continue], or the failed [if emp and unit is not None]). *)
Definition decode_row (col_idx : gmap string nat) (row : list cell)
  : result (option line_item) :=
  invoice ← field col_idx row COL_INVOICE;
  emp ← field col_idx row COL_EMPLOYEE;
  date_raw ← field col_idx row COL_DATE;
  unit ← field col_idx row COL_UNIT_PRICE;
  qty ← quantity col_idx row;
  date ← normalize_date date_raw;
  match date with
  | None => Ok None
  | Some d =>
      if truthy emp && negb (is_none unit)
      then Ok (Some (LineItem emp d invoice unit qty))
      else Ok None
  end.

(** [line_total = unit * qty] and the [append] of a kept row. *)
Definition add_line_item (per_invoice : per_invoice_t) (it : line_item)
  : result per_invoice_t :=
  line_total ← py_mul (li_unit it) (li_qty it);
  Ok (append_line per_invoice (li_emp it) (li_date it, li_invoice it) line_total).

(** The body of the loop over the data rows. *)
Definition process_row (col_idx : gmap string nat) (per_invoice : per_invoice_t)
    (row : list cell) : result per_invoice_t :=
  it ← decode_row col_idx row;
  match it with
  | Some it => add_line_item per_invoice it
  | None => Ok per_invoice
  end.

(** The body of the loop over the invoices of an employee:
    [total = sum(lines); transactions_count[emp][date] += 1;
     daily_totals[emp][date].append(total)]. *)
Definition summarise_invoice (emp : cell)
    (st : transactions_count_t * daily_totals_t)
    (entry : date * cell * list cell)
  : result (transactions_count_t * daily_totals_t) :=
  let d := fst (fst entry) in
  total ← py_sum (snd entry);
  Ok (Dict.update [] (fun counts => bump counts d 1) (fst st) emp,
      Dict.update [] (fun days => Dict.update [] (fun totals => totals ++ [total]) days d)
                  (snd st) emp).

Definition summarise (per_invoice : per_invoice_t)
  : result (transactions_count_t * daily_totals_t) :=
  for_each (fun st emp_invoices =>
              for_each (summarise_invoice (fst emp_invoices)) (snd emp_invoices) st)
           per_invoice ([], []).

(** Everything [analyze_workbook] does after the header is known. *)
Definition aggregate (col_idx : gmap string nat) (rows : sheet)
  : result (transactions_count_t * daily_totals_t) :=
  per_invoice ← for_each (process_row col_idx) rows [];
  summarise per_invoice.

Record analysis : Type := Analysis {
  bonuses : bonuses_t;
  details : details_t;
  daily_totals : daily_totals_t;
  transactions_count : transactions_count_t
}.

(** [analyze_workbook], from the rows of the active sheet on. *)
Definition analyze_workbook (str_of : cell -> string) (sh : sheet) : result analysis :=
  hdr ← find_header_row str_of sh REQUIRED_COLS;
  st ← aggregate (snd hdr) (drop (fst hdr) sh);
  let b := calculate_transaction_bonuses (snd st) (fst st) in
  Ok (Analysis (fst b) (snd b) (snd st) (fst st)).

(* ===================================================================== *)
(** * Vocabulary of the properties *)
(* ===================================================================== *)

(** The kept rows of a run, in order; the first exception of a row is the
    exception of the run. *)
Fixpoint line_items (col_idx : gmap string nat) (rows : sheet)
  : result (list line_item) :=
  match rows with
  | [] => Ok []
  | row :: rows' =>
      it ← decode_row col_idx row;
      its ← line_items col_idx rows';
      Ok (match it with Some it => it :: its | None => its end)
  end.

(** Unit price and quantity are both numbers. *)
Definition priced (it : line_item) : option num :=
  match as_num (li_unit it), as_num (li_qty it) with
  | Some u, Some q => Some (num_mul u q)
  | _, _ => None
  end.

(** Keys met for the first time, in the order they are met. *)
Fixpoint firsts_from {K} `{PyEq K} (seen : list K) (ks : list K) : list K :=
  match ks with
  | [] => []
  | k :: ks' =>
      if existsb (fun k' => py_eqb k' k) seen then firsts_from seen ks'
      else k :: firsts_from (seen ++ [k]) ks'
  end.

Definition firsts {K} `{PyEq K} (ks : list K) : list K := firsts_from [] ks.

(** The items of an employee on a day. *)
Definition items_of_day (items : list line_item) (emp : cell) (d : date)
  : list line_item :=
  List.filter (fun it => py_eqb (li_emp it) emp && py_eqb (li_date it) d) items.

(** The distinct invoice identifiers seen for an employee on a day. *)
Definition invoices_of (items : list line_item) (emp : cell) (d : date)
  : list cell :=
  firsts (map li_invoice (items_of_day items emp d)).

(** The sum of [unit * qty] over the items of an invoice. *)
Definition invoice_total (items : list line_item) (emp : cell) (d : date)
    (invoice : cell) : num :=
  num_sum (omap priced
             (List.filter (fun it => py_eqb (li_invoice it) invoice)
                          (items_of_day items emp d))).

(** The invoices after the kept rows [items], all priced, came on top of
    [per_invoice]. *)
Definition invoices_after (items : list line_item) (per_invoice : per_invoice_t)
  : per_invoice_t :=
  fold_left
    (fun acc it =>
       match priced it with
       | Some n => append_line acc (li_emp it) (li_date it, li_invoice it) (CNum n)
       | None => acc
       end)
    items per_invoice.

(** The total of the lines of an invoice, all numbers. *)
Definition lines_total (lines : list cell) : num := num_sum (omap as_num lines).

(** The totals that the invoices of one employee give to a day, in order. *)
Definition day_totals (invoices : list (date * cell * list cell)) (d : date)
  : list num :=
  map (fun e => lines_total (snd e))
      (List.filter (fun e => py_eqb (fst (fst e)) d) invoices).

(** All the lines of all the invoices are numbers. *)
Definition numeric_invoices (invoices : list (date * cell * list cell)) : Prop :=
  Forall (fun e => Forall (fun c => is_Some (as_num c)) (snd e)) invoices.

(** Reading the outputs: an absent entry reads as the default of its
    [defaultdict]. *)
Definition bonus_of (b : bonuses_t) (emp : cell) : Z := Dict.get_default 0 b emp.

Definition breakdown_of (d : details_t) (emp : cell) : list (string * Z) :=
  Dict.get_default [] d emp.

Definition detail_of (d : details_t) (emp : cell) (cat : string) : Z :=
  Dict.get_default 0 (breakdown_of d emp) cat.

Definition totals_of (dt : daily_totals_t) (emp : cell) (d : date) : list num :=
  Dict.get_default [] (Dict.get_default [] dt emp) d.

(** The sum of the amounts of a breakdown, over all its categories. *)
Definition sum_values (det : list (string * Z)) : Z :=
  fold_right Z.add 0 (map snd det).

(** The labels of a row contain all the required ones. *)
Definition covers (str_of : cell -> string) (row : list cell)
    (required_cols : list string) : Prop :=
  forall col, col ∈ required_cols ->
    exists i value, row !! i = Some value /\ cell_key str_of value = Some col.

(** Zero-padded decimal text, as a spreadsheet export writes dates. *)
Definition digit_char (n : Z) : ascii := ascii_of_N (Z.to_N (48 + n)).

Definition two_digits (n : Z) : list ascii :=
  [digit_char (n / 10); digit_char (n mod 10)].

Definition four_digits (n : Z) : list ascii :=
  [digit_char (n / 1000); digit_char (n / 100 mod 10);
   digit_char (n / 10 mod 10); digit_char (n mod 10)].

(** dd/mm/yyyy HH:MM, yyyy-mm-dd and dd/mm/yyyy *)
Definition text_dmy (y m d : Z) : list ascii :=
  two_digits d ++ "/"%char :: two_digits m ++ "/"%char :: four_digits y.

Definition text_dmy_hm (y m d hh mm : Z) : list ascii :=
  text_dmy y m d ++ " "%char :: two_digits hh ++ ":"%char :: two_digits mm.

Definition text_ymd (y m d : Z) : list ascii :=
  four_digits y ++ "-"%char :: two_digits m ++ "-"%char :: two_digits d.

(** The day of the examples, 2023-03-15, and their header row. *)
Definition example_day : date := Date 738594.

Definition example_header : list cell :=
  [CStr COL_INVOICE; CStr COL_EMPLOYEE; CStr COL_DATE;
   CStr COL_UNIT_PRICE; CStr QUANTITY_COL_NAME].

(** The spreadsheet of the end-to-end example: a title row, a blank row,
    the header, and three line items of employee A on that day. *)
Definition example_sheet : sheet :=
  [ [CStr "Sales export"; CNone; CNone; CNone; CNone];
    [CNone; CNone; CNone; CNone; CNone];
    example_header;
    [CNum (Int 1); CStr "A"; CDateTime (DateTime example_day 0);
     CNum (Int 100); CNum (Int 2)];
    [CNum (Int 1); CStr "A"; CDateTime (DateTime example_day 0);
     CNum (Int 50); CNum (Int 1)];
    [CNum (Int 2); CStr "A"; CDateTime (DateTime example_day 0);
     CNum (Int 800); CNum (Int 1)] ].

(** A row without employee whose date cell holds the number 0.5 (a time of
    day, noon, in a cell of general format), and the same row with the text
    0.5 in the date cell. *)
Definition time_serial_row : list cell :=
  [CNum (Int 3); CNone; CNum (Float (1 # 2)); CNum (Int 100); CNum (Int 1)].

Definition time_text_row : list cell :=
  [CNum (Int 3); CNone; CStr "0.5"; CNum (Int 100); CNum (Int 1)].

(** What one transaction adds to each threshold category. *)
Definition over_400 (total : num) : Z :=
  if Qgtb (num_to_Q total) 400 then BONUS_OVER_400 else 0.
Definition over_700 (total : num) : Z :=
  if Qgtb (num_to_Q total) 700 then BONUS_OVER_700 else 0.

(** The engine's invariant: for every employee the total is the sum of the
    breakdown, and an employee has a total exactly when it has a breakdown. *)
Definition consistent (st : bonuses_t * details_t) : Prop :=
  forall emp : cell,
    bonus_of (fst st) emp = sum_values (breakdown_of (snd st) emp)
    /\ Dict.mem (fst st) emp = Dict.mem (snd st) emp.

(** What the dictionaries need of the equality of their keys. *)
Class PyEqLaws (K : Type) `{PyEq K} : Prop := {
  py_eqb_refl : forall k : K, py_eqb k k = true;
  py_eqb_sym : forall k1 k2 : K, py_eqb k1 k2 = true -> py_eqb k2 k1 = true;
  py_eqb_trans : forall k1 k2 k3 : K,
    py_eqb k1 k2 = true -> py_eqb k2 k3 = true -> py_eqb k1 k3 = true
}.

(** No two entries of a dictionary have equal keys. *)
Fixpoint nodup_keys {K V} `{PyEq K} (d : list (K * V)) : Prop :=
  match d with
  | [] => True
  | (k, _) :: d' => Dict.get d' k = None /\ nodup_keys d'
  end.

(** All the rows of a sheet have [width] cells, as the rows that
    [iter_rows] yields have. *)
Definition rectangular (sh : sheet) (width : nat) : Prop :=
  Forall (fun row => length row = width) sh.

(** Some line of some invoice is not a number. *)
Definition tainted (per_invoice : per_invoice_t) : Prop :=
  Exists (fun e => Exists (fun inv => Exists (fun c => as_num c = None) (snd inv))
                          (snd e))
         per_invoice.

(** What the loops of [summarise] keep: keys are distinct at both levels,
    the count of a day is the number of its totals, and no listed day is
    without totals. *)
Definition stats_consistent (st : transactions_count_t * daily_totals_t) : Prop :=
  (nodup_keys (snd st) /\ forall e, In e (snd st) -> nodup_keys (snd e))
  /\ (forall emp d,
        count_of (fst st) emp d = Z.of_nat (length (totals_of (snd st) emp d)))
  /\ Forall (fun e => Forall (fun day : date * list num => snd day <> []) (snd e))
            (snd st).


(** The amount of the average tier of a day. *)
Definition tier_amount (avg : Q) : Z :=
  if Qgtb avg 150 then BONUS_AVG_150
  else if Qgtb avg 140 then BONUS_AVG_140
  else if Qgtb avg 130 then BONUS_AVG_130
  else 0.

Definition sum_Z (l : list Z) : Z := fold_right Z.add 0 l.

(** What a day is worth: the threshold bonuses of its transactions and the
    tier of its average. *)
Definition day_amount (tc : transactions_count_t) (emp : cell)
    (day : date * list num) : Z :=
  sum_Z (map (fun t => over_400 t + over_700 t) (snd day))
  + tier_amount (day_average (snd day) (count_of tc emp (fst day))).

(** The days, and the transactions, listed for an employee. *)
Definition employee_days (sales_data : daily_totals_t) (emp : cell)
  : list (date * list num) :=
  flat_map (fun e => if py_eqb (fst e) emp then snd e else []) sales_data.

Definition employee_totals (sales_data : daily_totals_t) (emp : cell) : list num :=
  flat_map snd (employee_days sales_data emp).

(** How many totals are above a threshold. *)
Definition count_over (threshold : Q) (totals : list num) : Z :=
  Z.of_nat (length (List.filter (fun t => Qgtb (num_to_Q t) threshold) totals)).

(** An employee either has no entry in the totals, or an entry of at least
    20 (the smallest amount that starts an entry). *)
Definition listed_with_bonus (st : bonuses_t * details_t) : Prop :=
  forall emp : cell,
    (Dict.mem (fst st) emp = false /\ bonus_of (fst st) emp = 0)
    \/ (Dict.mem (fst st) emp = true /\ 20 <= bonus_of (fst st) emp).

(** A character that a digit group or a run of white space of a format can
    read. *)
Definition plain (c : ascii) : Prop :=
  Strptime.is_digit c = true \/ Strptime.is_space c = true.

(* ===================================================================== *)
(** * The text report *)
(* ===================================================================== *)

(** [sep.join(items)]: every item has to be a string, [TypeError]
    otherwise. *)
Definition is_str (c : cell) : bool :=
  match c with CStr _ => true | _ => false end.

Fixpoint strings_of (items : list cell) : result (list string) :=
  match items with
  | [] => Ok []
  | CStr s :: items' => strs ← strings_of items'; Ok (s :: strs)
  | _ :: _ => Raise TypeError
  end.

Definition py_join (sep : string) (items : list cell) : result string :=
  strs ← strings_of items; Ok (String.concat sep strs).

(** [lines.append(x)] *)
Definition append {A : Type} (lines : list A) (x : A) : list A := lines ++ [x].

(** [format(s, "<n")] and [format(s, ">n")] on a text of one-byte
    characters (the digits, sign and point of a number, the text of
    [strftime]). *)
Definition ljust (n : nat) (s : string) : string :=
  s +:+ str_repeat (n - String.length s) " ".

Definition rjust (n : nat) (s : string) : string :=
  str_repeat (n - String.length s) " " +:+ s.

(** [sorted(dates.items())]: the days in ascending order. The keys of a
    dictionary are distinct, so that the comparison of two items is settled
    by their dates; the sort is stable. *)
Fixpoint insert_day (x : date * list num) (l : list (date * list num))
  : list (date * list num) :=
  match l with
  | [] => [x]
  | y :: l' =>
      if toordinal (fst y) <? toordinal (fst x) then y :: insert_day x l'
      else x :: y :: l'
  end.

Definition py_sorted (items : list (date * list num)) : list (date * list num) :=
  fold_right insert_day [] items.

Definition TAB : string := String "009"%char EmptyString.
Definition NEWLINE : string := String "010"%char EmptyString.

Definition REPORT_TITLE : string := "סיכום בונוסים כללי".
Definition SHEKEL : string := " ₪".

(** The value of
    [f"{'תאריך':<10}\t{'ממוצע עסקה':<15}\t{'סך מכירות'}"]: the labels have
    5 and 10 characters, and get 5 spaces each. *)
Definition TABLE_HEADER : string :=
  "תאריך     " +:+ TAB +:+ "ממוצע עסקה     " +:+ TAB +:+ "סך מכירות".

Section Report.

(** Left open: [str(value)] of a cell that is not a string, the text of a
    number with two decimals ([format(x, ".2f")]) and
    [date.strftime('%d.%m')]. None of them raises. *)
Variable str_of : cell -> string.
Variable fmt_2f : Q -> string.
Variable strftime_dm : date -> string.

(** [f"{emp}: {b:.2f} ₪"] *)
Definition bonus_line (emp : cell) (b : Z) : cell :=
  CStr (py_str str_of emp +:+ ": " +:+ fmt_2f (inject_Z b) +:+ SHEKEL).

(** [f"{cat}: {amt:.2f} ₪"] *)
Definition category_line (cat : string) (amt : Z) : cell :=
  CStr (cat +:+ ": " +:+ fmt_2f (inject_Z amt) +:+ SHEKEL).

(** The line of a day:
    [f"{date.strftime('%d.%m'):<10}\t{avg:>12.2f}\t\t{total:>10.2f}"]
    with [total = sum(totals)], [cnt = transactions_count[emp][date]] and
    [avg = total / cnt if cnt else 0]. *)
Definition day_line (transactions_count : transactions_count_t) (emp : cell)
    (day : date * list num) : cell :=
  let total := num_sum (snd day) in
  let cnt := count_of transactions_count emp (fst day) in
  let avg := if cnt =? 0 then 0%Q else (num_to_Q total / inject_Z cnt)%Q in
  CStr (ljust 10 (strftime_dm (fst day)) +:+ TAB +:+ rjust 12 (fmt_2f avg)
        +:+ TAB +:+ TAB +:+ rjust 10 (fmt_2f (num_to_Q total))).

Definition build_report_text (bonuses : bonuses_t) (details : details_t)
    (daily_totals : daily_totals_t) (transactions_count : transactions_count_t)
  : result string :=
  let lines := [] in
  let lines := append lines (CStr REPORT_TITLE) in
  let lines := append lines (CStr (str_repeat 50 "=")) in
  let lines :=
    fold_left (fun lines '(emp, b) => append lines (bonus_line emp b))
              bonuses lines in
  let lines := append lines (CStr "") in
  let lines :=
    fold_left
      (fun lines '(emp, det) =>
         let lines := append lines emp in
         let lines := append lines (CStr (str_repeat 50 "-")) in
         let lines :=
           fold_left (fun lines '(cat, amt) => append lines (category_line cat amt))
                     det lines in
         append lines (CStr ""))
      details lines in
  let lines :=
    fold_left
      (fun lines '(emp, dates) =>
         let lines := append lines emp in
         let lines := append lines (CStr (str_repeat 50 "=")) in
         let lines := append lines (CStr TABLE_HEADER) in
         let lines := append lines (CStr (str_repeat 50 "=")) in
         let lines :=
           fold_left (fun lines day => append lines (day_line transactions_count emp day))
                     (py_sorted dates) lines in
         append lines (CStr ""))
      daily_totals lines in
  py_join NEWLINE lines.

End Report.

(** The lines of the report, section by section. *)
Definition details_section (fmt_2f : Q -> string)
    (e : cell * list (string * Z)) : list cell :=
  [fst e; CStr (str_repeat 50 "-")]
  ++ map (fun '(cat, amt) => category_line fmt_2f cat amt) (snd e) ++ [CStr ""].

Definition days_section (fmt_2f : Q -> string) (strftime_dm : date -> string)
    (transactions_count : transactions_count_t)
    (e : cell * list (date * list num)) : list cell :=
  [fst e; CStr (str_repeat 50 "="); CStr TABLE_HEADER; CStr (str_repeat 50 "=")]
  ++ map (day_line fmt_2f strftime_dm transactions_count (fst e)) (py_sorted (snd e))
  ++ [CStr ""].

Definition report_lines (str_of : cell -> string) (fmt_2f : Q -> string)
    (strftime_dm : date -> string) (bonuses : bonuses_t) (details : details_t)
    (daily_totals : daily_totals_t) (transactions_count : transactions_count_t)
  : list cell :=
  [CStr REPORT_TITLE; CStr (str_repeat 50 "=")]
  ++ map (fun '(emp, b) => bonus_line str_of fmt_2f emp b) bonuses ++ [CStr ""]
  ++ flat_map (details_section fmt_2f) details
  ++ flat_map (days_section fmt_2f strftime_dm transactions_count) daily_totals.

(** The arithmetic mean of the totals of a day, and what the day is worth
    by its totals alone. *)
Definition day_mean (totals : list num) : Q :=
  (num_to_Q (num_sum totals) / inject_Z (Z.of_nat (length totals)))%Q.

Definition day_worth (totals : list num) : Z :=
  20 * count_over 400 totals + 10 * count_over 700 totals
  + tier_amount (day_mean totals).

(* ===================================================================== *)
(** * Python equality is an equivalence *)
(* ===================================================================== *)

Lemma py_eqb_sym_false {K} `{PyEqLaws K} (k1 k2 : K) :
  py_eqb k1 k2 = false -> py_eqb k2 k1 = false.
Proof.
  intros Hne. destruct (py_eqb k2 k1) eqn:E; [|done].
  apply py_eqb_sym in E. congruence.
Qed.

(** Equal keys compare alike with any third key. *)
Lemma py_eqb_congr_l {K} `{PyEqLaws K} (k1 k2 k : K) :
  py_eqb k1 k2 = true -> py_eqb k1 k = py_eqb k2 k.
Proof.
  intros E. destruct (py_eqb k1 k) eqn:E1, (py_eqb k2 k) eqn:E2; try done.
  - rewrite (py_eqb_trans k2 k1 k) in E2; [done| by apply py_eqb_sym | done].
  - rewrite (py_eqb_trans k1 k2 k) in E1; done.
Qed.

Lemma py_eqb_congr_r {K} `{PyEqLaws K} (k1 k2 k : K) :
  py_eqb k1 k2 = true -> py_eqb k k1 = py_eqb k k2.
Proof.
  intros E. destruct (py_eqb k k1) eqn:E1, (py_eqb k k2) eqn:E2; try done.
  - rewrite (py_eqb_trans k k1 k2) in E2; done.
  - rewrite (py_eqb_trans k k2 k1) in E1; [done | done | by apply py_eqb_sym].
Qed.

Lemma date_eqb_eq (a b : date) : date_eqb a b = true <-> a = b.
Proof.
  destruct a as [x], b as [y]. unfold date_eqb; simpl. rewrite Z.eqb_eq.
  split; [by intros -> | by intros [= ->]].
Qed.

Lemma datetime_eqb_eq (a b : datetime) : datetime_eqb a b = true <-> a = b.
Proof.
  destruct a as [d1 u1], b as [d2 u2]. unfold datetime_eqb; simpl.
  rewrite andb_true_iff, date_eqb_eq, Z.eqb_eq.
  split; [by intros [-> ->] | by intros [= -> ->]].
Qed.

Lemma Qeq_bool_sym (x y : Q) : Qeq_bool x y = true -> Qeq_bool y x = true.
Proof. rewrite !Qeq_bool_iff. by symmetry. Qed.

Lemma Qeq_bool_trans' (x y z : Q) :
  Qeq_bool x y = true -> Qeq_bool y z = true -> Qeq_bool x z = true.
Proof. rewrite !Qeq_bool_iff. intros -> ->. reflexivity. Qed.

#[global] Instance date_pyeq_laws : PyEqLaws date.
Proof.
  split; unfold py_eqb, date_pyeq.
  - intros k. by apply date_eqb_eq.
  - intros k1 k2. rewrite !date_eqb_eq. by intros ->.
  - intros k1 k2 k3. rewrite !date_eqb_eq. by intros -> ->.
Qed.

#[global] Instance string_pyeq_laws : PyEqLaws string.
Proof.
  split; unfold py_eqb, string_pyeq.
  - intros k. apply String.eqb_refl.
  - intros k1 k2. rewrite !String.eqb_eq. by intros ->.
  - intros k1 k2 k3. rewrite !String.eqb_eq. by intros -> ->.
Qed.

#[global] Instance cell_pyeq_laws : PyEqLaws cell.
Proof.
  split; unfold py_eqb, cell_pyeq.
  - intros [ | b | n | s | dt | d | t]; unfold cell_eqb; simpl;
      try done; try (apply Qeq_bool_iff; reflexivity).
    + apply String.eqb_refl.
    + by apply datetime_eqb_eq.
    + by apply date_eqb_eq.
    + apply Z.eqb_refl.
  - intros [ | b1 | n1 | s1 | dt1 | d1 | t1] [ | b2 | n2 | s2 | dt2 | d2 | t2];
      unfold cell_eqb; simpl; try done; try apply Qeq_bool_sym.
    + rewrite !String.eqb_eq. by intros ->.
    + rewrite !datetime_eqb_eq. by intros ->.
    + rewrite !date_eqb_eq. by intros ->.
    + rewrite !Z.eqb_eq. by intros ->.
  - intros [ | b1 | n1 | s1 | dt1 | d1 | t1] [ | b2 | n2 | s2 | dt2 | d2 | t2]
           [ | b3 | n3 | s3 | dt3 | d3 | t3];
      unfold cell_eqb; simpl; try done; try apply Qeq_bool_trans'.
    + rewrite !String.eqb_eq. by intros -> ->.
    + rewrite !datetime_eqb_eq. by intros -> ->.
    + rewrite !date_eqb_eq. by intros -> ->.
    + rewrite !Z.eqb_eq. by intros -> ->.
Qed.

#[global] Instance pair_pyeq_laws {A B} `{PyEqLaws A, PyEqLaws B} : PyEqLaws (A * B).
Proof.
  split; unfold py_eqb, pair_pyeq.
  - intros [a b]; simpl. by rewrite !py_eqb_refl.
  - intros [a1 b1] [a2 b2]; simpl. rewrite !andb_true_iff.
    intros [? ?]. split; by apply py_eqb_sym.
  - intros [a1 b1] [a2 b2] [a3 b3]; simpl. rewrite !andb_true_iff.
    intros [? ?] [? ?]. split; by eapply py_eqb_trans.
Qed.

(* ===================================================================== *)
(** * Facts about ordered dictionaries *)
(* ===================================================================== *)

Section DictFacts.
Context {K V : Type} `{PyEqLaws K}.
Implicit Types (d : list (K * V)) (k : K) (v : V).

Lemma get_congr d k k' : py_eqb k k' = true -> Dict.get d k = Dict.get d k'.
Proof.
  intros E. induction d as [|[k0 v0] d IH]; simpl; [done|].
  by rewrite (py_eqb_congr_r k k' k0 E), IH.
Qed.

Lemma get_set d k v k' :
  Dict.get (Dict.set d k v) k' = if py_eqb k k' then Some v else Dict.get d k'.
Proof.
  induction d as [|[k0 v0] d IH]; simpl.
  - done.
  - destruct (py_eqb k0 k) eqn:E0; simpl.
    + rewrite (py_eqb_congr_l k0 k k' E0). by destruct (py_eqb k k').
    + rewrite IH. destruct (py_eqb k k') eqn:E1; [|done].
      rewrite <- (py_eqb_congr_r k k' k0 E1), E0. done.
Qed.

Lemma get_default_congr (dflt : V) d k k' :
  py_eqb k k' = true -> Dict.get_default dflt d k = Dict.get_default dflt d k'.
Proof. intros E. unfold Dict.get_default. by rewrite (get_congr d k k' E). Qed.

Lemma get_default_update (dflt : V) (f : V -> V) d k k' :
  Dict.get_default dflt (Dict.update dflt f d k) k'
  = if py_eqb k k' then f (Dict.get_default dflt d k)
    else Dict.get_default dflt d k'.
Proof.
  unfold Dict.update. unfold Dict.get_default at 1. rewrite get_set.
  by destruct (py_eqb k k').
Qed.

Lemma mem_update (dflt : V) (f : V -> V) d k k' :
  Dict.mem (Dict.update dflt f d k) k' = py_eqb k k' || Dict.mem d k'.
Proof.
  unfold Dict.mem, Dict.update. rewrite get_set. by destruct (py_eqb k k').
Qed.

Lemma keys_set d k v :
  map fst (Dict.set d k v)
  = if Dict.mem d k then map fst d else map fst d ++ [k].
Proof.
  unfold Dict.mem. induction d as [|[k0 v0] d IH]; simpl; [done|].
  destruct (py_eqb k0 k); simpl; [done|].
  rewrite IH. by destruct (Dict.get d k).
Qed.

Lemma mem_existsb d k :
  Dict.mem d k = existsb (fun k' => py_eqb k' k) (map fst d).
Proof.
  unfold Dict.mem. induction d as [|[k0 v0] d IH]; simpl; [done|].
  by destruct (py_eqb k0 k).
Qed.

Lemma nodup_keys_set d k v : nodup_keys d -> nodup_keys (Dict.set d k v).
Proof.
  induction d as [|[k0 v0] d IH]; simpl.
  - done.
  - intros [Hk0 Hd]. destruct (py_eqb k0 k) eqn:E; simpl.
    + done.
    + split; [|by apply IH]. rewrite get_set.
      by rewrite (py_eqb_sym_false _ _ E).
Qed.

(** With distinct keys, an entry is what a lookup of its key finds. *)
Lemma nodup_keys_lookup d k v : nodup_keys d -> (k, v) ∈ d -> Dict.get d k = Some v.
Proof.
  induction d as [|[k0 v0] d IH]; simpl.
  - by intros _ ?%elem_of_nil.
  - intros [Hk0 Hd] [[= -> ->]|Hin]%elem_of_cons.
    + by rewrite py_eqb_refl.
    + destruct (py_eqb k0 k) eqn:E; [|by apply IH].
      rewrite (get_congr d k0 k E), (IH Hd Hin) in Hk0. done.
Qed.

Lemma nodup_keys_entries (dflt : V) d :
  nodup_keys d -> d = map (fun k => (k, Dict.get_default dflt d k)) (map fst d).
Proof.
  intros Hd. rewrite map_map.
  transitivity (map (fun kv : K * V => kv) d); [by rewrite map_id|].
  apply map_ext_in. intros [k v] Hin%list_elem_of_In. simpl.
  unfold Dict.get_default. by rewrite (nodup_keys_lookup d k v Hd Hin).
Qed.

End DictFacts.

(* ===================================================================== *)
(** * The bonus engine: one award, one transaction, one day *)
(* ===================================================================== *)

Lemma Qgtb_true (x y : Q) : Qgtb x y = true <-> (y < x)%Q.
Proof.
  unfold Qgtb. rewrite negb_true_iff, <- not_true_iff_false, Qle_bool_iff.
  split; [apply Qnot_le_lt | apply Qlt_not_le].
Qed.

Lemma Qgtb_false (x y : Q) : Qgtb x y = false <-> (x <= y)%Q.
Proof.
  unfold Qgtb. rewrite negb_false_iff. apply Qle_bool_iff.
Qed.

Lemma sum_values_bump (det : list (string * Z)) (cat : string) (amount : Z) :
  sum_values (bump det cat amount) = sum_values det + amount.
Proof.
  unfold bump, Dict.update, Dict.get_default, sum_values.
  induction det as [|[c v] det IH]; simpl.
  - lia.
  - destruct (py_eqb c cat); simpl; lia.
Qed.

Lemma bonus_of_award emp cat amount st emp' :
  bonus_of (fst (award emp cat amount st)) emp'
  = bonus_of (fst st) emp' + (if py_eqb emp emp' then amount else 0).
Proof.
  unfold award, bonus_of, bump; simpl. rewrite get_default_update.
  destruct (py_eqb emp emp') eqn:E; [|lia].
  by rewrite (get_default_congr 0 (fst st) emp emp' E).
Qed.

Lemma breakdown_of_award emp cat amount st emp' :
  breakdown_of (snd (award emp cat amount st)) emp'
  = if py_eqb emp emp' then bump (breakdown_of (snd st) emp') cat amount
    else breakdown_of (snd st) emp'.
Proof.
  unfold award, breakdown_of; simpl. rewrite get_default_update.
  destruct (py_eqb emp emp') eqn:E; [|done].
  by rewrite (get_default_congr [] (snd st) emp emp' E).
Qed.

Lemma detail_of_award emp cat amount st emp' cat' :
  detail_of (snd (award emp cat amount st)) emp' cat'
  = detail_of (snd st) emp' cat'
    + (if py_eqb emp emp' && py_eqb cat cat' then amount else 0).
Proof.
  unfold detail_of. rewrite breakdown_of_award.
  destruct (py_eqb emp emp') eqn:E; simpl; [|lia].
  unfold bump. rewrite get_default_update.
  destruct (py_eqb cat cat') eqn:E'; [|lia].
  by rewrite (get_default_congr 0 _ cat cat' E').
Qed.

Lemma mem_award emp cat amount st emp' :
  Dict.mem (fst (award emp cat amount st)) emp' = (py_eqb emp emp' || Dict.mem (fst st) emp')
  /\ Dict.mem (snd (award emp cat amount st)) emp' = (py_eqb emp emp' || Dict.mem (snd st) emp').
Proof. unfold award, bump; simpl. by rewrite !mem_update. Qed.

Lemma transaction_bonus_detail emp st total emp' cat' :
  detail_of (snd (transaction_bonus emp st total)) emp' cat'
  = detail_of (snd st) emp' cat'
    + (if py_eqb emp emp' && py_eqb CAT_OVER_400 cat' then over_400 total else 0)
    + (if py_eqb emp emp' && py_eqb CAT_OVER_700 cat' then over_700 total else 0).
Proof.
  unfold transaction_bonus, over_400, over_700.
  destruct (Qgtb (num_to_Q total) 400), (Qgtb (num_to_Q total) 700);
    rewrite ?detail_of_award;
    destruct (py_eqb emp emp' && py_eqb CAT_OVER_400 cat'),
             (py_eqb emp emp' && py_eqb CAT_OVER_700 cat'); lia.
Qed.

Lemma transaction_bonus_total emp st total emp' :
  bonus_of (fst (transaction_bonus emp st total)) emp'
  = bonus_of (fst st) emp'
    + (if py_eqb emp emp' then over_400 total + over_700 total else 0).
Proof.
  unfold transaction_bonus, over_400, over_700.
  destruct (Qgtb (num_to_Q total) 400), (Qgtb (num_to_Q total) 700);
    rewrite ?bonus_of_award; destruct (py_eqb emp emp'); lia.
Qed.

Lemma transactions_keep_average_category emp totals st emp' :
  detail_of (snd (fold_left (transaction_bonus emp) totals st)) emp' CAT_AVERAGE
  = detail_of (snd st) emp' CAT_AVERAGE.
Proof.
  revert st. induction totals as [|total totals IH]; intros st; simpl; [done|].
  rewrite IH, transaction_bonus_detail.
  replace (py_eqb CAT_OVER_400 CAT_AVERAGE) with false by done.
  replace (py_eqb CAT_OVER_700 CAT_AVERAGE) with false by done.
  rewrite !andb_false_r. lia.
Qed.

(** C6. Per-transaction thresholds stack: for every transaction total the
    over-400 and the over-700 tests are made independently, each adding its
    own amount to the employee's total and to its own category. A total of
    750 adds 20 and 10 (30 to the total); a total of 500 adds only the 20 of
    the over-400 category. *)
Theorem threshold_stacking (emp : cell) (st : bonuses_t * details_t) :
  (forall total : num,
     let st' := transaction_bonus emp st total in
     bonus_of (fst st') emp
       = bonus_of (fst st) emp
         + (if Qgtb (num_to_Q total) 400 then 20 else 0)
         + (if Qgtb (num_to_Q total) 700 then 10 else 0)
     /\ detail_of (snd st') emp CAT_OVER_400
       = detail_of (snd st) emp CAT_OVER_400
         + (if Qgtb (num_to_Q total) 400 then 20 else 0)
     /\ detail_of (snd st') emp CAT_OVER_700
       = detail_of (snd st) emp CAT_OVER_700
         + (if Qgtb (num_to_Q total) 700 then 10 else 0)
     /\ detail_of (snd st') emp CAT_AVERAGE = detail_of (snd st) emp CAT_AVERAGE)
  /\ (let st' := transaction_bonus emp st (Int 750) in
      bonus_of (fst st') emp = bonus_of (fst st) emp + 20 + 10
      /\ detail_of (snd st') emp CAT_OVER_400 = detail_of (snd st) emp CAT_OVER_400 + 20
      /\ detail_of (snd st') emp CAT_OVER_700 = detail_of (snd st) emp CAT_OVER_700 + 10)
  /\ (let st' := transaction_bonus emp st (Int 500) in
      bonus_of (fst st') emp = bonus_of (fst st) emp + 20
      /\ detail_of (snd st') emp CAT_OVER_400 = detail_of (snd st) emp CAT_OVER_400 + 20
      /\ detail_of (snd st') emp CAT_OVER_700 = detail_of (snd st) emp CAT_OVER_700).
Proof.
  assert (G : forall total : num,
     let st' := transaction_bonus emp st total in
     bonus_of (fst st') emp
       = bonus_of (fst st) emp + over_400 total + over_700 total
     /\ detail_of (snd st') emp CAT_OVER_400
       = detail_of (snd st) emp CAT_OVER_400 + over_400 total
     /\ detail_of (snd st') emp CAT_OVER_700
       = detail_of (snd st) emp CAT_OVER_700 + over_700 total
     /\ detail_of (snd st') emp CAT_AVERAGE = detail_of (snd st) emp CAT_AVERAGE).
  { intros total st'. subst st'.
    rewrite transaction_bonus_total, !transaction_bonus_detail, py_eqb_refl.
    replace (py_eqb CAT_OVER_400 CAT_OVER_400) with true by done.
    replace (py_eqb CAT_OVER_700 CAT_OVER_700) with true by done.
    replace (py_eqb CAT_OVER_400 CAT_OVER_700) with false by done.
    replace (py_eqb CAT_OVER_700 CAT_OVER_400) with false by done.
    replace (py_eqb CAT_OVER_400 CAT_AVERAGE) with false by done.
    replace (py_eqb CAT_OVER_700 CAT_AVERAGE) with false by done.
    simpl. repeat split; lia. }
  split; [|split].
  - intros total. apply (G total).
  - destruct (G (Int 750)) as (Hb & H4 & H7 & _). cbv zeta in *.
    rewrite Hb, H4, H7.
    change (over_400 (Int 750)) with 20. change (over_700 (Int 750)) with 10.
    done.
  - destruct (G (Int 500)) as (Hb & H4 & H7 & _). cbv zeta in *.
    rewrite Hb, H4, H7.
    change (over_400 (Int 500)) with 20. change (over_700 (Int 500)) with 0.
    repeat split; lia.
Qed.

Lemma average_bonus_cases emp st avg :
  exists amount : Z,
    ((150 < avg)%Q /\ amount = 35
     \/ (140 < avg)%Q /\ (avg <= 150)%Q /\ amount = 25
     \/ (130 < avg)%Q /\ (avg <= 140)%Q /\ amount = 20
     \/ (avg <= 130)%Q /\ amount = 0)
    /\ (forall emp',
          bonus_of (fst (average_bonus emp st avg)) emp'
          = bonus_of (fst st) emp' + (if py_eqb emp emp' then amount else 0))
    /\ (forall emp' cat',
          detail_of (snd (average_bonus emp st avg)) emp' cat'
          = detail_of (snd st) emp' cat'
            + (if py_eqb emp emp' && py_eqb CAT_AVERAGE cat' then amount else 0)).
Proof.
  unfold average_bonus.
  destruct (Qgtb avg 150) eqn:E150; [|destruct (Qgtb avg 140) eqn:E140;
    [|destruct (Qgtb avg 130) eqn:E130]];
    rewrite ?Qgtb_true, ?Qgtb_false in *.
  - exists 35. split; [by left|]. split; intros.
    + apply bonus_of_award. + apply detail_of_award.
  - exists 25. split; [right; by left|]. split; intros.
    + apply bonus_of_award. + apply detail_of_award.
  - exists 20. split; [right; right; by left|]. split; intros.
    + apply bonus_of_award. + apply detail_of_award.
  - exists 0. split; [right; right; by right|]. split; intros.
    + destruct (py_eqb emp emp'); lia.
    + destruct (py_eqb emp emp' && py_eqb CAT_AVERAGE cat'); lia.
Qed.

(** C7. Daily-average tiers are exclusive: a day adds to the average
    category of its employee exactly one amount, chosen by strict
    comparisons from the highest tier down: 35 above 150, else 25 above 140,
    else 20 above 130, else nothing. So an average of 141 gets the 25 alone,
    150.01 gets the 35, exactly 150 gets the 25, and 130 gets nothing. *)
Theorem average_tier_exclusive (transactions_count : transactions_count_t)
    (emp : cell) (st : bonuses_t * details_t) (day : date * list num) :
  (exists amount : Z,
     let avg := day_average (snd day) (count_of transactions_count emp (fst day)) in
     ((150 < avg)%Q /\ amount = 35
      \/ (140 < avg)%Q /\ (avg <= 150)%Q /\ amount = 25
      \/ (130 < avg)%Q /\ (avg <= 140)%Q /\ amount = 20
      \/ (avg <= 130)%Q /\ amount = 0)
     /\ detail_of (snd (day_bonuses transactions_count emp st day)) emp CAT_AVERAGE
        = detail_of (snd st) emp CAT_AVERAGE + amount)
  /\ average_bonus emp st 141 = award emp CAT_AVERAGE 25 st
  /\ average_bonus emp st (15001 # 100) = award emp CAT_AVERAGE 35 st
  /\ average_bonus emp st 150 = award emp CAT_AVERAGE 25 st
  /\ average_bonus emp st 130 = st.
Proof.
  split; [|done].
  unfold day_bonuses.
  destruct (average_bonus_cases emp
              (fold_left (transaction_bonus emp) (snd day) st)
              (day_average (snd day) (count_of transactions_count emp (fst day))))
    as (amount & Hcases & _ & Hdetail).
  exists amount. split; [exact Hcases|].
  rewrite Hdetail, transactions_keep_average_category, py_eqb_refl.
  by replace (py_eqb CAT_AVERAGE CAT_AVERAGE) with true by done.
Qed.

(** C8. Zero-count safety: on a day whose transaction count is 0 the
    average is 0 (the division is not made), and the day adds nothing to the
    average category: it is processed as its transactions alone. *)
Theorem zero_count_safety (transactions_count : transactions_count_t)
    (emp : cell) (st : bonuses_t * details_t) (d : date) (totals : list num) :
  count_of transactions_count emp d = 0 ->
  day_average totals (count_of transactions_count emp d) = 0%Q
  /\ day_bonuses transactions_count emp st (d, totals)
     = fold_left (transaction_bonus emp) totals st
  /\ detail_of (snd (day_bonuses transactions_count emp st (d, totals))) emp CAT_AVERAGE
     = detail_of (snd st) emp CAT_AVERAGE.
Proof.
  intros Hcnt. unfold day_bonuses; simpl. rewrite Hcnt.
  split; [done|]. split; [done|].
  change (average_bonus emp (fold_left (transaction_bonus emp) totals st)
            (day_average totals 0))
    with (fold_left (transaction_bonus emp) totals st).
  apply transactions_keep_average_category.
Qed.

Lemma zero_count_safety_witness :
  count_of [] (CStr "A") example_day = 0
  /\ day_average [Int 500] (count_of [] (CStr "A") example_day) = 0%Q
  /\ day_bonuses [] (CStr "A") ([], []) (example_day, [Int 500])
     = ([(CStr "A", 20)], [(CStr "A", [(CAT_OVER_400, 20)])]).
Proof.
  split; [reflexivity|].
  destruct (zero_count_safety [] (CStr "A") ([], []) example_day [Int 500] eq_refl)
    as (Havg & Hday & _).
  split; [exact Havg|]. rewrite Hday. reflexivity.
Defined.

(* ===================================================================== *)
(** * The bonus engine: totals agree with the breakdown *)
(* ===================================================================== *)

Lemma award_consistent emp cat amount st :
  consistent st -> consistent (award emp cat amount st).
Proof.
  intros Hst emp'. destruct (Hst emp') as [Hsum Hmem].
  destruct (mem_award emp cat amount st emp') as [-> ->].
  rewrite bonus_of_award, breakdown_of_award, Hmem.
  split; [|done].
  destruct (py_eqb emp emp'); [|lia].
  rewrite sum_values_bump. lia.
Qed.

Lemma transaction_bonus_consistent emp st total :
  consistent st -> consistent (transaction_bonus emp st total).
Proof.
  intros Hst. unfold transaction_bonus.
  destruct (Qgtb (num_to_Q total) 400), (Qgtb (num_to_Q total) 700);
    auto using award_consistent.
Qed.

Lemma average_bonus_consistent emp st avg :
  consistent st -> consistent (average_bonus emp st avg).
Proof.
  intros Hst. unfold average_bonus.
  destruct (Qgtb avg 150), (Qgtb avg 140), (Qgtb avg 130);
    auto using award_consistent.
Qed.

Lemma day_bonuses_consistent transactions_count emp st day :
  consistent st -> consistent (day_bonuses transactions_count emp st day).
Proof.
  intros Hst. unfold day_bonuses. apply average_bonus_consistent.
  generalize dependent st.
  induction (snd day) as [|total totals IH]; intros st Hst; simpl; [done|].
  apply IH. by apply transaction_bonus_consistent.
Qed.

Lemma employee_consistent transactions_count emp daily st :
  consistent st ->
  consistent (fold_left (day_bonuses transactions_count emp) daily st).
Proof.
  revert st. induction daily as [|day daily IH]; intros st Hst; simpl; [done|].
  apply IH. by apply day_bonuses_consistent.
Qed.

(** C10. For every input of the engine and every employee, the total bonus
    is the sum of the amounts of the employee's breakdown over all its
    categories, and the employee has a total exactly when it has a
    breakdown. (The two source files have the same engine.) *)
Theorem total_is_sum_of_categories (sales_data : daily_totals_t)
    (transactions_count : transactions_count_t) (emp : cell) :
  let out := calculate_transaction_bonuses sales_data transactions_count in
  bonus_of (fst out) emp = sum_values (breakdown_of (snd out) emp)
  /\ Dict.mem (fst out) emp = Dict.mem (snd out) emp.
Proof.
  cbv zeta. revert emp.
  change (consistent (calculate_transaction_bonuses sales_data transactions_count)).
  unfold calculate_transaction_bonuses.
  assert (Hinit : consistent ([], [])) by done.
  revert Hinit. generalize (([], []) : bonuses_t * details_t).
  induction sales_data as [|[emp daily] sales IH]; intros st Hst; simpl; [done|].
  apply IH. by apply employee_consistent.
Qed.

(* ===================================================================== *)
(** * Header search *)
(* ===================================================================== *)

Section HeaderFacts.
Variable str_of : cell -> string.

Local Abbreviation cell_key := (cell_key str_of).
Local Abbreviation scan_row := (scan_row str_of).

(** A label is in the map of a row exactly when it was there before or
    some cell of the row carries it. *)
Lemma scan_row_is_Some (row : list cell) (n : nat) (m : gmap string nat) (l : string) :
  is_Some (scan_row n row m !! l)
  <-> is_Some (m !! l)
      \/ exists j value, row !! j = Some value /\ cell_key value = Some l.
Proof.
  revert n m. induction row as [|v row IH]; intros n m; simpl.
  - split; [by left|]. intros [?|(j & value & Hj & _)]; [done|].
    by rewrite lookup_nil in Hj.
  - rewrite IH. split.
    + intros [Hm|(j & value & Hj & Hk)].
      * destruct (cell_key v) as [key|] eqn:Ev; [|by left].
        destruct (decide (key = l)) as [->|Hne].
        -- right. by exists 0%nat, v.
        -- left. by rewrite lookup_insert_ne in Hm.
      * right. by exists (S j), value.
    + intros [Hm|([|j] & value & Hj & Hk)].
      * left. destruct (cell_key v) as [key|]; [|done].
        destruct (decide (key = l)) as [->|Hne].
        -- rewrite lookup_insert_eq. by eexists.
        -- by rewrite lookup_insert_ne.
      * simpl in Hj. injection Hj as ->. rewrite Hk. left.
        rewrite lookup_insert_eq. by eexists.
      * right. by exists j, value.
Qed.

(** The index kept for a label is that of its last cell in the row. *)
Lemma scan_row_lookup (row : list cell) (n : nat) (m : gmap string nat)
    (l : string) (i : nat) :
  scan_row n row m !! l = Some i
  <-> (exists j value,
         i = (n + j)%nat /\ row !! j = Some value /\ cell_key value = Some l
         /\ forall j' value', (j < j')%nat -> row !! j' = Some value' ->
                              cell_key value' <> Some l)
      \/ (m !! l = Some i
          /\ forall j value, row !! j = Some value -> cell_key value <> Some l).
Proof.
  revert n m. induction row as [|v row IH]; intros n m; simpl.
  - split.
    + intros Hm. right. split; [done|]. intros j value Hj.
      by rewrite lookup_nil in Hj.
    + intros [(j & value & _ & Hj & _)|[Hm _]]; [|done].
      by rewrite lookup_nil in Hj.
  - rewrite IH. clear IH. split.
    + intros [(j & value & -> & Hj & Hk & Hlast)|[Hm Hnone]].
      * left. exists (S j), value. split; [lia|]; split; [done|]; split; [done|].
        intros [|j'] value' Hlt Hj'; [lia|]. apply (Hlast j' value'); [lia|done].
      * destruct (cell_key v) as [key|] eqn:Ev.
        -- destruct (decide (key = l)) as [->|Hne].
           ++ rewrite lookup_insert_eq in Hm. injection Hm as <-.
              left. exists 0%nat, v. split; [lia|]; split; [done|]; split; [done|].
              intros [|j'] value' Hlt Hj'; [lia|]. by apply (Hnone j' value').
           ++ rewrite lookup_insert_ne in Hm by done.
              right. split; [done|]. intros [|j] value Hj.
              ** simpl in Hj. injection Hj as <-. rewrite Ev. by intros [= ->].
              ** by apply (Hnone j value).
        -- right. split; [done|]. intros [|j] value Hj.
           ++ simpl in Hj. injection Hj as <-. by rewrite Ev.
           ++ by apply (Hnone j value).
    + intros [([|j] & value & -> & Hj & Hk & Hlast)|[Hm Hnone]].
      * simpl in Hj. injection Hj as ->. rewrite Hk. right.
        split; [rewrite lookup_insert_eq; f_equal; lia|].
        intros j0 value0 Hj0. apply (Hlast (S j0) value0); [lia|done].
      * left. exists j, value. split; [lia|]; split; [done|]; split; [done|].
        intros j' value' Hlt Hj'. apply (Hlast (S j') value'); [lia|done].
      * right. split.
        -- destruct (cell_key v) as [key|] eqn:Ev; [|done].
           rewrite lookup_insert_ne; [done|]. intros ->.
           by apply (Hnone 0%nat v).
        -- intros j value Hj. by apply (Hnone (S j) value).
Qed.

Lemma build_col_idx_last (row : list cell) (l : string) (i : nat) :
  build_col_idx str_of row !! l = Some i
  <-> exists value,
        row !! i = Some value /\ cell_key value = Some l
        /\ forall j value', (i < j)%nat -> row !! j = Some value' ->
                            cell_key value' <> Some l.
Proof.
  unfold build_col_idx. rewrite scan_row_lookup. split.
  - intros [(j & value & -> & Hj & Hk & Hlast)|[Hm _]].
    + by exists value.
    + by rewrite lookup_empty in Hm.
  - intros (value & Hi & Hk & Hlast). left. by exists i, value.
Qed.

Lemma covers_spec (row : list cell) (required_cols : list string) :
  covers str_of row required_cols
  <-> forall col, col ∈ required_cols -> is_Some (build_col_idx str_of row !! col).
Proof.
  unfold covers, build_col_idx.
  split; intros Hc col Hin; specialize (Hc col Hin).
  - apply scan_row_is_Some. by right.
  - apply scan_row_is_Some in Hc as [Hm|Hc]; [|done].
    rewrite lookup_empty in Hm. by destruct Hm.
Qed.

Lemma is_header_covers (row : list cell) (required_cols : list string) :
  is_header (build_col_idx str_of row) required_cols = true ->
  covers str_of row required_cols.
Proof.
  unfold is_header. rewrite andb_true_iff, forallb_forall. intros [_ Hall].
  apply covers_spec. intros col Hin%list_elem_of_In.
  specialize (Hall col Hin). by apply bool_decide_eq_true_1 in Hall.
Qed.

Lemma covers_is_header (row : list cell) (required_cols : list string) :
  required_cols <> [] -> covers str_of row required_cols ->
  is_header (build_col_idx str_of row) required_cols = true.
Proof.
  intros Hne Hc0. pose proof (proj1 (covers_spec _ _) Hc0) as Hc.
  unfold is_header.
  rewrite andb_true_iff, forallb_forall. split.
  - destruct required_cols as [|col cols]; [done|].
    destruct (Hc col) as [i Hi]; [by left|].
    apply negb_true_iff, bool_decide_eq_false. intros Hempty.
    by rewrite Hempty, lookup_empty in Hi.
  - intros col Hin%list_elem_of_In. by apply bool_decide_eq_true_2, Hc.
Qed.

Lemma find_header_from_first (n : nat) (pre : sheet) (row : list cell)
    (post : sheet) (required_cols : list string) :
  required_cols <> [] ->
  (forall r, r ∈ pre -> ~ covers str_of r required_cols) ->
  covers str_of row required_cols ->
  find_header_from str_of n (pre ++ row :: post) required_cols
  = Ok ((n + length pre)%nat, build_col_idx str_of row).
Proof.
  intros Hne Hpre Hrow. revert n.
  induction pre as [|r pre IH]; intros n; simpl.
  - rewrite covers_is_header by done. do 2 f_equal. lia.
  - destruct (is_header (build_col_idx str_of r) required_cols) eqn:E.
    + apply is_header_covers in E. destruct (Hpre r); [by left|done].
    + rewrite IH; [do 2 f_equal; lia|].
      intros r' Hr'. apply Hpre. by right.
Qed.

Lemma find_header_from_none (n : nat) (sh : sheet) (required_cols : list string) :
  (forall r, r ∈ sh -> ~ covers str_of r required_cols) ->
  find_header_from str_of n sh required_cols = Raise (KeyError HEADER_NOT_FOUND).
Proof.
  revert n. induction sh as [|r sh IH]; intros n Hsh; simpl; [done|].
  destruct (is_header (build_col_idx str_of r) required_cols) eqn:E.
  - apply is_header_covers in E. destruct (Hsh r); [by left|done].
  - apply IH. intros r' Hr'. apply Hsh. by right.
Qed.

End HeaderFacts.

(** C3. Header search: when row k is the first row whose labels (the
    non-empty trimmed values of its cells) contain all the required ones,
    the search returns k (rows are numbered from 1) with the map of that row,
    and the map sends a label to the index of its last cell in the row. *)
Theorem header_search (str_of : cell -> string) (pre : sheet) (row : list cell)
    (post : sheet) (required_cols : list string) :
  required_cols <> [] ->
  (forall r, r ∈ pre -> ~ covers str_of r required_cols) ->
  covers str_of row required_cols ->
  exists col_idx : gmap string nat,
    find_header_row str_of (pre ++ row :: post) required_cols
    = Ok (S (length pre), col_idx)
    /\ forall (l : string) (i : nat),
         col_idx !! l = Some i
         <-> exists value,
               row !! i = Some value /\ cell_key str_of value = Some l
               /\ forall j value', (i < j)%nat -> row !! j = Some value' ->
                                   cell_key str_of value' <> Some l.
Proof.
  intros Hne Hpre Hrow. exists (build_col_idx str_of row). split.
  - unfold find_header_row. by rewrite find_header_from_first.
  - apply build_col_idx_last.
Qed.

Lemma header_search_witness :
  exists col_idx : gmap string nat,
    find_header_row (fun _ => EmptyString)
      ([[CStr "Sales export"; CNone; CNone]]
         ++ [CStr " price "; CStr "name"; CStr "price"] :: [[CNum (Int 7); CStr "A"; CNone]])
      ["price"; "name"]
    = Ok (2%nat, col_idx)
    /\ col_idx !! "price" = Some 2%nat.
Proof.
  destruct (header_search (fun _ => EmptyString)
              [[CStr "Sales export"; CNone; CNone]]
              [CStr " price "; CStr "name"; CStr "price"]
              [[CNum (Int 7); CStr "A"; CNone]]
              ["price"; "name"]) as (col_idx & Hfind & Hlast).
  - discriminate.
  - intros r Hr%list_elem_of_In Hc. destruct Hr as [<-|[]].
    destruct (Hc "name") as (i & value & Hi & Hk).
    { apply list_elem_of_In. right. by left. }
    destruct i as [|[|[|i]]]; simpl in Hi; try discriminate;
      injection Hi as <-; discriminate.
  - intros col Hcol%list_elem_of_In. destruct Hcol as [<-|[<-|[]]].
    + by exists 0%nat, (CStr " price ").
    + by exists 1%nat, (CStr "name").
  - exists col_idx. split; [exact Hfind|]. apply Hlast.
    exists (CStr "price"). split; [reflexivity|]. split; [reflexivity|].
    intros j value' Hj Hv. destruct j as [|[|[|j]]]; try lia; discriminate.
Defined.

(** C4, against the claim as stated: the exception of a failed search does
    not carry the required labels. No reading of the exception gives them
    back, since one and the same exception is raised whatever they are. *)
Lemma header_error_without_labels :
  ~ exists labels_of : exn -> list string,
      forall (sh : sheet) (required_cols : list string) (e : exn),
        find_header_row (fun _ => EmptyString) sh required_cols = Raise e ->
        forall l : string, l ∈ labels_of e <-> l ∈ required_cols.
Proof.
  intros (labels_of & Hlabels).
  pose proof (Hlabels [] ["a"] (KeyError HEADER_NOT_FOUND) eq_refl "a") as Ha.
  pose proof (Hlabels [] ["b"] (KeyError HEADER_NOT_FOUND) eq_refl "a") as Hb.
  assert (Hin : "a" ∈ ["b"]).
  { apply Hb, Ha, list_elem_of_In. by left. }
  apply list_elem_of_In in Hin. destruct Hin as [Heq|[]]. discriminate.
Qed.

(** C4, as the code has it: on a sheet none of whose rows has all the
    required labels, the search returns no result and raises; the exception
    is a [KeyError] whose argument is a fixed message. *)
Theorem header_absence (str_of : cell -> string) (sh : sheet)
    (required_cols : list string) :
  (forall r, r ∈ sh -> ~ covers str_of r required_cols) ->
  find_header_row str_of sh required_cols = Raise (KeyError HEADER_NOT_FOUND).
Proof. intros Hsh. by apply find_header_from_none. Qed.

Lemma header_absence_witness :
  find_header_row (fun _ => EmptyString)
    [[CStr "Sales export"; CNone]; [CStr COL_EMPLOYEE; CStr COL_DATE]]
    REQUIRED_COLS
  = Raise (KeyError HEADER_NOT_FOUND).
Proof.
  apply (header_absence (fun _ => EmptyString)).
  intros r Hr%list_elem_of_In Hc.
  destruct (Hc COL_INVOICE) as (i & value & Hi & Hk).
  { apply list_elem_of_In. by left. }
  destruct Hr as [<-|[<-|[]]];
    (destruct i as [|[|i]]; simpl in Hi; try discriminate;
     injection Hi as <-; vm_compute in Hk; discriminate).
Defined.

(* ===================================================================== *)
(** * The end-to-end example *)
(* ===================================================================== *)

(** C1. One employee A, one day, two invoices: invoice 1 with the lines
    100 x 2 and 50 x 1, invoice 2 with the line 800 x 1. The run counts 2
    transactions with totals [250, 800]; their average is 525; the bonus of
    A is 65, made of 20 (over 400), 10 (over 700) and 35 (average). *)
Theorem end_to_end_example (str_of : cell -> string) :
  analyze_workbook str_of example_sheet
  = Ok {| bonuses := [(CStr "A", 65)];
          details := [(CStr "A", [(CAT_OVER_400, 20); (CAT_OVER_700, 10);
                                  (CAT_AVERAGE, 35)])];
          daily_totals := [(CStr "A", [(example_day, [Int 250; Int 800])])];
          transactions_count := [(CStr "A", [(example_day, 2)])] |}
  /\ (day_average [Int 250; Int 800] 2 == 525)%Q.
Proof. split; [vm_compute; reflexivity | reflexivity]. Qed.

(* ===================================================================== *)
(** * Parsing the text of a date *)
(* ===================================================================== *)

(** Case analysis on an integer known to lie in a range: [enum k n lo]
    tries [lo], [lo + 1], ... ([n] values) and closes what is left with
    the bounds at hand. *)
Ltac enum k n lo :=
  lazymatch n with
  | O => exfalso; lia
  | S ?n' =>
      let lo' := eval compute in (lo + 1) in
      destruct (Z.eq_dec k lo) as [->|?]; [|enum k n' lo']
  end.

Section StrptimeFacts.
Import Strptime.

Lemma digit_char_spec (k : Z) :
  0 <= k <= 9 ->
  is_digit (digit_char k) = true /\ dval (digit_char k) = k
  /\ is_space (digit_char k) = false.
Proof. intros Hk. enum k 10%nat 0; done. Qed.

Lemma first_some_head {A B} (k : A -> option B) (x : A) (xs : list A) (b : B) :
  k x = Some b -> first_some k (x :: xs) = Some b.
Proof. simpl. by intros ->. Qed.

Lemma first_some_Some {A B} (k : A -> option B) (xs : list A) (b : B) :
  first_some k xs = Some b -> exists x, In x xs /\ k x = Some b.
Proof.
  induction xs as [|x xs IH]; simpl; [done|].
  destruct (k x) as [b'|] eqn:E.
  - intros [= ->]. exists x. by split; [left|].
  - intros (x' & Hin & Hk)%IH. exists x'. by split; [right|].
Qed.

Lemma run_lit (c : ascii) (fmt : list directive) (f : fields) (rest : list ascii) :
  run (Lit c :: fmt) f (c :: rest) = run fmt f rest.
Proof. simpl. rewrite Ascii.eqb_refl. simpl. by destruct (run fmt f rest). Qed.

Lemma run_d (d : Z) fmt f rest x :
  1 <= d <= 31 ->
  run fmt (Fields (f_year f) (f_month f) d (f_hour f) (f_minute f)) rest = Some x ->
  run (Dir_d :: fmt) f (two_digits d ++ rest) = Some x.
Proof.
  intros Hd Hrun. enum d 31%nat 1;
    (apply (first_some_head (fun '(f', r) => run fmt f' r)); exact Hrun).
Qed.

Lemma run_m (m : Z) fmt f rest x :
  1 <= m <= 12 ->
  run fmt (Fields (f_year f) m (f_day f) (f_hour f) (f_minute f)) rest = Some x ->
  run (Dir_m :: fmt) f (two_digits m ++ rest) = Some x.
Proof.
  intros Hm Hrun. enum m 12%nat 1;
    (apply (first_some_head (fun '(f', r) => run fmt f' r)); exact Hrun).
Qed.

Lemma run_H (hh : Z) fmt f rest x :
  0 <= hh < 24 ->
  run fmt (Fields (f_year f) (f_month f) (f_day f) hh (f_minute f)) rest = Some x ->
  run (Dir_H :: fmt) f (two_digits hh ++ rest) = Some x.
Proof.
  intros Hh Hrun. enum hh 24%nat 0;
    (apply (first_some_head (fun '(f', r) => run fmt f' r)); exact Hrun).
Qed.

Lemma run_M (mm : Z) fmt f rest x :
  0 <= mm < 60 ->
  run fmt (Fields (f_year f) (f_month f) (f_day f) (f_hour f) mm) rest = Some x ->
  run (Dir_M :: fmt) f (two_digits mm ++ rest) = Some x.
Proof.
  intros Hm Hrun. enum mm 60%nat 0;
    (apply (first_some_head (fun '(f', r) => run fmt f' r)); exact Hrun).
Qed.

Lemma four_digits_value (y : Z) :
  0 <= y <= 9999 ->
  0 <= y / 1000 <= 9 /\ 0 <= y / 100 mod 10 <= 9 /\ 0 <= y / 10 mod 10 <= 9
  /\ 0 <= y mod 10 <= 9
  /\ 10 * (10 * (10 * (10 * 0 + y / 1000) + y / 100 mod 10) + y / 10 mod 10)
     + y mod 10 = y.
Proof. intros Hy. repeat split; Z.div_mod_to_equations; lia. Qed.

Lemma run_Y (y : Z) fmt f rest x :
  0 <= y <= 9999 ->
  run fmt (Fields y (f_month f) (f_day f) (f_hour f) (f_minute f)) rest = Some x ->
  run (Dir_Y :: fmt) f (four_digits y ++ rest) = Some x.
Proof.
  intros Hy Hrun.
  destruct (four_digits_value y Hy) as (H1 & H2 & H3 & H4 & Hval).
  destruct (digit_char_spec _ H1) as (D1 & V1 & _).
  destruct (digit_char_spec _ H2) as (D2 & V2 & _).
  destruct (digit_char_spec _ H3) as (D3 & V3 & _).
  destruct (digit_char_spec _ H4) as (D4 & V4 & _).
  unfold four_digits. simpl. unfold alts, group_Y. simpl.
  rewrite D1, D2, D3, D4, V1, V2, V3, V4, Hval. simpl.
  by rewrite Hrun.
Qed.

Lemma run_spaces (k : Z) fmt f (rest : list ascii) :
  0 <= k <= 9 ->
  run (Spaces :: fmt) f (" "%char :: digit_char k :: rest)
  = run fmt f (digit_char k :: rest).
Proof.
  intros Hk. destruct (digit_char_spec k Hk) as (_ & _ & Hs).
  simpl. rewrite Hs. simpl. by destruct (run fmt f (digit_char k :: rest)).
Qed.
End StrptimeFacts.

Section StrptimeFailures.
Import Strptime.

Lemma alt_suffix classes acc s v r :
  In (v, r) (alt classes acc s) -> exists p, s = p ++ r.
Proof.
  revert acc s. induction classes as [|p ps IH]; intros acc s; simpl.
  - intros [[= _ ->]|[]]. by exists [].
  - destruct s as [|c s]; [done|]. destruct (p c); [|done].
    intros (q & ->)%IH. by exists (c :: q).
Qed.

Lemma alts_suffix group s v r :
  In (v, r) (alts group s) -> exists p, s = p ++ r.
Proof.
  unfold alts. rewrite in_flat_map. intros (classes & _ & Hin).
  by eapply alt_suffix.
Qed.

Lemma spaces_suffix s r : In r (spaces s) -> exists p, s = p ++ r.
Proof.
  induction s as [|c s IH]; simpl; [done|].
  destruct (is_space c); [|done].
  rewrite in_app_iff. intros [(p & ->)%IH|[<-|[]]].
  - by exists (c :: p).
  - by exists [c].
Qed.

Lemma candidates_suffix d f s f' r :
  In (f', r) (candidates d f s) ->
  (exists p, s = p ++ r) /\ (forall c, d = Lit c -> s = c :: r).
Proof.
  destruct d as [| | | | |c0|]; unfold candidates;
    try (rewrite in_map_iff; intros ([v r'] & [= _ ->] & Hin);
         split; [by eapply alts_suffix|done]).
  - destruct s as [|c' s]; [done|].
    destruct (Ascii.eqb c0 c') eqn:E; [|done].
    apply Ascii.eqb_eq in E as <-. intros [[= _ ->]|[]].
    split; [by exists [c0]|]. by intros ? [= <-].
  - rewrite in_map_iff. intros (r' & [= _ ->] & Hin).
    split; [by apply spaces_suffix|done].
Qed.

(** A literal character of the format occurs in any text the format
    matches. *)
Lemma run_needs_literal fmt f s f' r c :
  run fmt f s = Some (f', r) -> In (Lit c) fmt -> In c s.
Proof.
  revert f s. induction fmt as [|d fmt IH]; intros f s; simpl; [done|].
  intros ([f1 r1] & Hin & Hrun)%first_some_Some Hlit.
  destruct (candidates_suffix _ _ _ _ _ Hin) as [(p & ->) Hc].
  destruct Hlit as [->|Hlit].
  - rewrite (Hc c eq_refl). by left.
  - apply in_app_iff. right. by eapply IH.
Qed.

Lemma strptime_needs_literal (text : list ascii) fmt c :
  In (Lit c) fmt -> ~ In c text ->
  strptime (string_of_list_ascii text) fmt = None.
Proof.
  intros Hlit Hc. unfold strptime. rewrite list_ascii_of_string_of_list_ascii.
  destruct (run fmt default_fields text) as [[f r]|] eqn:E; [|done].
  destruct Hc. by eapply run_needs_literal.
Qed.

Lemma text_dmy_chars y m d c :
  0 <= y <= 9999 -> 0 <= m <= 99 -> 0 <= d <= 99 ->
  In c (text_dmy y m d) -> is_digit c = true \/ c = "/"%char.
Proof.
  intros Hy Hm Hd. unfold text_dmy, two_digits, four_digits. simpl.
  intros H. repeat (destruct H as [<-|H]); try done; try (by right);
    left; apply digit_char_spec; Z.div_mod_to_equations; lia.
Qed.

Lemma text_ymd_chars y m d c :
  0 <= y <= 9999 -> 0 <= m <= 99 -> 0 <= d <= 99 ->
  In c (text_ymd y m d) -> is_digit c = true \/ c = "-"%char.
Proof.
  intros Hy Hm Hd. unfold text_ymd, two_digits, four_digits. simpl.
  intros H. repeat (destruct H as [<-|H]); try done; try (by right);
    left; apply digit_char_spec; Z.div_mod_to_equations; lia.
Qed.

End StrptimeFailures.

Section ParseDateFacts.
Import Strptime.

Lemma make_date_valid y m d date :
  Calendar.make_date y m d = Some date ->
  1 <= y <= 9999 /\ 1 <= m <= 12 /\ 1 <= d <= 31.
Proof.
  unfold Calendar.make_date, Calendar.MINYEAR, Calendar.MAXYEAR.
  destruct (1 <=? y) eqn:E1, (y <=? 9999) eqn:E2, (1 <=? m) eqn:E3,
           (m <=? 12) eqn:E4, (1 <=? d) eqn:E5,
           (d <=? Calendar.days_in_month y m) eqn:E6; simpl; try done.
  intros _.
  assert (Calendar.days_in_month y m <= 31).
  { unfold Calendar.days_in_month.
    destruct (m =? 2), (Calendar.is_leap y),
      ((m =? 4) || (m =? 6) || (m =? 9) || (m =? 11)); lia. }
  lia.
Qed.

Lemma run_text_dmy y m d fmt rest x :
  1 <= y <= 9999 -> 1 <= m <= 12 -> 1 <= d <= 31 ->
  run fmt (Fields y m d 0 0) rest = Some x ->
  run ([Dir_d; Lit "/"; Dir_m; Lit "/"; Dir_Y] ++ fmt) default_fields
      (two_digits d ++ "/"%char :: two_digits m ++ "/"%char :: four_digits y ++ rest)
  = Some x.
Proof.
  intros Hy Hm Hd Hrun.
  apply run_d; [lia|]. rewrite run_lit.
  apply run_m; [lia|]. rewrite run_lit.
  apply run_Y; [lia|]. exact Hrun.
Qed.

Lemma strptime_text_dmy y m d date :
  Calendar.make_date y m d = Some date ->
  strptime (string_of_list_ascii (text_dmy y m d)) fmt_dmy = Some (DateTime date 0).
Proof.
  intros Hdate. destruct (make_date_valid _ _ _ _ Hdate) as (Hy & Hm & Hd).
  unfold strptime. rewrite list_ascii_of_string_of_list_ascii.
  assert (E : run fmt_dmy default_fields (text_dmy y m d)
              = Some (Fields y m d 0 0, [])).
  { pose proof (run_text_dmy y m d [] [] (Fields y m d 0 0, []) Hy Hm Hd eq_refl) as R.
    rewrite app_nil_r in R. exact R. }
  rewrite E. simpl. by rewrite Hdate.
Qed.

Lemma strptime_text_dmy_hm y m d hh mm date :
  Calendar.make_date y m d = Some date -> 0 <= hh < 24 -> 0 <= mm < 60 ->
  strptime (string_of_list_ascii (text_dmy_hm y m d hh mm)) fmt_dmy_hm
  = Some (DateTime date ((hh * 60 + mm) * 60000000)).
Proof.
  intros Hdate Hh Hmm. destruct (make_date_valid _ _ _ _ Hdate) as (Hy & Hm & Hd).
  unfold strptime. rewrite list_ascii_of_string_of_list_ascii.
  assert (E : run fmt_dmy_hm default_fields (text_dmy_hm y m d hh mm)
              = Some (Fields y m d hh mm, [])).
  { unfold text_dmy_hm, text_dmy.
    rewrite <- !app_assoc, <- !app_comm_cons, <- !app_assoc, <- !app_comm_cons.
    apply (run_text_dmy y m d [Spaces; Dir_H; Lit ":"; Dir_M]); [done..|].
    change (two_digits hh ++ ":"%char :: two_digits mm)
      with (digit_char (hh / 10) :: digit_char (hh mod 10) :: ":"%char :: two_digits mm).
    rewrite run_spaces by (Z.div_mod_to_equations; lia).
    apply (run_H hh _ _ (":"%char :: two_digits mm)); [done|].
    rewrite run_lit.
    apply (run_M mm [] _ []); [done|]. reflexivity. }
  rewrite E. simpl. by rewrite Hdate.
Qed.

Lemma strptime_text_ymd y m d date :
  Calendar.make_date y m d = Some date ->
  strptime (string_of_list_ascii (text_ymd y m d)) fmt_ymd = Some (DateTime date 0).
Proof.
  intros Hdate. destruct (make_date_valid _ _ _ _ Hdate) as (Hy & Hm & Hd).
  unfold strptime. rewrite list_ascii_of_string_of_list_ascii.
  assert (E : run fmt_ymd default_fields (text_ymd y m d)
              = Some (Fields y m d 0 0, [])).
  { unfold text_ymd, fmt_ymd.
    apply run_Y; [lia|]. rewrite run_lit.
    apply run_m; [lia|]. rewrite run_lit.
    apply (run_d d [] _ []); [lia|]. reflexivity. }
  rewrite E. simpl. by rewrite Hdate.
Qed.

(** Each of the three texts of a date parses to that date. *)
Lemma parse_date_texts y m d hh mm date :
  Calendar.make_date y m d = Some date -> 0 <= hh < 24 -> 0 <= mm < 60 ->
  parse_date (string_of_list_ascii (text_dmy_hm y m d hh mm)) = Some date
  /\ parse_date (string_of_list_ascii (text_ymd y m d)) = Some date
  /\ parse_date (string_of_list_ascii (text_dmy y m d)) = Some date.
Proof.
  intros Hdate Hh Hmm. destruct (make_date_valid _ _ _ _ Hdate) as (Hy & Hm & Hd).
  unfold parse_date, parse_date_formats, parse_date_with. split; [|split].
  - by rewrite (strptime_text_dmy_hm y m d hh mm date).
  - rewrite (strptime_needs_literal (text_ymd y m d) fmt_dmy_hm "/").
    + by rewrite (strptime_text_ymd y m d date).
    + right. by left.
    + intros [Hc|Hc]%text_ymd_chars; [done|done|lia..].
  - rewrite (strptime_needs_literal (text_dmy y m d) fmt_dmy_hm ":").
    + rewrite (strptime_needs_literal (text_dmy y m d) fmt_ymd "-").
      * by rewrite (strptime_text_dmy y m d date).
      * right. by left.
      * intros [Hc|Hc]%text_dmy_chars; [done|done|lia..].
    + do 7 right. by left.
    + intros [Hc|Hc]%text_dmy_chars; [done|done|lia..].
Qed.

End ParseDateFacts.

(* ===================================================================== *)
(** * Date normalization *)
(* ===================================================================== *)

(** The two constants of the calendar are the ordinals of 1899-12-30 and
    of 9999-12-31. *)
Lemma calendar_constants :
  Calendar.make_date 1899 12 30 = Some (Date Excel.EPOCH_ORDINAL)
  /\ Calendar.make_date 9999 12 31 = Some (Date Calendar.MAXORDINAL)
  /\ Calendar.make_date 1 1 1 = Some (Date 1).
Proof. by vm_compute. Qed.

Lemma py_round_zero (x : Q) : (x == 0)%Q -> Excel.py_round x = 0.
Proof.
  intros Hx. unfold Excel.py_round.
  rewrite (Qfloor_comp x 0 Hx). change (Qfloor 0) with 0.
  assert (E : (x - inject_Z 0 == 0)%Q).
  { apply Qeq_trans with x; [ring|exact Hx]. }
  by rewrite (Qcompare_comp _ _ E (1 # 2) (1 # 2) (Qeq_refl _)).
Qed.

Lemma Qgtb_inject_Z (a b : Z) : Qgtb (inject_Z a) (inject_Z b) = (b <? a).
Proof.
  destruct (b <? a) eqn:E.
  - apply Qgtb_true. rewrite <- Zlt_Qlt. lia.
  - apply Qgtb_false. rewrite <- Zle_Qle. lia.
Qed.

(** A whole serial from 1 on is a day: the epoch plus the serial, plus one
    below 60. *)
Lemma from_excel_whole (s : Z) :
  1 <= s -> Excel.EPOCH_ORDINAL + s + 1 <= Calendar.MAXORDINAL ->
  Excel.from_excel (inject_Z s)
  = Ok (Excel.XDateTime
          (DateTime (Date (Excel.EPOCH_ORDINAL + (if s <? 60 then s + 1 else s))) 0)).
Proof.
  intros Hs Hmax. unfold Excel.from_excel.
  rewrite Qfloor_Z.
  rewrite (py_round_zero ((inject_Z s - inject_Z s)
                          * inject_Z (Excel.SECS_PER_DAY * 1000))) by ring.
  change 1%Q with (inject_Z 1). change 0%Q with (inject_Z 0).
  change 60%Q with (inject_Z 60). rewrite !Qgtb_inject_Z.
  replace (s <? 1) with false by lia. rewrite andb_false_r. simpl.
  replace (0 <? s) with true by lia. simpl.
  unfold Excel.EPOCH_ORDINAL, Calendar.MAXORDINAL in *.
  change (0 `div` (Excel.SECS_PER_DAY * 1000)) with 0.
  change (0 `mod` (Excel.SECS_PER_DAY * 1000) * 1000) with 0.
  destruct (s <? 60) eqn:E.
  - replace (1 <=? 693594 + (s + 1) + 0) with true by lia.
    replace (693594 + (s + 1) + 0 <=? 3652059) with true by lia.
    simpl. do 4 f_equal. lia.
  - replace (1 <=? 693594 + s + 0) with true by lia.
    replace (693594 + s + 0 <=? 3652059) with true by lia.
    simpl. do 4 f_equal. lia.
Qed.

Lemma normalize_date_whole (s : Z) :
  1 <= s -> Excel.EPOCH_ORDINAL + s + 1 <= Calendar.MAXORDINAL ->
  normalize_date (CNum (Int s))
  = Ok (Some (Date (Excel.EPOCH_ORDINAL + (if s <? 60 then s + 1 else s))))
  /\ normalize_date (CNum (Float (inject_Z s)))
     = Ok (Some (Date (Excel.EPOCH_ORDINAL + (if s <? 60 then s + 1 else s)))).
Proof.
  intros Hs Hmax. unfold normalize_date. simpl.
  by rewrite (from_excel_whole s Hs Hmax).
Qed.

(** C5. Date normalization. The rules apply in this order: a datetime gives
    its date; else a number goes through the serial conversion (a whole
    serial s from 60 on is the day s after 1899-12-30, one from 1 to 59 the
    day s + 1 after it; 45000 is 2023-03-15; a boolean is a number); else a
    text is parsed with day/month/year hour:minute, then year-month-day,
    then day/month/year, the first format that parses giving the date, and
    each of the three texts of a calendar date parses to that date; a text
    that no format parses, and every other value (the empty cell included),
    gives the decode failure [Ok None], not an exception. *)
Theorem date_normalization :
  (forall dt, normalize_date (CDateTime dt) = Ok (Some (dt_date dt)))
  /\ (forall n,
        normalize_date (CNum n)
        = (x ← Excel.from_excel (num_to_Q n); d ← Excel.date_of x; Ok (Some d)))
  /\ (forall s, 60 <= s -> 693594 + s < 3652059 ->
        normalize_date (CNum (Int s)) = Ok (Some (Date (693594 + s)))
        /\ normalize_date (CNum (Float (inject_Z s))) = Ok (Some (Date (693594 + s))))
  /\ (forall s, 1 <= s < 60 ->
        normalize_date (CNum (Int s)) = Ok (Some (Date (693594 + s + 1))))
  /\ normalize_date (CNum (Int 45000)) = Ok (Calendar.make_date 2023 3 15)
  /\ normalize_date (CNum (Float (90001 # 2))) = Ok (Calendar.make_date 2023 3 15)
  /\ normalize_date (CNum (Int 36526)) = Ok (Calendar.make_date 2000 1 1)
  /\ normalize_date (CNum (Int 1)) = Ok (Calendar.make_date 1900 1 1)
  /\ normalize_date (CBool true) = Ok (Calendar.make_date 1900 1 1)
  /\ (forall s, normalize_date (CStr s) = Ok (parse_date s))
  /\ (forall s,
        parse_date s
        = match Strptime.strptime s Strptime.fmt_dmy_hm with
          | Some dt => Some (dt_date dt)
          | None =>
              match Strptime.strptime s Strptime.fmt_ymd with
              | Some dt => Some (dt_date dt)
              | None =>
                  match Strptime.strptime s Strptime.fmt_dmy with
                  | Some dt => Some (dt_date dt)
                  | None => None
                  end
              end
          end)
  /\ (forall y m d hh mm date,
        Calendar.make_date y m d = Some date -> 0 <= hh < 24 -> 0 <= mm < 60 ->
        normalize_date (CStr (string_of_list_ascii (text_dmy_hm y m d hh mm)))
        = Ok (Some date)
        /\ normalize_date (CStr (string_of_list_ascii (text_ymd y m d)))
           = Ok (Some date)
        /\ normalize_date (CStr (string_of_list_ascii (text_dmy y m d)))
           = Ok (Some date))
  /\ normalize_date (CStr "15/03/2023 10:05") = Ok (Calendar.make_date 2023 3 15)
  /\ normalize_date (CStr "2023-03-15") = Ok (Calendar.make_date 2023 3 15)
  /\ normalize_date (CStr "15/03/2023") = Ok (Calendar.make_date 2023 3 15)
  /\ (forall s,
        (forall fmt, In fmt parse_date_formats -> Strptime.strptime s fmt = None) ->
        normalize_date (CStr s) = Ok None)
  /\ normalize_date (CStr "March 15, 2023") = Ok None
  /\ normalize_date (CStr "31/02/2023") = Ok None
  /\ normalize_date CNone = Ok None
  /\ (forall d, normalize_date (CDate d) = Ok None)
  /\ (forall t, normalize_date (CTime t) = Ok None).
Proof.
  split; [done|]. split; [done|].
  split.
  { intros s Hs Hmax.
    destruct (normalize_date_whole s) as [H1 H2];
      [lia | unfold Excel.EPOCH_ORDINAL, Calendar.MAXORDINAL; lia |].
    rewrite H1, H2. unfold Excel.EPOCH_ORDINAL.
    by replace (s <? 60) with false by lia. }
  split.
  { intros s Hs.
    destruct (normalize_date_whole s) as [H1 _];
      [lia | unfold Excel.EPOCH_ORDINAL, Calendar.MAXORDINAL; lia |].
    rewrite H1. unfold Excel.EPOCH_ORDINAL.
    replace (s <? 60) with true by lia. do 3 f_equal. lia. }
  do 5 (split; [by vm_compute|]).
  split; [done|]. split; [done|].
  split.
  { intros y m d hh mm date Hdate Hh Hmm.
    destruct (parse_date_texts y m d hh mm date Hdate Hh Hmm) as (P1 & P2 & P3).
    unfold normalize_date. by rewrite P1, P2, P3. }
  do 3 (split; [by vm_compute|]).
  split.
  { intros s Hnone. unfold normalize_date, parse_date, parse_date_formats,
      parse_date_with.
    rewrite !Hnone; [done|simpl; auto..]. }
  do 2 (split; [by vm_compute|]).
  done.
Qed.

(* ===================================================================== *)
(** * Skipped rows *)
(* ===================================================================== *)

(** A row that reads without error and whose date is the decode failure,
    or whose employee is missing, or whose unit price is missing, leaves
    the invoices as they were. *)
Lemma skipped_row_leaves_invoices (col_idx : gmap string nat)
    (per_invoice : per_invoice_t) (row : list cell)
    (invoice emp date_raw unit qty : cell) (date : option date) :
  field col_idx row COL_INVOICE = Ok invoice ->
  field col_idx row COL_EMPLOYEE = Ok emp ->
  field col_idx row COL_DATE = Ok date_raw ->
  field col_idx row COL_UNIT_PRICE = Ok unit ->
  quantity col_idx row = Ok qty ->
  normalize_date date_raw = Ok date ->
  date = None \/ truthy emp = false \/ unit = CNone ->
  decode_row col_idx row = Ok None
  /\ process_row col_idx per_invoice row = Ok per_invoice.
Proof.
  intros Hi He Hd Hu Hq Hn Hskip.
  assert (E : decode_row col_idx row = Ok None).
  { unfold decode_row. rewrite Hi, He, Hd, Hu, Hq. simpl. rewrite Hn. simpl.
    destruct date as [d|]; [|done].
    destruct Hskip as [?|[->| ->]]; [done|done|].
    by rewrite andb_false_r. }
  split; [exact E|]. unfold process_row. by rewrite E.
Qed.

(** C9, at the failing input. The row has no employee, so it is to be
    skipped; its date cell holds the number 0.5. [from_excel] makes a time
    of it, [.date()] raises [AttributeError], and the run ends with that
    exception, whatever was aggregated before. With the text 0.5 in the
    same cell the row is skipped. *)
Theorem time_serial_row_raises (str_of : cell -> string)
    (per_invoice : per_invoice_t) :
  normalize_date (CNum (Float (1 # 2))) = Raise AttributeError
  /\ process_row (build_col_idx str_of example_header) per_invoice time_serial_row
     = Raise AttributeError
  /\ analyze_workbook str_of (example_sheet ++ [time_serial_row])
     = Raise AttributeError
  /\ process_row (build_col_idx str_of example_header) per_invoice time_text_row
     = Ok per_invoice.
Proof. repeat split; vm_compute; reflexivity. Qed.

(* ===================================================================== *)
(** * Invoice grouping: from rows to invoices *)
(* ===================================================================== *)

Lemma priced_mul (it : line_item) (n : num) :
  priced it = Some n -> py_mul (li_unit it) (li_qty it) = Ok (CNum n).
Proof.
  unfold priced, py_mul.
  destruct (as_num (li_unit it)) as [u|], (as_num (li_qty it)) as [q|]; try done.
  by intros [= <-].
Qed.

Lemma process_rows_items (col_idx : gmap string nat) (rows : sheet)
    (items : list line_item) (per_invoice : per_invoice_t) :
  line_items col_idx rows = Ok items ->
  (forall it, In it items -> is_Some (priced it)) ->
  for_each (process_row col_idx) rows per_invoice
  = Ok (invoices_after items per_invoice).
Proof.
  revert items per_invoice.
  induction rows as [|row rows IH]; intros items per_invoice; simpl.
  - by intros [= <-] _.
  - unfold process_row.
    destruct (decode_row col_idx row) as [[it|]|e]; simpl; [| |done].
    + destruct (line_items col_idx rows) as [its|e] eqn:E; simpl; [|done].
      intros [= <-] Hpriced.
      destruct (Hpriced it) as [n Hn]; [by left|].
      unfold add_line_item. rewrite (priced_mul it n Hn). simpl.
      rewrite (IH its); [|done|by intros; apply Hpriced; right].
      unfold invoices_after at 2. simpl. by rewrite Hn.
    + destruct (line_items col_idx rows) as [its|e] eqn:E; simpl; [|done].
      intros [= <-] Hpriced. by apply IH.
Qed.

Section TwoLevels.
Context {K1 K2 V : Type} `{PyEqLaws K1} `{PyEqLaws K2}.
Implicit Types (d : list (K1 * list (K2 * V))).

(** Reading [d[k1'][k2']] after [d[k1][k2] = f(d[k1][k2])], both levels
    being [defaultdict]s. *)
Lemma get2_update2 (dflt : V) (f : V -> V) d k1 k2 k1' k2' :
  Dict.get_default dflt
    (Dict.get_default []
       (Dict.update [] (fun inner => Dict.update dflt f inner k2) d k1) k1') k2'
  = if py_eqb k1 k1' && py_eqb k2 k2'
    then f (Dict.get_default dflt (Dict.get_default [] d k1') k2')
    else Dict.get_default dflt (Dict.get_default [] d k1') k2'.
Proof.
  rewrite get_default_update.
  destruct (py_eqb k1 k1') eqn:E1; simpl; [|done].
  rewrite (get_default_congr [] d k1 k1' E1), get_default_update.
  destruct (py_eqb k2 k2') eqn:E2; [|done].
  by rewrite (get_default_congr dflt _ k2 k2' E2).
Qed.

Lemma inner_update2 (dflt : V) (f : V -> V) d k1 k2 k1' :
  Dict.get_default []
    (Dict.update [] (fun inner => Dict.update dflt f inner k2) d k1) k1'
  = if py_eqb k1 k1'
    then Dict.update dflt f (Dict.get_default [] d k1') k2
    else Dict.get_default [] d k1'.
Proof.
  rewrite get_default_update.
  destruct (py_eqb k1 k1') eqn:E1; [|done].
  by rewrite (get_default_congr [] d k1 k1' E1).
Qed.

Lemma keys_update (dflt : V) (f : V -> V) (inner : list (K2 * V)) k2 :
  map fst (Dict.update dflt f inner k2)
  = map fst inner
    ++ firsts_from (map fst inner) [k2].
Proof.
  unfold Dict.update. rewrite keys_set, mem_existsb. simpl.
  destruct (existsb (fun k' => py_eqb k' k2) (map fst inner)).
  - by rewrite app_nil_r.
  - done.
Qed.

Lemma nodup_keys_get_default d k1 :
  (forall e, In e d -> nodup_keys (snd e)) ->
  nodup_keys (Dict.get_default [] d k1).
Proof.
  intros Hall. unfold Dict.get_default.
  induction d as [|[k v] d IH]; simpl; [done|].
  destruct (py_eqb k k1).
  - apply (Hall (k, v)). by left.
  - apply IH. intros e He. apply Hall. by right.
Qed.

Lemma nodup_keys_update2 (dflt : V) (f : V -> V) d k1 k2 :
  nodup_keys d -> (forall e, In e d -> nodup_keys (snd e)) ->
  let d' := Dict.update [] (fun inner => Dict.update dflt f inner k2) d k1 in
  nodup_keys d' /\ (forall e, In e d' -> nodup_keys (snd e)).
Proof.
  intros Hd Hall. split.
  - by apply nodup_keys_set.
  - unfold Dict.update.
    assert (Hnew : nodup_keys (Dict.set (Dict.get_default [] d k1) k2
                                 (f (Dict.get_default dflt (Dict.get_default [] d k1) k2)))).
    { apply nodup_keys_set. by apply nodup_keys_get_default. }
    revert Hnew. generalize (Dict.set (Dict.get_default [] d k1) k2
                               (f (Dict.get_default dflt (Dict.get_default [] d k1) k2))).
    intros v Hv. clear Hd.
    induction d as [|[k0 v0] d IH]; simpl.
    + by intros e [<-|[]].
    + destruct (py_eqb k0 k1); simpl.
      * intros e [<-|He]; [done|]. apply Hall. by right.
      * intros e [<-|He]; [apply (Hall (k0, v0)); by left|].
        apply IH; [|done]. intros e' He'. apply Hall. by right.
Qed.

End TwoLevels.

Lemma firsts_from_cons {K} `{PyEq K} (seen : list K) (k : K) (ks : list K) :
  firsts_from seen (k :: ks)
  = firsts_from seen [k] ++ firsts_from (seen ++ firsts_from seen [k]) ks.
Proof.
  simpl. destruct (existsb (fun k' => py_eqb k' k) seen); simpl.
  - by rewrite app_nil_r.
  - done.
Qed.

(** The lines recorded for an invoice are the products of the items that
    have its employee, date and identifier, in the order of the rows. *)
Lemma invoices_after_lines (items : list line_item) (per_invoice : per_invoice_t)
    (emp : cell) (key : date * cell) :
  Dict.get_default [] (Dict.get_default [] (invoices_after items per_invoice) emp) key
  = Dict.get_default [] (Dict.get_default [] per_invoice emp) key
    ++ map CNum
         (omap priced
            (List.filter
               (fun it => py_eqb (li_emp it) emp
                          && py_eqb (li_date it, li_invoice it) key)
               items)).
Proof.
  revert per_invoice. induction items as [|it items IH]; intros per_invoice.
  - simpl. by rewrite app_nil_r.
  - unfold invoices_after. simpl. fold (invoices_after items).
    destruct (priced it) as [n|] eqn:En.
    + rewrite IH. unfold append_line. rewrite get2_update2.
      destruct (py_eqb (li_emp it) emp && py_eqb (li_date it, li_invoice it) key).
      * simpl. rewrite En. simpl. by rewrite <- app_assoc.
      * done.
    + rewrite IH.
      destruct (py_eqb (li_emp it) emp && py_eqb (li_date it, li_invoice it) key).
      * simpl. by rewrite En.
      * done.
Qed.

(** The invoices of an employee are listed in the order in which their
    keys are first met in the rows. *)
Lemma invoices_after_keys (items : list line_item) (per_invoice : per_invoice_t)
    (emp : cell) :
  (forall it, In it items -> is_Some (priced it)) ->
  map fst (Dict.get_default [] (invoices_after items per_invoice) emp)
  = map fst (Dict.get_default [] per_invoice emp)
    ++ firsts_from (map fst (Dict.get_default [] per_invoice emp))
         (map (fun it => (li_date it, li_invoice it))
              (List.filter (fun it => py_eqb (li_emp it) emp) items)).
Proof.
  revert per_invoice. induction items as [|it items IH]; intros per_invoice Hpriced.
  - simpl. by rewrite app_nil_r.
  - unfold invoices_after. simpl. fold (invoices_after items).
    destruct (Hpriced it) as [n Hn]; [by left|]. rewrite Hn.
    rewrite IH by (intros; apply Hpriced; by right).
    unfold append_line. rewrite inner_update2. cbn [List.filter].
    destruct (py_eqb (li_emp it) emp); [|done].
    cbn [map]. rewrite firsts_from_cons, keys_update.
    by rewrite <- app_assoc.
Qed.

Lemma invoices_after_nodup (items : list line_item) (per_invoice : per_invoice_t) :
  nodup_keys per_invoice -> (forall e, In e per_invoice -> nodup_keys (snd e)) ->
  nodup_keys (invoices_after items per_invoice)
  /\ (forall e, In e (invoices_after items per_invoice) -> nodup_keys (snd e)).
Proof.
  revert per_invoice. induction items as [|it items IH]; intros per_invoice Hd Hall.
  - done.
  - unfold invoices_after. simpl. fold (invoices_after items).
    destruct (priced it) as [n|]; [|by apply IH].
    apply IH; by apply nodup_keys_update2.
Qed.

(* ===================================================================== *)
(** * Invoice grouping: from invoices to daily statistics *)
(* ===================================================================== *)

Section ValuesFacts.
Context {K V : Type} `{PyEq K}.

Lemma Forall_values_set (P : V -> Prop) (d : list (K * V)) (k : K) (v : V) :
  Forall (fun e => P (snd e)) d -> P v ->
  Forall (fun e => P (snd e)) (Dict.set d k v).
Proof.
  intros Hd Hv. induction Hd as [|[k0 v0] d H0 Hd IH]; simpl.
  - by constructor.
  - destruct (py_eqb k0 k); by constructor.
Qed.

Lemma Forall_values_get_default (P : V -> Prop) (dflt : V) (d : list (K * V)) (k : K) :
  Forall (fun e => P (snd e)) d -> P dflt -> P (Dict.get_default dflt d k).
Proof.
  intros Hd Hdflt. unfold Dict.get_default.
  induction Hd as [|[k0 v0] d H0 Hd IH]; simpl; [done|].
  by destruct (py_eqb k0 k).
Qed.

Lemma Forall_values_update (P : V -> Prop) (dflt : V) (f : V -> V)
    (d : list (K * V)) (k : K) :
  Forall (fun e => P (snd e)) d -> P dflt -> (forall v, P v -> P (f v)) ->
  Forall (fun e => P (snd e)) (Dict.update dflt f d k).
Proof.
  intros Hd Hdflt Hf. apply Forall_values_set; [done|].
  by apply Hf, Forall_values_get_default.
Qed.
End ValuesFacts.

Lemma invoices_after_numeric (items : list line_item) (per_invoice : per_invoice_t) :
  Forall (fun e => numeric_invoices (snd e)) per_invoice ->
  Forall (fun e => numeric_invoices (snd e)) (invoices_after items per_invoice).
Proof.
  revert per_invoice. induction items as [|it items IH]; intros per_invoice Hpi.
  - done.
  - unfold invoices_after. simpl. fold (invoices_after items).
    destruct (priced it) as [n|]; [|by apply IH].
    apply IH. unfold append_line.
    apply (Forall_values_update numeric_invoices); [done|by constructor|].
    intros invoices Hinv. unfold numeric_invoices.
    apply (Forall_values_update (Forall (fun c => is_Some (as_num c))));
      [done|by constructor|].
    intros lines Hlines. apply Forall_app. split; [done|].
    constructor; [by eexists|by constructor].
Qed.

Lemma py_sum_numeric (lines : list cell) :
  Forall (fun c => is_Some (as_num c)) lines ->
  py_sum lines = Ok (lines_total lines).
Proof.
  unfold py_sum, lines_total, num_sum. generalize (Int 0).
  induction lines as [|c lines IH]; intros acc Hl; simpl; [done|].
  inversion Hl as [|? ? [n Hn] Hl']; subst. rewrite Hn. simpl. by apply IH.
Qed.

Lemma day_totals_cons (d0 : date) (inv : cell) (lines : list cell)
    (invoices : list (date * cell * list cell)) (d : date) :
  day_totals ((d0, inv, lines) :: invoices) d
  = (if py_eqb d0 d then [lines_total lines] else []) ++ day_totals invoices d.
Proof. unfold day_totals. simpl. by destruct (py_eqb d0 d). Qed.

Lemma summarise_invoice_numeric (emp' : cell) (tc : transactions_count_t)
    (dt : daily_totals_t) (d0 : date) (inv : cell) (lines : list cell) :
  Forall (fun c => is_Some (as_num c)) lines ->
  summarise_invoice emp' (tc, dt) (d0, inv, lines)
  = Ok (Dict.update [] (fun counts => bump counts d0 1) tc emp',
        Dict.update []
          (fun days => Dict.update [] (fun totals => totals ++ [lines_total lines]) days d0)
          dt emp').
Proof.
  intros Hlines. unfold summarise_invoice. cbn [fst snd].
  by rewrite (py_sum_numeric lines Hlines).
Qed.

(** The loop over the invoices of one employee. *)
Lemma summarise_invoices_spec (emp' : cell)
    (invoices : list (date * cell * list cell))
    (tc : transactions_count_t) (dt : daily_totals_t) :
  numeric_invoices invoices ->
  exists tc' dt',
    for_each (summarise_invoice emp') invoices (tc, dt) = Ok (tc', dt')
    /\ forall emp d,
         totals_of dt' emp d
         = totals_of dt emp d
           ++ (if py_eqb emp' emp then day_totals invoices d else [])
         /\ count_of tc' emp d
            = count_of tc emp d
              + Z.of_nat (length (if py_eqb emp' emp then day_totals invoices d else [])).
Proof.
  intros Hnum. revert tc dt.
  induction Hnum as [|[[d0 inv] lines] invoices Hlines Hnum IH]; intros tc dt.
  - exists tc, dt. split; [done|]. intros emp d.
    destruct (py_eqb emp' emp); simpl; rewrite ?app_nil_r; split; (done || lia).
  - simpl in Hlines. cbn [for_each].
    rewrite (summarise_invoice_numeric emp' tc dt d0 inv lines Hlines).
    cbn [mbind result_bind].
    match goal with
    | |- context [for_each _ invoices (?a, ?b)] =>
        destruct (IH a b) as (tc' & dt' & Hrun & Hspec)
    end.
    exists tc', dt'. split; [exact Hrun|]. intros emp d.
    destruct (Hspec emp d) as [Ht Hc]. rewrite Ht, Hc. clear Hspec Ht Hc Hrun.
    unfold totals_of, count_of, bump. rewrite !get2_update2, day_totals_cons.
    destruct (py_eqb emp' emp), (py_eqb d0 d); simpl;
      rewrite <- ?app_assoc, ?app_nil_r; simpl; split; (done || lia).
Qed.

(** The loop over the employees. *)
Lemma summarise_from_spec (per_invoice : per_invoice_t)
    (tc : transactions_count_t) (dt : daily_totals_t) :
  Forall (fun e => numeric_invoices (snd e)) per_invoice ->
  exists tc' dt',
    for_each (fun st e => for_each (summarise_invoice (fst e)) (snd e) st)
             per_invoice (tc, dt) = Ok (tc', dt')
    /\ forall emp d,
         totals_of dt' emp d
         = totals_of dt emp d
           ++ flat_map (fun e => if py_eqb (fst e) emp then day_totals (snd e) d else [])
                       per_invoice
         /\ count_of tc' emp d
            = count_of tc emp d
              + Z.of_nat (length (flat_map
                   (fun e => if py_eqb (fst e) emp then day_totals (snd e) d else [])
                   per_invoice)).
Proof.
  intros Hnum. revert tc dt.
  induction Hnum as [|[emp' invoices] per_invoice Hinv Hnum IH]; intros tc dt.
  - exists tc, dt. split; [done|]. intros emp d. simpl.
    rewrite app_nil_r. split; (done || lia).
  - simpl in Hinv. cbn [for_each fst snd].
    destruct (summarise_invoices_spec emp' invoices tc dt Hinv)
      as (tc1 & dt1 & Hrun1 & Hspec1).
    rewrite Hrun1. cbn [mbind result_bind].
    destruct (IH tc1 dt1) as (tc' & dt' & Hrun & Hspec).
    exists tc', dt'. split; [exact Hrun|]. intros emp d.
    destruct (Hspec emp d) as [Ht Hc]. destruct (Hspec1 emp d) as [Ht1 Hc1].
    rewrite Ht, Hc, Ht1, Hc1. simpl. rewrite !length_app, <- app_assoc.
    split; (done || lia).
Qed.

(** With distinct keys, only the entry of the employee contributes. *)
Lemma flat_map_entry {A B} (g : list A -> list B) (d : list (cell * list A))
    (emp : cell) :
  g [] = [] -> nodup_keys d ->
  flat_map (fun e => if py_eqb (fst e) emp then g (snd e) else []) d
  = g (Dict.get_default [] d emp).
Proof.
  intros Hg. unfold Dict.get_default.
  induction d as [|[k v] d IH]; simpl; [done|].
  intros [Hk Hd]. destruct (py_eqb k emp) eqn:E.
  - rewrite (get_congr d k emp E) in Hk.
    rewrite IH, Hk, Hg, app_nil_r; done.
  - by apply IH.
Qed.

(* ===================================================================== *)
(** * Invoice grouping: the distinct invoices of a day *)
(* ===================================================================== *)

Lemma filter_map_comm {A B} (p : B -> bool) (f : A -> B) (l : list A) :
  List.filter p (map f l) = map f (List.filter (fun x => p (f x)) l).
Proof.
  induction l as [|x l IH]; simpl; [done|].
  destruct (p (f x)); simpl; by rewrite IH.
Qed.

Lemma filter_filter {A} (p q : A -> bool) (l : list A) :
  List.filter p (List.filter q l) = List.filter (fun x => q x && p x) l.
Proof.
  induction l as [|x l IH]; simpl; [done|].
  destruct (q x); simpl; [destruct (p x)|]; by rewrite IH.
Qed.

Lemma seen_on_day (seen : list (date * cell)) (d' d : date) (inv : cell) :
  py_eqb d' d = true ->
  existsb (fun k' => py_eqb k' (d', inv)) seen
  = existsb (fun i' => py_eqb i' inv)
            (map snd (List.filter (fun k => py_eqb (fst k) d) seen)).
Proof.
  intros ->%date_eqb_eq.
  induction seen as [|[d1 i1] seen IH]; simpl; [done|].
  rewrite IH. unfold py_eqb at 1, pair_pyeq. simpl.
  destruct (py_eqb d1 d); simpl; done.
Qed.

(** Keeping the keys of a day and forgetting the date commutes with
    keeping first occurrences. *)
Lemma firsts_from_day (seen ks : list (date * cell)) (d : date) :
  map snd (List.filter (fun k => py_eqb (fst k) d) (firsts_from seen ks))
  = firsts_from (map snd (List.filter (fun k => py_eqb (fst k) d) seen))
                (map snd (List.filter (fun k => py_eqb (fst k) d) ks)).
Proof.
  revert seen. induction ks as [|[d' inv] ks IH]; intros seen; simpl; [done|].
  destruct (py_eqb d' d) eqn:Ed; simpl.
  - rewrite <- (seen_on_day seen d' d inv Ed).
    destruct (existsb (fun k' => py_eqb k' (d', inv)) seen); simpl.
    + apply IH.
    + rewrite Ed. simpl. rewrite IH, List.filter_app, map_app. simpl.
      by rewrite Ed.
  - destruct (existsb (fun k' => py_eqb k' (d', inv)) seen); simpl.
    + apply IH.
    + rewrite Ed, IH, List.filter_app, map_app. simpl. rewrite Ed. simpl.
      by rewrite app_nil_r.
Qed.

Lemma firsts_on_day (ks : list (date * cell)) (d : date) :
  map snd (List.filter (fun k => py_eqb (fst k) d) (firsts_from [] ks))
  = firsts_from [] (map snd (List.filter (fun k => py_eqb (fst k) d) ks)).
Proof. exact (firsts_from_day [] ks d). Qed.

Lemma lines_total_nums (ns : list num) : lines_total (map CNum ns) = num_sum ns.
Proof.
  unfold lines_total. f_equal. induction ns as [|n ns IH]; [done|].
  simpl. f_equal. exact IH.
Qed.

(** The totals of a day of an employee, read off the invoices built from
    the items: one per distinct invoice of the day, each the sum of the
    products of its items. *)
Lemma day_totals_after (items : list line_item) (emp : cell) (d : date) :
  (forall it, In it items -> is_Some (priced it)) ->
  day_totals (Dict.get_default [] (invoices_after items []) emp) d
  = map (invoice_total items emp d) (invoices_of items emp d).
Proof.
  intros Hpriced.
  destruct (invoices_after_nodup items []) as [Hnd Hinner]; [done|done|].
  pose proof (nodup_keys_get_default (invoices_after items []) emp Hinner) as Hemp.
  pose proof (invoices_after_keys items [] emp Hpriced) as Hkeys.
  simpl in Hkeys.
  unfold day_totals.
  rewrite (nodup_keys_entries [] _ Hemp), Hkeys.
  rewrite filter_map_comm, map_map. simpl.
  unfold invoices_of, firsts, items_of_day.
  rewrite <- (filter_filter (fun it => py_eqb (li_date it) d)
                            (fun it => py_eqb (li_emp it) emp)).
  rewrite <- (map_map (fun it => (li_date it, li_invoice it)) snd).
  rewrite <- (filter_map_comm (fun k => py_eqb (fst k) d)
                (fun it => (li_date it, li_invoice it))).
  rewrite <- firsts_on_day, map_map.
  apply map_ext_in. intros [d' inv] [_ Hd]%List.filter_In. simpl in Hd |- *.
  apply date_eqb_eq in Hd as ->.
  pose proof (invoices_after_lines items [] emp (d, inv)) as Hlines.
  simpl in Hlines. rewrite Hlines, lines_total_nums.
  unfold invoice_total, items_of_day. rewrite filter_filter.
  do 2 f_equal. apply List.filter_ext. intros it.
  unfold py_eqb at 2, pair_pyeq. simpl. by rewrite andb_assoc.
Qed.

(** [firsts] keeps one representative of every key: no two of them are
    equal, and every key is equal to one of them. *)
Lemma firsts_from_distinct {K} `{PyEq K} (seen ks : list K) :
  ForallOrdPairs (fun a b => py_eqb a b = false) (firsts_from seen ks)
  /\ Forall (fun k => existsb (fun k' => py_eqb k' k) seen = false)
            (firsts_from seen ks).
Proof.
  revert seen. induction ks as [|k ks IH]; intros seen; simpl.
  - split; constructor.
  - destruct (existsb (fun k' => py_eqb k' k) seen) eqn:E; [apply IH|].
    destruct (IH (seen ++ [k])) as [Hpairs Hnew]. split.
    + constructor; [|done].
      eapply Forall_impl; [exact Hnew|]. intros x Hx. simpl in Hx.
      rewrite existsb_app in Hx. apply orb_false_elim in Hx as [_ Hx].
      simpl in Hx. by rewrite orb_false_r in Hx.
    + constructor; [done|].
      eapply Forall_impl; [exact Hnew|]. intros x Hx. simpl in Hx.
      rewrite existsb_app in Hx. by apply orb_false_elim in Hx as [Hx _].
Qed.

Lemma firsts_from_complete {K} `{PyEqLaws K} (seen ks : list K) (k : K) :
  In k ks -> existsb (fun k' => py_eqb k' k) (seen ++ firsts_from seen ks) = true.
Proof.
  revert seen. induction ks as [|k0 ks IH]; intros seen; simpl; [done|].
  intros Hin.
  destruct (existsb (fun k' => py_eqb k' k0) seen) eqn:E.
  - destruct Hin as [<-|Hin]; [|by apply IH].
    rewrite existsb_app, E. done.
  - replace (seen ++ k0 :: firsts_from (seen ++ [k0]) ks)
      with ((seen ++ [k0]) ++ firsts_from (seen ++ [k0]) ks)
      by (by rewrite <- app_assoc).
    destruct Hin as [<-|Hin]; [|by apply IH].
    rewrite !existsb_app. simpl. rewrite py_eqb_refl.
    by rewrite orb_true_r.
Qed.

(** C2. Invoice grouping. When the rows are read without error and keep
    the items [items], all with numeric unit price and quantity, the
    aggregator returns; the totals it records for an employee and a day are,
    in the order of first appearance, one per distinct invoice identifier
    seen for that employee and day, each the sum of [unit * qty] over all the
    items of that employee, day and invoice; and the transaction count of the
    day is the number of these distinct identifiers. *)
Theorem invoice_grouping (col_idx : gmap string nat) (rows : sheet)
    (items : list line_item) :
  line_items col_idx rows = Ok items ->
  (forall it, In it items -> is_Some (priced it)) ->
  exists (tc : transactions_count_t) (dt : daily_totals_t),
    aggregate col_idx rows = Ok (tc, dt)
    /\ forall (emp : cell) (d : date),
         totals_of dt emp d
         = map (invoice_total items emp d) (invoices_of items emp d)
         /\ length (totals_of dt emp d) = length (invoices_of items emp d)
         /\ count_of tc emp d = Z.of_nat (length (invoices_of items emp d))
         /\ ForallOrdPairs (fun a b => py_eqb a b = false) (invoices_of items emp d)
         /\ (forall it, In it (items_of_day items emp d) ->
              existsb (fun inv => py_eqb inv (li_invoice it))
                      (invoices_of items emp d) = true).
Proof.
  intros Hitems Hpriced. unfold aggregate.
  rewrite (process_rows_items col_idx rows items [] Hitems Hpriced).
  cbn [mbind result_bind]. unfold summarise.
  destruct (summarise_from_spec (invoices_after items []) [] [])
    as (tc & dt & Hrun & Hspec).
  { by apply invoices_after_numeric. }
  exists tc, dt. split; [exact Hrun|]. intros emp d.
  destruct (Hspec emp d) as [Ht Hc].
  destruct (invoices_after_nodup items []) as [Hnd _]; [done|done|].
  rewrite (flat_map_entry (fun invoices => day_totals invoices d)
             (invoices_after items []) emp eq_refl Hnd) in Ht, Hc.
  rewrite (day_totals_after items emp d Hpriced) in Ht, Hc.
  rewrite Ht, Hc. simpl. rewrite !length_map. split; [done|]. split; [done|].
  split; [change (count_of [] emp d) with 0; lia|].
  split.
  - apply (firsts_from_distinct [] (map li_invoice (items_of_day items emp d))).
  - intros it Hit.
    apply (firsts_from_complete [] (map li_invoice (items_of_day items emp d))).
    by apply in_map.
Qed.

Lemma invoice_grouping_witness :
  exists (tc : transactions_count_t) (dt : daily_totals_t),
    aggregate (build_col_idx (fun _ => EmptyString) example_header)
              (drop 3 example_sheet) = Ok (tc, dt)
    /\ totals_of dt (CStr "A") example_day = [Int 250; Int 800]
    /\ count_of tc (CStr "A") example_day = 2.
Proof.
  destruct (invoice_grouping
              (build_col_idx (fun _ => EmptyString) example_header)
              (drop 3 example_sheet)
              [ LineItem (CStr "A") example_day (CNum (Int 1)) (CNum (Int 100)) (CNum (Int 2));
                LineItem (CStr "A") example_day (CNum (Int 1)) (CNum (Int 50)) (CNum (Int 1));
                LineItem (CStr "A") example_day (CNum (Int 2)) (CNum (Int 800)) (CNum (Int 1)) ])
    as (tc & dt & Hrun & Hspec).
  - vm_compute. reflexivity.
  - intros it [<-|[<-|[<-|[]]]]; eexists; reflexivity.
  - exists tc, dt. split; [exact Hrun|].
    destruct (Hspec (CStr "A") example_day) as (Ht & _ & Hc & _).
    rewrite Ht, Hc. split; vm_compute; reflexivity.
Defined.

(* ===================================================================== *)
(** * What a successful header search returns *)
(* ===================================================================== *)

Section HeaderSound.
Variable str_of : cell -> string.

Lemma find_header_from_sound (n : nat) (sh : sheet) (required_cols : list string)
    (k : nat) (m : gmap string nat) :
  find_header_from str_of n sh required_cols = Ok (k, m) ->
  exists pre row post,
    sh = pre ++ row :: post /\ k = (n + length pre)%nat
    /\ m = build_col_idx str_of row
    /\ is_header m required_cols = true
    /\ forall r, In r pre -> is_header (build_col_idx str_of r) required_cols = false.
Proof.
  revert n. induction sh as [|r sh IH]; intros n; simpl; [done|].
  destruct (is_header (build_col_idx str_of r) required_cols) eqn:E.
  - intros [= <- <-]. exists [], r, sh. simpl.
    split; [done|]. split; [lia|]. done.
  - intros (pre & row & post & -> & -> & -> & Hrow & Hpre)%IH.
    exists (r :: pre), row, post. simpl.
    split; [done|]. split; [lia|]. split; [done|]. split; [done|].
    intros r' [<-|Hr']; [done|by apply Hpre].
Qed.

(** Every index of the map of a row is the position of a cell of the row
    that carries the label. *)
Lemma build_col_idx_in_row (row : list cell) (l : string) (i : nat) :
  build_col_idx str_of row !! l = Some i ->
  (i < length row)%nat
  /\ exists value, row !! i = Some value /\ cell_key str_of value = Some l.
Proof.
  intros (value & Hi & Hk & _)%build_col_idx_last. split.
  - by eapply lookup_lt_Some.
  - by exists value.
Qed.

End HeaderSound.

(** X1. What a successful header search returns: the number (from 1) of a
    row of the sheet, with the map of that row; the map is not empty, every
    required label is in it, every index in it is a position of that row
    whose cell carries the label, and no earlier row was acceptable (when
    something is required: no earlier row has all the required labels). *)
Theorem header_search_sound (str_of : cell -> string) (sh : sheet)
    (required_cols : list string) (k : nat) (col_idx : gmap string nat) :
  find_header_row str_of sh required_cols = Ok (k, col_idx) ->
  exists pre row post,
    sh = pre ++ row :: post /\ k = S (length pre)
    /\ sh !! (k - 1)%nat = Some row
    /\ col_idx <> ∅
    /\ covers str_of row required_cols
    /\ (forall l, In l required_cols -> is_Some (col_idx !! l))
    /\ (forall l i, col_idx !! l = Some i ->
          (i < length row)%nat
          /\ exists value, row !! i = Some value /\ cell_key str_of value = Some l)
    /\ (required_cols <> [] ->
        forall r, In r pre -> ~ covers str_of r required_cols).
Proof.
  intros (pre & row & post & -> & -> & -> & Hrow & Hpre)%find_header_from_sound.
  exists pre, row, post.
  split; [done|]. split; [done|].
  split. { apply list_lookup_middle. lia. }
  pose proof Hrow as Hrow'. unfold is_header in Hrow'.
  apply andb_true_iff in Hrow' as [Hne Hall].
  split. { intros Hempty. by rewrite bool_decide_eq_true_2 in Hne. }
  split. { by apply is_header_covers. }
  split. { intros l Hl. rewrite forallb_forall in Hall.
           specialize (Hall l Hl). by apply bool_decide_eq_true_1 in Hall. }
  split. { intros l i. apply build_col_idx_in_row. }
  intros Hreq r Hr Hc. specialize (Hpre r Hr).
  by rewrite (covers_is_header str_of r required_cols Hreq Hc) in Hpre.
Qed.

Lemma header_search_sound_witness :
  exists pre row post,
    example_sheet = pre ++ row :: post
    /\ length pre = 2%nat /\ row = example_header
    /\ covers (fun _ => EmptyString) row REQUIRED_COLS.
Proof.
  destruct (header_search_sound (fun _ => EmptyString) example_sheet REQUIRED_COLS
              3 (build_col_idx (fun _ => EmptyString) example_header))
    as (pre & row & post & Hsh & Hk & Hrow & _ & Hc & _).
  - vm_compute. reflexivity.
  - exists pre, row, post. split; [exact Hsh|].
    split; [by injection Hk|].
    split; [|exact Hc]. simpl in Hrow. by injection Hrow.
Defined.

(* ===================================================================== *)
(** * The exceptions of a run *)
(* ===================================================================== *)

Lemma for_each_raises {S X : Type} (body : S -> X -> result S) (xs : list X)
    (s : S) (e : exn) :
  for_each body xs s = Raise e ->
  exists s' x, In x xs /\ body s' x = Raise e.
Proof.
  revert s. induction xs as [|x xs IH]; intros s; simpl; [done|].
  destruct (body s x) as [s1|e1] eqn:E; simpl.
  - intros (s' & x' & Hin & Hx)%IH. exists s', x'. by split; [right|].
  - intros [= <-]. exists s, x. by split; [left|].
Qed.

Lemma from_excel_raises (v : Q) (e : exn) :
  Excel.from_excel v = Raise e -> e = OverflowError.
Proof.
  unfold Excel.from_excel.
  repeat match goal with
         | |- context [if ?b then _ else _] => destruct b
         end; congruence.
Qed.

(** Decoding a date raises only on a number: [AttributeError] for a time
    of day, [OverflowError] for a day out of the calendar. *)
Lemma normalize_date_raises (date_raw : cell) (e : exn) :
  normalize_date date_raw = Raise e ->
  as_num date_raw <> None /\ (e = AttributeError \/ e = OverflowError).
Proof.
  assert (G : forall n, (x ← Excel.from_excel (num_to_Q n);
                         d ← Excel.date_of x; Ok (Some d)) = Raise e ->
                        e = AttributeError \/ e = OverflowError).
  { intros n. destruct (Excel.from_excel (num_to_Q n)) as [[dt|t]|e'] eqn:E; simpl.
    - done.
    - intros [= <-]. by left.
    - intros [= <-]. right. by eapply from_excel_raises. }
  destruct date_raw as [|b|n| | | |]; try done.
  - intros H. apply (G (Int (if b then 1 else 0))) in H. by split.
  - intros H. apply (G n) in H. by split.
Qed.

Lemma field_in_row (col_idx : gmap string nat) (row : list cell) (name : string)
    (i : nat) :
  col_idx !! name = Some i -> (i < length row)%nat ->
  exists c, field col_idx row name = Ok c.
Proof.
  intros Hi Hlt. unfold field, col_get, row_get. rewrite Hi. simpl.
  destruct (lookup_lt_is_Some_2 row i Hlt) as [c ->]. by exists c.
Qed.

Lemma quantity_in_row (col_idx : gmap string nat) (row : list cell) :
  (forall i, col_idx !! QUANTITY_COL_NAME = Some i -> (i < length row)%nat) ->
  exists q, quantity col_idx row = Ok q.
Proof.
  intros Hq. unfold quantity, row_get.
  destruct (col_idx !! QUANTITY_COL_NAME) as [i|]; [|by eexists].
  destruct (lookup_lt_is_Some_2 row i (Hq i eq_refl)) as [c ->]. simpl. by eexists.
Qed.

Lemma decode_row_raises (col_idx : gmap string nat) (row : list cell) (e : exn) :
  (forall name, In name REQUIRED_COLS -> is_Some (col_idx !! name)) ->
  (forall l i, col_idx !! l = Some i -> (i < length row)%nat) ->
  decode_row col_idx row = Raise e ->
  e = AttributeError \/ e = OverflowError.
Proof.
  intros Hreq Hidx. unfold decode_row.
  assert (F : forall name, In name REQUIRED_COLS ->
                           exists c, field col_idx row name = Ok c).
  { intros name [i Hi]%Hreq. eapply field_in_row; [exact Hi|by eapply Hidx]. }
  destruct (F COL_INVOICE) as [invoice ->]; [by left|].
  destruct (F COL_EMPLOYEE) as [emp ->]; [right; by left|].
  destruct (F COL_DATE) as [date_raw ->]; [do 2 right; by left|].
  destruct (F COL_UNIT_PRICE) as [unit ->]; [do 3 right; by left|].
  destruct (quantity_in_row col_idx row) as [qty ->]; [by intros i; apply Hidx|].
  simpl.
  destruct (normalize_date date_raw) as [[d|]|e'] eqn:E; simpl.
  - by destruct (truthy emp && negb (is_none unit)).
  - done.
  - intros [= <-]. by apply normalize_date_raises in E as [_ E].
Qed.

Lemma py_mul_raises (a b : cell) (e : exn) : py_mul a b = Raise e -> e = TypeError.
Proof.
  destruct a as [|[]|[]| | | |], b as [|[]|[]| | | |];
    cbv [py_mul as_num as_int]; intros H; try discriminate H;
    by injection H as <-.
Qed.

Lemma py_sum_raises (lines : list cell) (e : exn) :
  py_sum lines = Raise e -> e = TypeError.
Proof.
  unfold py_sum. intros (acc & x & _ & Hx)%for_each_raises.
  destruct (as_num x); congruence.
Qed.

Lemma summarise_raises (per_invoice : per_invoice_t) (e : exn) :
  summarise per_invoice = Raise e -> e = TypeError.
Proof.
  unfold summarise. intros (st & [emp invoices] & _ & Hx)%for_each_raises.
  apply for_each_raises in Hx as (st' & entry & _ & Hx).
  unfold summarise_invoice in Hx.
  destruct (py_sum (snd entry)) as [total|e'] eqn:E; simpl in Hx; [done|].
  injection Hx as <-. by eapply py_sum_raises.
Qed.

Lemma header_row_indices (str_of : cell -> string) (sh : sheet)
    (required_cols : list string) (k : nat) (col_idx : gmap string nat) :
  find_header_row str_of sh required_cols = Ok (k, col_idx) ->
  exists row,
    In row sh
    /\ (forall name, In name required_cols -> is_Some (col_idx !! name))
    /\ (forall l i, col_idx !! l = Some i -> (i < length row)%nat).
Proof.
  intros (pre & row & post & -> & -> & -> & Hrow & Hpre)%find_header_from_sound.
  exists row. split; [apply in_app_iff; right; by left|]. split.
  - unfold is_header in Hrow. apply andb_true_iff in Hrow as [_ Hall].
    rewrite forallb_forall in Hall. intros name Hname.
    specialize (Hall name Hname). by apply bool_decide_eq_true_1 in Hall.
  - intros l i Hi. by apply (build_col_idx_in_row str_of row l i).
Qed.

Lemma find_header_row_raises (str_of : cell -> string) (sh : sheet)
    (required_cols : list string) (e : exn) :
  find_header_row str_of sh required_cols = Raise e -> e = KeyError HEADER_NOT_FOUND.
Proof.
  unfold find_header_row. generalize 1%nat.
  induction sh as [|r sh IH]; intros n; simpl.
  - by intros [= <-].
  - destruct (is_header (build_col_idx str_of r) required_cols); [done|]. apply IH.
Qed.

(** X2. On a sheet whose rows all have the same width, a run raises only
    these: the [KeyError] of the header search, when the search fails;
    [AttributeError] or [OverflowError], from the number in a date cell;
    [TypeError], from a unit price or quantity that is not a number. It
    never raises [IndexError], nor a [KeyError] for a column. *)
Theorem run_exceptions (str_of : cell -> string) (sh : sheet) (width : nat)
    (e : exn) :
  rectangular sh width ->
  analyze_workbook str_of sh = Raise e ->
  (find_header_row str_of sh REQUIRED_COLS = Raise e /\ e = KeyError HEADER_NOT_FOUND)
  \/ ((exists hdr, find_header_row str_of sh REQUIRED_COLS = Ok hdr)
      /\ (e = AttributeError \/ e = OverflowError \/ e = TypeError)).
Proof.
  intros Hrect. unfold analyze_workbook.
  destruct (find_header_row str_of sh REQUIRED_COLS) as [[k col_idx]|e0] eqn:Eh.
  - cbn [mbind result_bind fst snd]. intros H. right. split; [by eexists|].
    destruct (header_row_indices str_of sh REQUIRED_COLS k col_idx Eh)
      as (row & Hrow & Hreq & Hidx).
    assert (Hw : length row = width).
    { eapply (proj1 (Forall_forall _ _) Hrect). by apply list_elem_of_In. }
    unfold aggregate in H.
    destruct (for_each (process_row col_idx) (drop k sh) []) as [pi|e1] eqn:Ep;
      cbn [mbind result_bind] in H.
    + destruct (summarise pi) as [st|e2] eqn:Es; cbn [mbind result_bind] in H;
        [done|]. assert (e2 = e) as -> by congruence.
      right; right. by eapply summarise_raises.
    + assert (e1 = e) as -> by congruence.
      apply for_each_raises in Ep as (pi' & r & Hr & Hx).
      unfold process_row in Hx.
      destruct (decode_row col_idx r) as [[it|]|e2] eqn:Ed; cbn [mbind result_bind] in Hx.
      * unfold add_line_item in Hx.
        destruct (py_mul (li_unit it) (li_qty it)) as [c|e3] eqn:Em;
          cbn [mbind result_bind] in Hx; [done|].
        assert (e3 = e) as -> by congruence.
        right; right. by eapply py_mul_raises.
      * done.
      * assert (e2 = e) as -> by congruence.
        assert (Hin : In r sh).
        { apply list_elem_of_In. eapply subseteq_drop, list_elem_of_In, Hr. }
        assert (Hr_w : length r = width).
        { eapply (proj1 (Forall_forall _ _) Hrect). by apply list_elem_of_In. }
        destruct (decode_row_raises col_idx r e Hreq) as [->| ->]; auto.
        intros l i Hi. rewrite Hr_w, <- Hw. by eapply Hidx.
  - cbn [mbind result_bind]. intros [= <-]. left. split; [done|].
    by eapply find_header_row_raises.
Qed.

Lemma run_exceptions_witness :
  rectangular (example_sheet ++ [time_serial_row]) 5
  /\ exists hdr,
       find_header_row (fun _ => EmptyString) (example_sheet ++ [time_serial_row])
         REQUIRED_COLS = Ok hdr.
Proof.
  assert (Hrect : rectangular (example_sheet ++ [time_serial_row]) 5).
  { repeat constructor. }
  split; [exact Hrect|].
  destruct (run_exceptions (fun _ => EmptyString)
              (example_sheet ++ [time_serial_row]) 5 AttributeError Hrect)
    as [[_ H]|[H _]].
  - vm_compute. reflexivity.
  - discriminate H.
  - exact H.
Defined.

(* ===================================================================== *)
(** * Rows that are skipped, prices that are not numbers *)
(* ===================================================================== *)

Lemma for_each_app {S X : Type} (body : S -> X -> result S) (xs ys : list X) (s : S) :
  for_each body (xs ++ ys) s = (s' ← for_each body xs s; for_each body ys s').
Proof.
  revert s. induction xs as [|x xs IH]; intros s; simpl; [done|].
  destruct (body s x) as [s1|e]; simpl; [apply IH|done].
Qed.

(** X3. A row that decodes to a skip can be taken out of the data rows:
    the aggregation gives the same statistics, or the same exception,
    without it. *)
Theorem skipped_row_removable (col_idx : gmap string nat)
    (before : sheet) (row : list cell) (after : sheet) :
  decode_row col_idx row = Ok None ->
  aggregate col_idx (before ++ row :: after) = aggregate col_idx (before ++ after).
Proof.
  intros Hskip. unfold aggregate. rewrite !for_each_app.
  destruct (for_each (process_row col_idx) before []) as [pi|e]; [|done].
  cbn [mbind result_bind for_each].
  assert (Hrow : process_row col_idx pi row = Ok pi).
  { unfold process_row. by rewrite Hskip. }
  by rewrite Hrow.
Qed.

Lemma skipped_row_removable_witness :
  decode_row (build_col_idx (fun _ => EmptyString) example_header) time_text_row
  = Ok None
  /\ aggregate (build_col_idx (fun _ => EmptyString) example_header)
       (take 2 (drop 3 example_sheet) ++ time_text_row :: drop 5 example_sheet)
     = aggregate (build_col_idx (fun _ => EmptyString) example_header)
         (drop 3 example_sheet).
Proof.
  assert (H : decode_row (build_col_idx (fun _ => EmptyString) example_header)
                time_text_row = Ok None) by (vm_compute; reflexivity).
  split; [exact H|].
  exact (skipped_row_removable _ (take 2 (drop 3 example_sheet)) time_text_row
           (drop 5 example_sheet) H).
Defined.

Section ValuesExist.
Context {K V : Type} `{PyEq K}.

Lemma Exists_values_set_new (P : V -> Prop) (d : list (K * V)) (k : K) (v : V) :
  P v -> Exists (fun e => P (snd e)) (Dict.set d k v).
Proof.
  intros Hv. induction d as [|[k0 v0] d IH]; simpl.
  - by constructor.
  - destruct (py_eqb k0 k); [by constructor|by constructor 2].
Qed.

Lemma Exists_values_set_keep (P : V -> Prop) (d : list (K * V)) (k : K) (v : V) :
  Exists (fun e => P (snd e)) d ->
  (forall v0, Dict.get d k = Some v0 -> P v0 -> P v) ->
  Exists (fun e => P (snd e)) (Dict.set d k v).
Proof.
  intros Hd. induction Hd as [[k0 v0] d H0|[k0 v0] d Hd IH]; simpl; intros Hv.
  - destruct (py_eqb k0 k) eqn:E.
    + constructor. simpl. by apply (Hv v0).
    + by constructor.
  - destruct (py_eqb k0 k) eqn:E.
    + by constructor 2.
    + constructor 2. by apply IH.
Qed.

Lemma Exists_values_update (P : V -> Prop) (dflt : V) (f : V -> V)
    (d : list (K * V)) (k : K) :
  (forall v, P v -> P (f v)) ->
  Exists (fun e => P (snd e)) d \/ P (f (Dict.get_default dflt d k)) ->
  Exists (fun e => P (snd e)) (Dict.update dflt f d k).
Proof.
  intros Hf [Hd|Hnew]; unfold Dict.update.
  - apply Exists_values_set_keep; [done|].
    intros v0 Hget Hv0. unfold Dict.get_default. rewrite Hget. by apply Hf.
  - by apply Exists_values_set_new.
Qed.
End ValuesExist.

Lemma py_mul_unpriced (it : line_item) (c : cell) :
  priced it = None -> py_mul (li_unit it) (li_qty it) = Ok c -> as_num c = None.
Proof.
  unfold priced.
  destruct (li_unit it) as [|[]|[]| | | |], (li_qty it) as [|[]|[]| | | |];
    cbv [py_mul as_num as_int]; intros Hp H; try discriminate Hp;
    try discriminate H; by injection H as <-.
Qed.

Lemma append_line_tainted (per_invoice : per_invoice_t) (emp : cell)
    (key : date * cell) (line_total : cell) :
  tainted per_invoice \/ as_num line_total = None ->
  tainted (append_line per_invoice emp key line_total).
Proof.
  intros Ht. unfold tainted, append_line.
  apply (Exists_values_update
           (fun invoices => Exists (fun inv => Exists (fun c => as_num c = None) (snd inv))
                                   invoices)).
  - intros invoices Hinv.
    apply (Exists_values_update (Exists (fun c => as_num c = None)));
      [|by left].
    intros lines Hl. apply Exists_app. by left.
  - destruct Ht as [Ht|Hline]; [by left|]. right.
    apply (Exists_values_update (Exists (fun c => as_num c = None))).
    + intros lines Hl. apply Exists_app. by left.
    + right. apply Exists_app. right. by constructor.
Qed.

Lemma add_line_items_tainted (items : list line_item)
    (per_invoice per_invoice' : per_invoice_t) :
  for_each add_line_item items per_invoice = Ok per_invoice' ->
  tainted per_invoice \/ Exists (fun it => priced it = None) items ->
  tainted per_invoice'.
Proof.
  revert per_invoice. induction items as [|it items IH]; intros per_invoice;
    cbn [for_each].
  - intros [= <-] [Ht|Hex]; [done|by inversion Hex].
  - destruct (add_line_item per_invoice it) as [pi1|e1] eqn:Ea;
      cbn [mbind result_bind]; [|done].
    intros Hrun Ht. apply (IH _ Hrun).
    unfold add_line_item in Ea.
    destruct (py_mul (li_unit it) (li_qty it)) as [c|e] eqn:Em;
      cbn [mbind result_bind] in Ea; [|done].
    injection Ea as <-.
    destruct Ht as [Ht|Hex].
    + left. apply append_line_tainted. by left.
    + inversion Hex as [? ? Hp|? ? Hrest]; subst.
      * left. apply append_line_tainted. right. by eapply py_mul_unpriced.
      * by right.
Qed.

Lemma py_sum_tainted (lines : list cell) :
  Exists (fun c => as_num c = None) lines -> py_sum lines = Raise TypeError.
Proof.
  unfold py_sum. generalize (Int 0).
  induction lines as [|c lines IH]; intros acc Hex; [by inversion Hex|].
  simpl. destruct (as_num c) as [n|] eqn:E; simpl; [|done].
  apply IH. inversion Hex; subst; [congruence|done].
Qed.

Lemma summarise_tainted (per_invoice : per_invoice_t) :
  tainted per_invoice -> summarise per_invoice = Raise TypeError.
Proof.
  intros Ht.
  destruct (summarise per_invoice) as [st|e] eqn:E.
  - exfalso. unfold summarise in E. revert E. generalize (([], []) : transactions_count_t * daily_totals_t).
    induction Ht as [[emp invoices] pi Hinv|[emp invoices] pi Ht IH];
      intros st0; cbn [for_each fst snd].
    + simpl in Hinv.
      assert (G : forall st1, exists e, for_each (summarise_invoice emp) invoices st1 = Raise e).
      { induction Hinv as [[key lines] invs Hl|[key lines] invs Hinv IH];
          intros st1; cbn [for_each].
        - simpl in Hl.
          assert (summarise_invoice emp st1 (key, lines) = Raise TypeError) as ->.
          { unfold summarise_invoice. cbn [snd]. by rewrite (py_sum_tainted lines Hl). }
          by eexists.
        - destruct (summarise_invoice emp st1 (key, lines)) as [st2|e2];
            cbn [mbind result_bind]; [apply IH|by eexists]. }
      destruct (G st0) as [e ->]. done.
    + destruct (for_each (summarise_invoice emp) invoices st0) as [st1|e1];
        cbn [mbind result_bind]; [apply IH|done].
  - f_equal. by eapply summarise_raises.
Qed.

Lemma process_rows_fold (col_idx : gmap string nat) (rows : sheet)
    (items : list line_item) (per_invoice : per_invoice_t) :
  line_items col_idx rows = Ok items ->
  for_each (process_row col_idx) rows per_invoice
  = for_each add_line_item items per_invoice.
Proof.
  revert items per_invoice.
  induction rows as [|row rows IH]; intros items per_invoice; simpl.
  - by intros [= <-].
  - unfold process_row.
    destruct (decode_row col_idx row) as [[it|]|e]; simpl; [| |done].
    + destruct (line_items col_idx rows) as [its|e] eqn:E; simpl; [|done].
      intros [= <-]. simpl.
      destruct (add_line_item per_invoice it); simpl; [by apply IH|done].
    + destruct (line_items col_idx rows) as [its|e] eqn:E; simpl; [|done].
      intros [= <-]. by apply IH.
Qed.

(** X4. When the rows decode without exception and some kept row has a
    unit price or a quantity that is not a number (a text, a date), the whole
    aggregation ends with [TypeError]: from the product itself, or from the
    sum of the lines of the invoice that got the repeated text. *)
Theorem nonnumeric_price_raises (col_idx : gmap string nat) (rows : sheet)
    (items : list line_item) :
  line_items col_idx rows = Ok items ->
  Exists (fun it => priced it = None) items ->
  aggregate col_idx rows = Raise TypeError.
Proof.
  intros Hitems Hex. unfold aggregate.
  rewrite (process_rows_fold col_idx rows items [] Hitems).
  destruct (for_each add_line_item items []) as [pi|e] eqn:E;
    cbn [mbind result_bind].
  - apply summarise_tainted. eapply add_line_items_tainted; [exact E|by right].
  - f_equal. apply for_each_raises in E as (pi' & it & _ & Hx).
    unfold add_line_item in Hx.
    destruct (py_mul (li_unit it) (li_qty it)) as [c|e'] eqn:Em;
      cbn [mbind result_bind] in Hx; [done|].
    assert (e' = e) as -> by congruence. by eapply py_mul_raises.
Qed.

Lemma nonnumeric_price_raises_witness :
  aggregate (build_col_idx (fun _ => EmptyString) example_header)
    (drop 3 example_sheet
       ++ [[CNum (Int 4); CStr "A"; CDateTime (DateTime example_day 0);
            CStr "12.5"; CNum (Int 2)]])
  = Raise TypeError.
Proof.
  apply (nonnumeric_price_raises _ _
           [ LineItem (CStr "A") example_day (CNum (Int 1)) (CNum (Int 100)) (CNum (Int 2));
             LineItem (CStr "A") example_day (CNum (Int 1)) (CNum (Int 50)) (CNum (Int 1));
             LineItem (CStr "A") example_day (CNum (Int 2)) (CNum (Int 800)) (CNum (Int 1));
             LineItem (CStr "A") example_day (CNum (Int 4)) (CStr "12.5") (CNum (Int 2)) ]).
  - vm_compute. reflexivity.
  - do 3 constructor 2. constructor. reflexivity.
Defined.

(* ===================================================================== *)
(** * The statistics that a run hands to the engine *)
(* ===================================================================== *)

Lemma for_each_invariant {S X : Type} (Inv : S -> Prop) (body : S -> X -> result S)
    (xs : list X) (s s' : S) :
  (forall s0 x s1, Inv s0 -> body s0 x = Ok s1 -> Inv s1) ->
  Inv s -> for_each body xs s = Ok s' -> Inv s'.
Proof.
  intros Hstep. revert s. induction xs as [|x xs IH]; intros s Hs; simpl.
  - by intros [= <-].
  - destruct (body s x) as [s1|e] eqn:E; simpl; [|done].
    apply IH. by eapply Hstep.
Qed.

Lemma Forall_values_update_new {K V} `{PyEq K} (P : V -> Prop) (dflt : V)
    (f : V -> V) (d : list (K * V)) (k : K) :
  Forall (fun e => P (snd e)) d -> P (f dflt) -> (forall v, P v -> P (f v)) ->
  Forall (fun e => P (snd e)) (Dict.update dflt f d k).
Proof.
  intros Hd Hdflt Hf. apply Forall_values_set; [done|].
  unfold Dict.get_default.
  induction Hd as [|[k0 v0] d H0 Hd IH]; simpl; [done|].
  destruct (py_eqb k0 k); [by apply Hf|done].
Qed.

Lemma summarise_invoice_consistent (emp : cell)
    (st st' : transactions_count_t * daily_totals_t)
    (entry : date * cell * list cell) :
  stats_consistent st -> summarise_invoice emp st entry = Ok st' ->
  stats_consistent st'.
Proof.
  intros ((Hnd & Hinner) & Hcount & Hfull). unfold summarise_invoice.
  destruct (py_sum (snd entry)) as [total|e]; cbn [mbind result_bind]; [|done].
  intros [= <-]. unfold stats_consistent. cbn [fst snd].
  split; [|split].
  - by apply nodup_keys_update2.
  - intros emp' d'. unfold count_of, totals_of, bump. rewrite !get2_update2.
    destruct (py_eqb emp emp' && py_eqb (fst (fst entry)) d').
    + rewrite length_app. simpl. unfold count_of, totals_of in Hcount.
      rewrite Hcount. lia.
    + apply Hcount.
  - apply (Forall_values_update
             (Forall (fun day : date * list num => snd day <> []))); [done|done|].
    intros days Hdays.
    apply (Forall_values_update_new (fun totals : list num => totals <> []));
      [done| |].
    + by destruct total.
    + intros totals _. by destruct totals.
Qed.

Lemma summarise_consistent (per_invoice : per_invoice_t)
    (st : transactions_count_t * daily_totals_t) :
  summarise per_invoice = Ok st -> stats_consistent st.
Proof.
  unfold summarise.
  apply (for_each_invariant stats_consistent).
  - intros s0 [emp invoices] s1 Hs0. cbn [fst snd].
    apply (for_each_invariant stats_consistent); [|done].
    intros s2 entry s3. apply summarise_invoice_consistent.
  - split; [|split]; done.
Qed.

(** X5. In the statistics of a run, every day that is listed for an employee
    has at least one transaction total, and its transaction count is the
    number of its totals: the engine and the report never meet a count of 0
    there, and the average of the day is the sum of its totals divided by
    their number. *)
Theorem listed_days_have_transactions (col_idx : gmap string nat) (rows : sheet)
    (tc : transactions_count_t) (dt : daily_totals_t)
    (emp : cell) (days : list (date * list num)) (d : date) (totals : list num) :
  aggregate col_idx rows = Ok (tc, dt) ->
  In (emp, days) dt -> In (d, totals) days ->
  totals <> []
  /\ count_of tc emp d = Z.of_nat (length totals)
  /\ 0 < count_of tc emp d
  /\ day_average totals (count_of tc emp d)
     = (num_to_Q (num_sum totals) / inject_Z (Z.of_nat (length totals)))%Q.
Proof.
  unfold aggregate.
  destruct (for_each (process_row col_idx) rows []) as [pi|e];
    cbn [mbind result_bind]; [|done].
  intros ((Hnd & Hinner) & Hcount & Hfull)%summarise_consistent Hemp Hday.
  cbn [fst snd] in *.
  assert (Hne : totals <> []).
  { rewrite List.Forall_forall in Hfull. specialize (Hfull _ Hemp).
    cbn [snd] in Hfull. rewrite List.Forall_forall in Hfull.
    apply (Hfull _ Hday). }
  assert (Hlook : totals_of dt emp d = totals).
  { unfold totals_of, Dict.get_default.
    rewrite (nodup_keys_lookup dt emp days Hnd) by (by apply list_elem_of_In).
    rewrite (nodup_keys_lookup days d totals) by
      (by (apply (Hinner (emp, days)) || apply list_elem_of_In)).
    done. }
  specialize (Hcount emp d). rewrite Hlook in Hcount.
  assert (Hpos : 0 < count_of tc emp d).
  { rewrite Hcount. destruct totals; [done|simpl; lia]. }
  split; [done|]. split; [done|]. split; [done|].
  unfold day_average. rewrite <- Hcount.
  destruct (count_of tc emp d =? 0) eqn:E; [lia|done].
Qed.

Lemma listed_days_have_transactions_witness :
  count_of [(CStr "A", [(example_day, 2)])] (CStr "A") example_day = 2
  /\ day_average [Int 250; Int 800] 2 = (inject_Z 1050 / inject_Z 2)%Q.
Proof.
  destruct (listed_days_have_transactions
              (build_col_idx (fun _ => EmptyString) example_header)
              (drop 3 example_sheet)
              [(CStr "A", [(example_day, 2)])]
              [(CStr "A", [(example_day, [Int 250; Int 800])])]
              (CStr "A") [(example_day, [Int 250; Int 800])]
              example_day [Int 250; Int 800])
    as (_ & Hc & _ & Havg).
  - vm_compute. reflexivity.
  - by left.
  - by left.
  - split; [exact Hc|]. rewrite Hc in Havg. exact Havg.
Defined.

(* ===================================================================== *)
(** * Grouping loses no line and counts none twice *)
(* ===================================================================== *)












(* ===================================================================== *)
(** * The engine in closed form *)
(* ===================================================================== *)

Lemma fold_left_additive {S X : Type} (obs : S -> Z) (step : S -> X -> S)
    (w : X -> Z) (xs : list X) (s : S) :
  (forall s0 x, obs (step s0 x) = obs s0 + w x) ->
  obs (fold_left step xs s) = obs s + sum_Z (map w xs).
Proof.
  intros Hstep. revert s. induction xs as [|x xs IH]; intros s; simpl; [lia|].
  rewrite IH, Hstep. lia.
Qed.

Lemma sum_Z_app (a b : list Z) : sum_Z (a ++ b) = sum_Z a + sum_Z b.
Proof. induction a as [|x a IH]; simpl; lia. Qed.

Lemma average_bonus_total emp st avg emp' :
  bonus_of (fst (average_bonus emp st avg)) emp'
  = bonus_of (fst st) emp' + (if py_eqb emp emp' then tier_amount avg else 0).
Proof.
  unfold average_bonus, tier_amount.
  destruct (Qgtb avg 150), (Qgtb avg 140), (Qgtb avg 130);
    rewrite ?bonus_of_award; destruct (py_eqb emp emp'); lia.
Qed.

Lemma average_bonus_detail emp st avg emp' cat' :
  detail_of (snd (average_bonus emp st avg)) emp' cat'
  = detail_of (snd st) emp' cat'
    + (if py_eqb emp emp' && py_eqb CAT_AVERAGE cat' then tier_amount avg else 0).
Proof.
  unfold average_bonus, tier_amount.
  destruct (Qgtb avg 150), (Qgtb avg 140), (Qgtb avg 130);
    rewrite ?detail_of_award; destruct (py_eqb emp emp' && py_eqb CAT_AVERAGE cat'); lia.
Qed.

Lemma count_of_congr (tc : transactions_count_t) (emp emp' : cell) (d : date) :
  py_eqb emp emp' = true -> count_of tc emp d = count_of tc emp' d.
Proof.
  intros E. unfold count_of. by rewrite (get_default_congr [] tc emp emp' E).
Qed.

Lemma day_bonuses_total tc emp st day emp' :
  bonus_of (fst (day_bonuses tc emp st day)) emp'
  = bonus_of (fst st) emp' + (if py_eqb emp emp' then day_amount tc emp' day else 0).
Proof.
  unfold day_bonuses. rewrite average_bonus_total.
  rewrite (fold_left_additive (fun s => bonus_of (fst s) emp') (transaction_bonus emp)
             (fun t => if py_eqb emp emp' then over_400 t + over_700 t else 0)).
  - destruct (py_eqb emp emp') eqn:E.
    + unfold day_amount. rewrite (count_of_congr tc emp emp' (fst day) E). lia.
    + assert (Z0 : forall l : list num, sum_Z (map (fun _ => 0) l) = 0)
        by (induction l; simpl; lia).
      rewrite Z0. lia.
  - intros s0 t. apply transaction_bonus_total.
Qed.

Lemma employee_bonuses_total tc emp daily st emp' :
  bonus_of (fst (fold_left (day_bonuses tc emp) daily st)) emp'
  = bonus_of (fst st) emp'
    + sum_Z (map (day_amount tc emp') (if py_eqb emp emp' then daily else [])).
Proof.
  rewrite (fold_left_additive (fun s => bonus_of (fst s) emp') (day_bonuses tc emp)
             (fun day => if py_eqb emp emp' then day_amount tc emp' day else 0)).
  - destruct (py_eqb emp emp'); [done|].
    assert (Z0 : forall l : list (date * list num), sum_Z (map (fun _ => 0) l) = 0)
      by (induction l; simpl; lia).
    by rewrite Z0.
  - intros s0 day. apply day_bonuses_total.
Qed.

Lemma engine_bonus_from (sales_data : daily_totals_t)
    (transactions_count : transactions_count_t) (emp : cell)
    (st : bonuses_t * details_t) :
  bonus_of (fst (fold_left
     (fun st emp_daily =>
        fold_left (day_bonuses transactions_count (fst emp_daily))
                  (snd emp_daily) st) sales_data st)) emp
  = bonus_of (fst st) emp
    + sum_Z (map (day_amount transactions_count emp) (employee_days sales_data emp)).
Proof.
  revert st.
  induction sales_data as [|[e daily] sales IH]; intros st; simpl; [lia|].
  rewrite IH, employee_bonuses_total.
  unfold employee_days. simpl. fold (employee_days sales emp).
  rewrite map_app, sum_Z_app. lia.
Qed.

(** X7. The engine in closed form: the bonus of an employee is the sum,
    over the days listed for that employee, of what each day is worth (20
    for each of its transactions above 400, 10 more for each above 700, and
    the tier of its average). The days of other employees add nothing, and
    an employee with no day reads as 0. *)
Theorem bonus_is_sum_of_days (sales_data : daily_totals_t)
    (transactions_count : transactions_count_t) (emp : cell) :
  bonus_of (fst (calculate_transaction_bonuses sales_data transactions_count)) emp
  = sum_Z (map (day_amount transactions_count emp) (employee_days sales_data emp)).
Proof.
  unfold calculate_transaction_bonuses. rewrite engine_bonus_from.
  change (bonus_of (fst (([], []) : bonuses_t * details_t)) emp) with 0. lia.
Qed.

Section CategoryTotals.
Variables (cat : string) (w : num -> Z).
Hypothesis transaction_adds : forall emp st total emp',
  detail_of (snd (transaction_bonus emp st total)) emp' cat
  = detail_of (snd st) emp' cat + (if py_eqb emp emp' then w total else 0).
Hypothesis not_average : py_eqb CAT_AVERAGE cat = false.

Lemma day_bonuses_category tc emp st day emp' :
  detail_of (snd (day_bonuses tc emp st day)) emp' cat
  = detail_of (snd st) emp' cat
    + (if py_eqb emp emp' then sum_Z (map w (snd day)) else 0).
Proof.
  unfold day_bonuses. rewrite average_bonus_detail, not_average, andb_false_r.
  cbv iota.
  rewrite (fold_left_additive (fun s => detail_of (snd s) emp' cat)
             (transaction_bonus emp)
             (fun t => if py_eqb emp emp' then w t else 0)).
  - destruct (py_eqb emp emp'); [rewrite Z.add_0_r; reflexivity|].
    assert (Z0 : forall l : list num, sum_Z (map (fun _ => 0) l) = 0)
      by (induction l; simpl; lia).
    rewrite Z0. lia.
  - intros s0 t. apply transaction_adds.
Qed.

Lemma sum_Z_flat_map (days : list (date * list num)) :
  sum_Z (map (fun day => sum_Z (map w (snd day))) days)
  = sum_Z (map w (flat_map snd days)).
Proof.
  induction days as [|day days IH]; simpl; [done|].
  by rewrite map_app, sum_Z_app, IH.
Qed.

Lemma engine_category (sales_data : daily_totals_t)
    (tc : transactions_count_t) (emp : cell) :
  detail_of (snd (calculate_transaction_bonuses sales_data tc)) emp cat
  = sum_Z (map w (employee_totals sales_data emp)).
Proof.
  unfold calculate_transaction_bonuses, employee_totals.
  rewrite <- sum_Z_flat_map.
  assert (G : forall st,
    detail_of (snd (fold_left
       (fun st emp_daily =>
          fold_left (day_bonuses tc (fst emp_daily)) (snd emp_daily) st)
       sales_data st)) emp cat
    = detail_of (snd st) emp cat
      + sum_Z (map (fun day => sum_Z (map w (snd day))) (employee_days sales_data emp))).
  { induction sales_data as [|[e daily] sales IH]; intros st; simpl; [lia|].
    rewrite IH.
    rewrite (fold_left_additive (fun s => detail_of (snd s) emp cat)
               (day_bonuses tc e)
               (fun day => if py_eqb e emp then sum_Z (map w (snd day)) else 0))
      by (intros; apply day_bonuses_category).
    unfold employee_days. simpl. fold (employee_days sales emp).
    rewrite map_app, sum_Z_app.
    destruct (py_eqb e emp); [lia|].
    assert (Z0 : forall l : list (date * list num), sum_Z (map (fun _ => 0) l) = 0)
      by (induction l; simpl; lia).
    rewrite Z0. simpl. lia. }
  rewrite G. done.
Qed.
End CategoryTotals.

Lemma sum_over_400 (totals : list num) :
  sum_Z (map over_400 totals) = 20 * count_over 400 totals.
Proof.
  unfold count_over, over_400. induction totals as [|t totals IH]; simpl; [done|].
  destruct (Qgtb (num_to_Q t) 400); simpl length; unfold BONUS_OVER_400 in *; lia.
Qed.

Lemma sum_over_700 (totals : list num) :
  sum_Z (map over_700 totals) = 10 * count_over 700 totals.
Proof.
  unfold count_over, over_700. induction totals as [|t totals IH]; simpl; [done|].
  destruct (Qgtb (num_to_Q t) 700); simpl length; unfold BONUS_OVER_700 in *; lia.
Qed.

Lemma over_700_over_400 (t : num) :
  Qgtb (num_to_Q t) 700 = true -> Qgtb (num_to_Q t) 400 = true.
Proof.
  rewrite !Qgtb_true. intros H. eapply Qlt_trans; [|exact H]. reflexivity.
Qed.

Lemma count_over_700_400 (totals : list num) :
  count_over 700 totals <= count_over 400 totals.
Proof.
  unfold count_over. induction totals as [|t totals IH]; simpl; [lia|].
  destruct (Qgtb (num_to_Q t) 700) eqn:E.
  - rewrite (over_700_over_400 t E). simpl length. lia.
  - destruct (Qgtb (num_to_Q t) 400); simpl length; lia.
Qed.

(** X8. The threshold categories count transactions: for every employee
    the over-400 amount is 20 times the number of the employee's
    transactions above 400, the over-700 amount 10 times the number above
    700; as a transaction above 700 is above 400, the over-700 amount is
    never more than half the over-400 amount. *)
Theorem threshold_categories_count (sales_data : daily_totals_t)
    (transactions_count : transactions_count_t) (emp : cell) :
  let out := calculate_transaction_bonuses sales_data transactions_count in
  detail_of (snd out) emp CAT_OVER_400
  = 20 * count_over 400 (employee_totals sales_data emp)
  /\ detail_of (snd out) emp CAT_OVER_700
     = 10 * count_over 700 (employee_totals sales_data emp)
  /\ 0 <= 2 * detail_of (snd out) emp CAT_OVER_700
       <= detail_of (snd out) emp CAT_OVER_400.
Proof.
  cbv zeta.
  assert (H4 : detail_of (snd (calculate_transaction_bonuses sales_data transactions_count))
                 emp CAT_OVER_400
               = 20 * count_over 400 (employee_totals sales_data emp)).
  { rewrite (engine_category CAT_OVER_400 over_400); [apply sum_over_400| |done].
    intros e st total emp'. rewrite transaction_bonus_detail.
    replace (py_eqb CAT_OVER_400 CAT_OVER_400) with true by done.
    replace (py_eqb CAT_OVER_700 CAT_OVER_400) with false by done.
    rewrite andb_true_r, andb_false_r. lia. }
  assert (H7 : detail_of (snd (calculate_transaction_bonuses sales_data transactions_count))
                 emp CAT_OVER_700
               = 10 * count_over 700 (employee_totals sales_data emp)).
  { rewrite (engine_category CAT_OVER_700 over_700); [apply sum_over_700| |done].
    intros e st total emp'. rewrite transaction_bonus_detail.
    replace (py_eqb CAT_OVER_700 CAT_OVER_700) with true by done.
    replace (py_eqb CAT_OVER_400 CAT_OVER_700) with false by done.
    rewrite andb_true_r, andb_false_r. lia. }
  split; [exact H4|]. split; [exact H7|].
  rewrite H4, H7.
  pose proof (count_over_700_400 (employee_totals sales_data emp)).
  assert (0 <= count_over 700 (employee_totals sales_data emp))
    by (unfold count_over; lia).
  lia.
Qed.

(* ===================================================================== *)
(** * Who is listed in the totals *)
(* ===================================================================== *)

Lemma mem_congr {K V} `{PyEqLaws K} (d : list (K * V)) (k k' : K) :
  py_eqb k k' = true -> Dict.mem d k = Dict.mem d k'.
Proof. intros E. unfold Dict.mem. by rewrite (get_congr d k k' E). Qed.

Lemma award_listed emp cat amount st :
  listed_with_bonus st ->
  20 <= amount \/ (0 <= amount /\ Dict.mem (fst st) emp = true) ->
  listed_with_bonus (award emp cat amount st).
Proof.
  intros Hst Hamount emp'.
  destruct (mem_award emp cat amount st emp') as [-> _].
  rewrite bonus_of_award.
  destruct (py_eqb emp emp') eqn:E; simpl.
  - right. split; [done|].
    destruct (Hst emp') as [[Hm Hb]|[Hm Hb]], Hamount as [Ha|[Ha Hl]]; try lia.
    rewrite (mem_congr (fst st) emp emp' E) in Hl. congruence.
  - rewrite Z.add_0_r. apply Hst.
Qed.

Lemma transaction_bonus_listed emp st total :
  listed_with_bonus st -> listed_with_bonus (transaction_bonus emp st total).
Proof.
  intros Hst. unfold transaction_bonus.
  destruct (Qgtb (num_to_Q total) 700) eqn:E7.
  - rewrite (over_700_over_400 total E7).
    apply award_listed.
    + apply award_listed; [done|]. left. unfold BONUS_OVER_400. lia.
    + right. split; [unfold BONUS_OVER_700; lia|].
      destruct (mem_award emp CAT_OVER_400 BONUS_OVER_400 st emp) as [-> _].
      by rewrite py_eqb_refl.
  - destruct (Qgtb (num_to_Q total) 400); [|done].
    apply award_listed; [done|]. left. unfold BONUS_OVER_400. lia.
Qed.

Lemma average_bonus_listed emp st avg :
  listed_with_bonus st -> listed_with_bonus (average_bonus emp st avg).
Proof.
  intros Hst. unfold average_bonus.
  destruct (Qgtb avg 150), (Qgtb avg 140), (Qgtb avg 130); try done;
    apply award_listed; try done; left;
    unfold BONUS_AVG_150, BONUS_AVG_140, BONUS_AVG_130; lia.
Qed.

Lemma engine_listed (sales_data : daily_totals_t) (tc : transactions_count_t) :
  listed_with_bonus (calculate_transaction_bonuses sales_data tc).
Proof.
  unfold calculate_transaction_bonuses.
  assert (Hinit : listed_with_bonus ([], [])) by (intros emp; by left).
  revert Hinit. generalize (([], []) : bonuses_t * details_t).
  induction sales_data as [|[emp daily] sales IH]; intros st Hst; simpl; [done|].
  apply IH. clear IH. revert st Hst.
  induction daily as [|day daily IH]; intros st Hst; simpl; [done|].
  apply IH. unfold day_bonuses. apply average_bonus_listed.
  clear IH. revert st Hst.
  induction (snd day) as [|t totals IH]; intros st Hst; simpl; [done|].
  apply IH. by apply transaction_bonus_listed.
Qed.

(** X9. The totals list exactly the employees who earned something: an
    employee has an entry in the totals if and only if the bonus is
    positive, and an entry is never below 20. An employee whose days earn no
    bonus has no entry, rather than an entry of 0, and so is absent from
    the summary of the report. *)
Theorem listed_iff_positive (sales_data : daily_totals_t)
    (transactions_count : transactions_count_t) (emp : cell) :
  let out := calculate_transaction_bonuses sales_data transactions_count in
  (Dict.mem (fst out) emp = true <-> 0 < bonus_of (fst out) emp)
  /\ (Dict.mem (fst out) emp = true -> 20 <= bonus_of (fst out) emp)
  /\ (Dict.mem (fst out) emp = false -> bonus_of (fst out) emp = 0).
Proof.
  cbv zeta.
  destruct (engine_listed sales_data transactions_count emp) as [[Hm Hb]|[Hm Hb]];
    rewrite Hm; repeat split; intros; try done; lia.
Qed.

(* ===================================================================== *)
(** * The three formats of [parse_date] exclude one another *)
(* ===================================================================== *)

Section FormatChars.
Import Strptime.

Lemma alt_chars classes acc s v r :
  Forall (fun p : ascii -> bool => forall c, p c = true -> plain c) classes ->
  In (v, r) (alt classes acc s) ->
  exists pre, s = pre ++ r /\ Forall plain pre.
Proof.
  intros Hcl. revert acc s.
  induction Hcl as [|p ps Hp Hps IH]; intros acc s; simpl.
  - intros [[= _ ->]|[]]. by exists [].
  - destruct s as [|c s]; [done|]. destruct (p c) eqn:E; [|done].
    intros (pre & -> & Hpre)%IH. exists (c :: pre). split; [done|].
    constructor; [by apply Hp|done].
Qed.

Lemma digit_from_plain lo hi c :
  0 <= lo -> hi <= 9 -> digit_from lo hi c = true -> plain c.
Proof.
  unfold digit_from, plain, is_digit, between. intros Hlo Hhi H. left.
  apply andb_true_iff in H as [H1 H2]. apply andb_true_iff. split; lia.
Qed.

Lemma is_digit_plain c : is_digit c = true -> plain c.
Proof. by left. Qed.

Lemma blank_plain c : between 32 32 c = true -> plain c.
Proof.
  unfold plain, is_space, between. intros H. right.
  apply andb_true_iff in H as [H1 H2]. apply orb_true_iff. right.
  apply andb_true_iff. split; lia.
Qed.

Lemma groups_plain group :
  In group [group_d; group_m; group_Y; group_H; group_M] ->
  Forall (Forall (fun p : ascii -> bool => forall c, p c = true -> plain c)) group.
Proof.
  intros [<-|[<-|[<-|[<-|[<-|[]]]]]];
    repeat (constructor;
            try (intros c; first [ apply is_digit_plain | apply blank_plain
                                 | apply digit_from_plain; lia ])).
Qed.

Lemma alts_chars group s v r :
  In group [group_d; group_m; group_Y; group_H; group_M] ->
  In (v, r) (alts group s) -> exists pre, s = pre ++ r /\ Forall plain pre.
Proof.
  intros Hg%groups_plain. unfold alts. rewrite in_flat_map.
  intros (classes & Hcl & Hin).
  rewrite List.Forall_forall in Hg. by eapply alt_chars; [apply Hg|].
Qed.

Lemma spaces_chars s r :
  In r (spaces s) -> exists pre, s = pre ++ r /\ Forall plain pre.
Proof.
  induction s as [|c s IH]; simpl; [done|].
  destruct (is_space c) eqn:E; [|done].
  rewrite in_app_iff. intros [(pre & -> & Hpre)%IH|[<-|[]]].
  - exists (c :: pre). split; [done|]. constructor; [by right|done].
  - exists [c]. split; [done|]. constructor; [by right|done].
Qed.

Lemma candidates_chars d f s f' r :
  In (f', r) (candidates d f s) ->
  exists pre, s = pre ++ r /\ Forall (fun c => plain c \/ d = Lit c) pre.
Proof.
  assert (W : forall (P Q : ascii -> Prop) l,
             (forall c, P c -> Q c) -> Forall P l -> Forall Q l).
  { intros P Q l HPQ Hl. eapply Forall_impl; [exact Hl|exact HPQ]. }
  destruct d as [| | | | |c0|]; unfold candidates.
  1-5: rewrite in_map_iff; intros ([v r'] & [= _ ->] & Hin);
       apply alts_chars in Hin as (pre & -> & Hpre);
       [exists pre; split; [done|]; eapply W; [|exact Hpre]; by left
       |simpl; auto 10].
  - destruct s as [|c' s]; [done|].
    destruct (Ascii.eqb c0 c') eqn:E; [|done].
    apply Ascii.eqb_eq in E as <-. intros [[= _ ->]|[]].
    exists [c0]. split; [done|]. constructor; [by right|done].
  - rewrite in_map_iff. intros (r' & [= _ ->] & Hin).
    apply spaces_chars in Hin as (pre & -> & Hpre).
    exists pre. split; [done|]. eapply W; [|exact Hpre]. by left.
Qed.

(** The text that a format matches is made of digits, white space and the
    literal characters of the format. *)
Lemma run_chars fmt f s f' r :
  run fmt f s = Some (f', r) ->
  exists pre, s = pre ++ r /\ Forall (fun c => plain c \/ In (Lit c) fmt) pre.
Proof.
  revert f s. induction fmt as [|d fmt IH]; intros f s; simpl.
  - intros [= _ ->]. by exists [].
  - intros ([f1 r1] & Hin & Hrun)%first_some_Some.
    apply candidates_chars in Hin as (pre1 & -> & Hpre1).
    apply IH in Hrun as (pre2 & -> & Hpre2).
    exists (pre1 ++ pre2). split; [by rewrite app_assoc|].
    apply Forall_app. split.
    + eapply Forall_impl; [exact Hpre1|]. intros c [Hc| ->]; [by left|right; by left].
    + eapply Forall_impl; [exact Hpre2|]. intros c [Hc|Hc]; [by left|right; by right].
Qed.

Lemma strptime_chars (s : string) fmt dt :
  strptime s fmt = Some dt ->
  (forall c, In (Lit c) fmt -> In c (list_ascii_of_string s))
  /\ (forall c, In c (list_ascii_of_string s) -> plain c \/ In (Lit c) fmt).
Proof.
  unfold strptime.
  destruct (run fmt default_fields (list_ascii_of_string s)) as [[f [|c r]]|] eqn:E;
    [|done|done].
  intros _. split.
  - intros c Hc. by eapply run_needs_literal.
  - apply run_chars in E as (pre & Hs & Hpre). rewrite app_nil_r in Hs.
    rewrite Hs. intros c Hc. rewrite List.Forall_forall in Hpre. by apply Hpre.
Qed.

Lemma formats_exclusive (s : string) fmt fmt' dt :
  In fmt parse_date_formats -> In fmt' parse_date_formats -> fmt' <> fmt ->
  strptime s fmt = Some dt -> strptime s fmt' = None.
Proof.
  intros Hf Hf' Hne Hs.
  destruct (strptime s fmt') as [dt'|] eqn:E; [exfalso|done].
  apply strptime_chars in Hs as [Hlit Hchars].
  apply strptime_chars in E as [Hlit' Hchars'].
  assert (X : forall c, In (Lit c) fmt -> ~ plain c -> ~ In (Lit c) fmt' -> False).
  { intros c Hc Hp Hn. destruct (Hchars' c (Hlit c Hc)); done. }
  assert (X' : forall c, In (Lit c) fmt' -> ~ plain c -> ~ In (Lit c) fmt -> False).
  { intros c Hc Hp Hn. destruct (Hchars c (Hlit' c Hc)); done. }
  assert (Hplain : forall c, In c [":"%char; "/"%char; "-"%char] -> ~ plain c).
  { intros c [<-|[<-|[<-|[]]]] [H|H]; discriminate H. }
  unfold parse_date_formats in Hf, Hf'.
  destruct Hf as [<-|[<-|[<-|[]]]], Hf' as [<-|[<-|[<-|[]]]]; try done.
  - apply (X "/"%char); [simpl; auto|apply Hplain; simpl; auto|].
    simpl. intros H. repeat (destruct H as [H|H]; [discriminate H|]). destruct H.
  - apply (X ":"%char); [simpl; auto 10|apply Hplain; simpl; auto|].
    simpl. intros H. repeat (destruct H as [H|H]; [discriminate H|]). destruct H.
  - apply (X "-"%char); [simpl; auto|apply Hplain; simpl; auto|].
    simpl. intros H. repeat (destruct H as [H|H]; [discriminate H|]). destruct H.
  - apply (X "-"%char); [simpl; auto|apply Hplain; simpl; auto|].
    simpl. intros H. repeat (destruct H as [H|H]; [discriminate H|]). destruct H.
  - apply (X' ":"%char); [simpl; auto 10|apply Hplain; simpl; auto|].
    simpl. intros H. repeat (destruct H as [H|H]; [discriminate H|]). destruct H.
  - apply (X' "-"%char); [simpl; auto|apply Hplain; simpl; auto|].
    simpl. intros H. repeat (destruct H as [H|H]; [discriminate H|]). destruct H.
Qed.

End FormatChars.

(** X10. The three formats of [parse_date] exclude one another: a text that
    one of them parses is parsed by no other, so the date [parse_date] gives
    is the date of the one format that parses, whatever the order in which
    the formats are tried. *)
Theorem parse_date_one_format (s : string) (fmt : list Strptime.directive)
    (dt : datetime) :
  In fmt parse_date_formats ->
  Strptime.strptime s fmt = Some dt ->
  parse_date s = Some (dt_date dt)
  /\ forall fmt', In fmt' parse_date_formats -> fmt' <> fmt ->
                  Strptime.strptime s fmt' = None.
Proof.
  intros Hf Hs.
  assert (Hex : forall fmt', In fmt' parse_date_formats -> fmt' <> fmt ->
                             Strptime.strptime s fmt' = None).
  { intros fmt' Hf' Hne. exact (formats_exclusive s fmt fmt' dt Hf Hf' Hne Hs). }
  split; [|exact Hex].
  assert (H1 : In Strptime.fmt_dmy_hm parse_date_formats) by (left; reflexivity).
  assert (H2 : In Strptime.fmt_ymd parse_date_formats)
    by (right; left; reflexivity).
  unfold parse_date. unfold parse_date_formats at 1. cbn [parse_date_with].
  destruct Hf as [<-|[<-|[<-|[]]]].
  - by rewrite Hs.
  - rewrite (Hex _ H1) by discriminate. by rewrite Hs.
  - rewrite (Hex _ H1), (Hex _ H2) by discriminate. by rewrite Hs.
Qed.

Lemma parse_date_one_format_witness :
  parse_date "15/03/2023" = Some example_day
  /\ Strptime.strptime "15/03/2023" Strptime.fmt_dmy_hm = None
  /\ Strptime.strptime "15/03/2023" Strptime.fmt_ymd = None.
Proof.
  destruct (parse_date_one_format "15/03/2023" Strptime.fmt_dmy
              (DateTime example_day 0)) as [Hp Hex].
  - simpl. auto.
  - vm_compute. reflexivity.
  - split; [exact Hp|]. split; apply Hex; simpl; auto; discriminate.
Defined.

(* ===================================================================== *)
(** * What [parse_date] makes of a zero-padded text *)
(* ===================================================================== *)

Section ExactRuns.
Import Strptime.

Lemma first_some_ext {A B} (k k' : A -> option B) (xs : list A) :
  (forall x, k x = k' x) -> first_some k xs = first_some k' xs.
Proof. intros H. induction xs as [|x xs IH]; simpl; [done|]. by rewrite H, IH. Qed.

(** A directive followed by a literal character. *)
Lemma run_dir_lit d c fmt f s :
  run (d :: Lit c :: fmt) f s
  = first_some (fun '(f', r) =>
                  match r with
                  | c' :: r' => if Ascii.eqb c c' then run fmt f' r' else None
                  | [] => None
                  end) (candidates d f s).
Proof.
  cbn [run]. apply first_some_ext. intros [f' [|c' r']]; [done|].
  cbn [candidates]. destruct (Ascii.eqb c c'); [|done].
  cbn [first_some]. by destruct (run fmt f' r').
Qed.

Ltac exact_run K :=
  vm_compute;
  repeat match goal with
         | |- context [K ?a ?b] => destruct (K a b)
         end; reflexivity.

(** Two digits read by [%d] before a separator: the day when it is one the
    group admits, no match otherwise (a second digit is not a separator). *)
Lemma run_d_lit (d : Z) c fmt f rest :
  c = "/"%char \/ c = "-"%char ->
  0 <= d <= 99 ->
  run (Dir_d :: Lit c :: fmt) f (two_digits d ++ c :: rest)
  = if (1 <=? d) && (d <=? 31)
    then run fmt (Fields (f_year f) (f_month f) d (f_hour f) (f_minute f)) rest
    else None.
Proof.
  intros Hc Hd. rewrite run_dir_lit. generalize (run fmt). intros K.
  destruct f as [fy fm fd fh fmi].
  destruct Hc as [-> | ->]; enum d 100%nat 0; exact_run K.
Qed.

Lemma run_m_lit (m : Z) c fmt f rest :
  c = "/"%char \/ c = "-"%char ->
  0 <= m <= 99 ->
  run (Dir_m :: Lit c :: fmt) f (two_digits m ++ c :: rest)
  = if (1 <=? m) && (m <=? 12)
    then run fmt (Fields (f_year f) m (f_day f) (f_hour f) (f_minute f)) rest
    else None.
Proof.
  intros Hc Hm. rewrite run_dir_lit. generalize (run fmt). intros K.
  destruct f as [fy fm fd fh fmi].
  destruct Hc as [-> | ->]; enum m 100%nat 0; exact_run K.
Qed.

(** Two digits read by [%d] at the end of the format: the day, or a match
    that leaves the second digit unread, or no match. *)
Lemma run_d_last (d : Z) f :
  0 <= d <= 99 ->
  match run [Dir_d] f (two_digits d) with
  | Some (f', []) =>
      1 <= d <= 31
      /\ f' = Fields (f_year f) (f_month f) d (f_hour f) (f_minute f)
  | _ => ~ 1 <= d <= 31
  end.
Proof.
  intros Hd. destruct f as [fy fm fd fh fmi].
  enum d 100%nat 0; vm_compute; first [split; [split; discriminate|reflexivity]
                                      |intros [H1 H2]; by apply H1 || by apply H2].
Qed.

Lemma run_Y_exact (y : Z) fmt f rest :
  0 <= y <= 9999 ->
  run (Dir_Y :: fmt) f (four_digits y ++ rest)
  = run fmt (Fields y (f_month f) (f_day f) (f_hour f) (f_minute f)) rest.
Proof.
  intros Hy.
  destruct (four_digits_value y Hy) as (H1 & H2 & H3 & H4 & Hval).
  destruct (digit_char_spec _ H1) as (D1 & V1 & _).
  destruct (digit_char_spec _ H2) as (D2 & V2 & _).
  destruct (digit_char_spec _ H3) as (D3 & V3 & _).
  destruct (digit_char_spec _ H4) as (D4 & V4 & _).
  unfold four_digits. simpl. unfold alts, group_Y. simpl.
  rewrite D1, D2, D3, D4, V1, V2, V3, V4, Hval. simpl.
  by destruct (run fmt _ rest).
Qed.

Lemma make_date_None y m d :
  ~ (1 <= m <= 12 /\ 1 <= d <= 31) -> Calendar.make_date y m d = None.
Proof.
  intros H. destruct (Calendar.make_date y m d) as [date|] eqn:E; [|done].
  destruct H. apply make_date_valid in E. lia.
Qed.

Lemma date_of_fields (run_result : option (fields * list ascii)) y m d hh mm :
  run_result
  = (if (1 <=? d) && (d <=? 31)
     then if (1 <=? m) && (m <=? 12) then Some (Fields y m d hh mm, []) else None
     else None) ->
  match run_result with
  | Some (f, []) =>
      match Calendar.make_date (f_year f) (f_month f) (f_day f) with
      | Some date => Some (dt_date (DateTime date ((f_hour f * 60 + f_minute f) * 60000000)))
      | None => None
      end
  | _ => None
  end = Calendar.make_date y m d.
Proof.
  intros ->.
  destruct ((1 <=? d) && (d <=? 31)) eqn:Ed;
    [destruct ((1 <=? m) && (m <=? 12)) eqn:Em|].
  - cbn [f_year f_month f_day]. by destruct (Calendar.make_date y m d).
  - symmetry. apply make_date_None. lia.
  - symmetry. apply make_date_None. lia.
Qed.

Lemma strptime_date (s : string) fmt :
  option_map dt_date (strptime s fmt)
  = match run fmt default_fields (list_ascii_of_string s) with
    | Some (f, []) =>
        match Calendar.make_date (f_year f) (f_month f) (f_day f) with
        | Some date =>
            Some (dt_date (DateTime date ((f_hour f * 60 + f_minute f) * 60000000)))
        | None => None
        end
    | _ => None
    end.
Proof.
  unfold strptime.
  destruct (run fmt default_fields (list_ascii_of_string s)) as [[f [|c r]]|];
    [|done|done].
  by destruct (Calendar.make_date (f_year f) (f_month f) (f_day f)).
Qed.

Lemma strptime_dmy_exact y m d :
  0 <= y <= 9999 -> 0 <= m <= 99 -> 0 <= d <= 99 ->
  option_map dt_date (strptime (string_of_list_ascii (text_dmy y m d)) fmt_dmy)
  = Calendar.make_date y m d.
Proof.
  intros Hy Hm Hd. rewrite strptime_date, list_ascii_of_string_of_list_ascii.
  apply (date_of_fields _ y m d 0 0).
  unfold fmt_dmy, text_dmy.
  rewrite run_d_lit by (auto; lia).
  destruct ((1 <=? d) && (d <=? 31)); [|done].
  rewrite run_m_lit by (auto; lia).
  destruct ((1 <=? m) && (m <=? 12)); [|done].
  pose proof (run_Y_exact y [] (Fields 1900 m d 0 0) [] Hy) as R.
  rewrite app_nil_r in R. exact R.
Qed.

Lemma strptime_dmy_hm_exact y m d hh mm :
  0 <= y <= 9999 -> 0 <= m <= 99 -> 0 <= d <= 99 -> 0 <= hh < 24 -> 0 <= mm < 60 ->
  option_map dt_date
    (strptime (string_of_list_ascii (text_dmy_hm y m d hh mm)) fmt_dmy_hm)
  = Calendar.make_date y m d.
Proof.
  intros Hy Hm Hd Hh Hmm. rewrite strptime_date, list_ascii_of_string_of_list_ascii.
  apply (date_of_fields _ y m d hh mm).
  unfold fmt_dmy_hm, text_dmy_hm, text_dmy.
  rewrite <- !app_assoc, <- !app_comm_cons, <- !app_assoc, <- !app_comm_cons.
  rewrite run_d_lit by (auto; lia).
  destruct ((1 <=? d) && (d <=? 31)); [|done].
  rewrite run_m_lit by (auto; lia).
  destruct ((1 <=? m) && (m <=? 12)); [|done].
  rewrite run_Y_exact by done. cbn [f_year f_month f_day f_hour f_minute default_fields].
  change (two_digits hh ++ ":"%char :: two_digits mm)
    with (digit_char (hh / 10) :: digit_char (hh mod 10) :: ":"%char :: two_digits mm).
  rewrite run_spaces by (Z.div_mod_to_equations; lia).
  apply (run_H hh _ _ (":"%char :: two_digits mm)); [done|].
  rewrite run_lit.
  apply (run_M mm [] _ []); [done|]. reflexivity.
Qed.

Lemma strptime_ymd_exact y m d :
  0 <= y <= 9999 -> 0 <= m <= 99 -> 0 <= d <= 99 ->
  option_map dt_date (strptime (string_of_list_ascii (text_ymd y m d)) fmt_ymd)
  = Calendar.make_date y m d.
Proof.
  intros Hy Hm Hd. rewrite strptime_date, list_ascii_of_string_of_list_ascii.
  unfold fmt_ymd, text_ymd.
  rewrite run_Y_exact by done. rewrite run_lit.
  rewrite run_m_lit by (auto; lia).
  cbn [f_year f_month f_day f_hour f_minute default_fields].
  destruct ((1 <=? m) && (m <=? 12)) eqn:Em;
    [|symmetry; apply make_date_None; lia].
  pose proof (run_d_last d (Fields y m 1 0 0) Hd) as R.
  destruct (run [Dir_d] (Fields y m 1 0 0) (two_digits d)) as [[f' [|c r]]|].
  - destruct R as [_ ->]. cbn [f_year f_month f_day].
    by destruct (Calendar.make_date y m d).
  - symmetry. apply make_date_None. lia.
  - symmetry. apply make_date_None. lia.
Qed.

Lemma parse_date_options (s : string) :
  parse_date s
  = match option_map dt_date (strptime s fmt_dmy_hm) with
    | Some date => Some date
    | None =>
        match option_map dt_date (strptime s fmt_ymd) with
        | Some date => Some date
        | None => option_map dt_date (strptime s fmt_dmy)
        end
    end.
Proof.
  unfold parse_date, parse_date_formats. cbn [parse_date_with].
  destruct (strptime s fmt_dmy_hm); [done|]. cbn [option_map].
  destruct (strptime s fmt_ymd); [done|]. cbn [option_map].
  by destruct (strptime s fmt_dmy).
Qed.

End ExactRuns.

(** X11. What [parse_date] makes of a zero-padded text: for digits that
    spell a year up to 9999 and a two-digit month and day, the texts
    dd/mm/yyyy, yyyy-mm-dd and dd/mm/yyyy HH:MM parse to the date of the
    calendar with that year, month and day when there is one, and to [None]
    otherwise. An impossible day such as 30/02/2023 is not a date, and is
    never moved to a neighbouring one. *)
Theorem parse_date_text_exact (y m d : Z) :
  0 <= y <= 9999 -> 0 <= m <= 99 -> 0 <= d <= 99 ->
  parse_date (string_of_list_ascii (text_dmy y m d)) = Calendar.make_date y m d
  /\ parse_date (string_of_list_ascii (text_ymd y m d)) = Calendar.make_date y m d
  /\ forall hh mm, 0 <= hh < 24 -> 0 <= mm < 60 ->
       parse_date (string_of_list_ascii (text_dmy_hm y m d hh mm))
       = Calendar.make_date y m d.
Proof.
  intros Hy Hm Hd.
  assert (Hdmy : forall c, In c (text_dmy y m d) -> c <> ":"%char /\ c <> "-"%char).
  { intros c [Hc| ->]%text_dmy_chars; [|done|lia..].
    split; intros ->; discriminate Hc. }
  assert (Hymd : forall c, In c (text_ymd y m d) -> c <> "/"%char).
  { intros c [Hc| ->]%text_ymd_chars; [|done|lia..]. intros ->; discriminate Hc. }
  split; [|split].
  - rewrite parse_date_options.
    rewrite (strptime_needs_literal (text_dmy y m d) Strptime.fmt_dmy_hm ":");
      [|do 7 right; by left|intros Hc; by destruct (Hdmy _ Hc)].
    rewrite (strptime_needs_literal (text_dmy y m d) Strptime.fmt_ymd "-");
      [|right; by left|intros Hc; by destruct (Hdmy _ Hc)].
    by apply strptime_dmy_exact.
  - rewrite parse_date_options.
    rewrite (strptime_needs_literal (text_ymd y m d) Strptime.fmt_dmy_hm "/");
      [|right; by left|intros Hc; by destruct (Hymd _ Hc)].
    rewrite (strptime_needs_literal (text_ymd y m d) Strptime.fmt_dmy "/");
      [|right; by left|intros Hc; by destruct (Hymd _ Hc)].
    rewrite strptime_ymd_exact by done. cbn [option_map].
    by destruct (Calendar.make_date y m d).
  - intros hh mm Hh Hmm. rewrite parse_date_options.
    rewrite strptime_dmy_hm_exact by done.
    destruct (Calendar.make_date y m d) as [date|] eqn:E; [done|].
    assert (Hhm : forall c, In c (text_dmy_hm y m d hh mm) -> c <> "-"%char).
    { unfold text_dmy_hm. intros c [Hc|Hc]%in_app_iff; [by apply Hdmy|].
      unfold two_digits in Hc. simpl in Hc.
      intros ->. repeat (destruct Hc as [Hc|Hc]; [|]); try discriminate Hc.
      all: try (by destruct Hc).
      all: match type of Hc with
           | digit_char ?k = _ =>
               destruct (digit_char_spec k) as [D _];
               [Z.div_mod_to_equations; lia|rewrite Hc in D; discriminate D]
           end. }
    rewrite (strptime_needs_literal (text_dmy_hm y m d hh mm) Strptime.fmt_ymd "-");
      [|right; by left|intros Hc; by destruct (Hhm _ Hc)].
    cbn [option_map].
    destruct (Strptime.strptime (string_of_list_ascii (text_dmy_hm y m d hh mm))
                Strptime.fmt_dmy) as [dt|] eqn:E'; [exfalso|done].
    unfold Strptime.strptime in E'. rewrite list_ascii_of_string_of_list_ascii in E'.
    destruct (Strptime.run Strptime.fmt_dmy Strptime.default_fields
                (text_dmy_hm y m d hh mm)) as [[f [|c r]]|] eqn:R; [|done|done].
    apply run_chars in R as (pre & Hpre & Hall). rewrite app_nil_r in Hpre.
    rewrite <- Hpre in Hall. rewrite List.Forall_forall in Hall.
    destruct (Hall ":"%char) as [[H|H]|H].
    + unfold text_dmy_hm. apply in_app_iff. right. simpl. auto.
    + discriminate H.
    + discriminate H.
    + simpl in H. repeat (destruct H as [H|H]; [discriminate H|]). destruct H.
Qed.

Lemma parse_date_text_exact_witness :
  parse_date "30/02/2023" = None /\ parse_date "2023-02-30" = None
  /\ parse_date "30/02/2023 10:30" = None.
Proof.
  destruct (parse_date_text_exact 2023 2 30) as (H1 & H2 & H3); [lia..|].
  split; [exact H1|]. split; [exact H2|]. apply (H3 10 30); lia.
Defined.

(* ===================================================================== *)
(** * The text report *)
(* ===================================================================== *)

Section ReportFacts.
Variable str_of : cell -> string.
Variable fmt_2f : Q -> string.
Variable strftime_dm : date -> string.

Lemma fold_left_append {A B : Type} (body : list A -> B -> list A) (f : B -> A)
    (xs : list B) (lines : list A) :
  (forall lines x, body lines x = append lines (f x)) ->
  fold_left body xs lines = lines ++ map f xs.
Proof.
  intros Hbody. revert lines. induction xs as [|x xs IH]; intros lines; simpl.
  - by rewrite app_nil_r.
  - rewrite IH, Hbody. unfold append. by rewrite <- app_assoc.
Qed.

Lemma fold_left_sections {A B : Type} (body : list A -> B -> list A)
    (section_of : B -> list A) (xs : list B) (lines : list A) :
  (forall lines x, body lines x = lines ++ section_of x) ->
  fold_left body xs lines = lines ++ flat_map section_of xs.
Proof.
  intros Hbody. revert lines. induction xs as [|x xs IH]; intros lines; simpl.
  - by rewrite app_nil_r.
  - rewrite IH, Hbody. by rewrite <- app_assoc.
Qed.

(** The loops of [build_report_text] append the sections one after the
    other. *)
Lemma build_report_text_lines (bonuses : bonuses_t) (details : details_t)
    (daily_totals : daily_totals_t) (transactions_count : transactions_count_t) :
  build_report_text str_of fmt_2f strftime_dm bonuses details daily_totals
    transactions_count
  = py_join NEWLINE
      (report_lines str_of fmt_2f strftime_dm bonuses details daily_totals
         transactions_count).
Proof.
  unfold build_report_text, report_lines. f_equal.
  rewrite (fold_left_sections _ (days_section fmt_2f strftime_dm transactions_count)).
  2:{ intros lines [emp dates]. unfold days_section. cbn [fst snd].
      rewrite (fold_left_append _ (day_line fmt_2f strftime_dm transactions_count emp))
        by done.
      unfold append. rewrite <- !app_assoc. reflexivity. }
  rewrite (fold_left_sections _ (details_section fmt_2f)).
  2:{ intros lines [emp det]. unfold details_section. cbn [fst snd].
      rewrite (fold_left_append _ (fun '(cat, amt) => category_line fmt_2f cat amt))
        by (by intros ? [cat amt]).
      unfold append. rewrite <- !app_assoc. reflexivity. }
  rewrite (fold_left_append _ (fun '(emp, b) => bonus_line str_of fmt_2f emp b))
    by (by intros ? [emp b]).
  unfold append. rewrite <- !app_assoc. reflexivity.
Qed.

Lemma strings_of_result (items : list cell) :
  strings_of items
  = if forallb is_str items then Ok (map (py_str str_of) items)
    else Raise TypeError.
Proof.
  induction items as [|c items IH]; [done|].
  destruct c; cbn [strings_of forallb is_str andb]; try done.
  rewrite IH. by destruct (forallb is_str items).
Qed.

Lemma forallb_map_str {A : Type} (f : A -> cell) (xs : list A) :
  (forall x, is_str (f x) = true) -> forallb is_str (map f xs) = true.
Proof. intros H. induction xs as [|x xs IH]; simpl; [done|]. by rewrite H, IH. Qed.

Lemma forallb_flat_map {A B : Type} (p : B -> bool) (f : A -> list B) (xs : list A) :
  forallb p (flat_map f xs) = forallb (fun x => forallb p (f x)) xs.
Proof.
  induction xs as [|x xs IH]; simpl; [done|]. by rewrite forallb_app, IH.
Qed.

Lemma forallb_congr {A : Type} (p q : A -> bool) (xs : list A) :
  (forall x, p x = q x) -> forallb p xs = forallb q xs.
Proof. intros H. induction xs as [|x xs IH]; simpl; [done|]. by rewrite H, IH. Qed.

(** The only lines that may fail to be strings are the employees that head
    the sections. *)
Lemma report_lines_str (bonuses : bonuses_t) (details : details_t)
    (daily_totals : daily_totals_t) (transactions_count : transactions_count_t) :
  forallb is_str
    (report_lines str_of fmt_2f strftime_dm bonuses details daily_totals
       transactions_count)
  = forallb (fun e => is_str (fst e)) details
    && forallb (fun e => is_str (fst e)) daily_totals.
Proof.
  unfold report_lines. rewrite !forallb_app, !forallb_flat_map.
  rewrite forallb_map_str by (by intros [emp b]).
  cbn [forallb is_str andb]. f_equal.
  - apply forallb_congr. intros [emp det]. unfold details_section.
    cbn [fst snd]. rewrite !forallb_app.
    rewrite forallb_map_str by (by intros [cat amt]).
    cbn [forallb is_str andb]. by rewrite !andb_true_r.
  - apply forallb_congr. intros [emp dates]. unfold days_section.
    cbn [fst snd]. rewrite !forallb_app.
    rewrite forallb_map_str by done.
    cbn [forallb is_str andb]. by rewrite !andb_true_r.
Qed.

Lemma build_report_text_result (bonuses : bonuses_t) (details : details_t)
    (daily_totals : daily_totals_t) (transactions_count : transactions_count_t) :
  build_report_text str_of fmt_2f strftime_dm bonuses details daily_totals
    transactions_count
  = if forallb (fun e => is_str (fst e)) details
       && forallb (fun e => is_str (fst e)) daily_totals
    then Ok (String.concat NEWLINE
               (map (py_str str_of)
                    (report_lines str_of fmt_2f strftime_dm bonuses details
                       daily_totals transactions_count)))
    else Raise TypeError.
Proof.
  rewrite build_report_text_lines. unfold py_join.
  rewrite strings_of_result, report_lines_str.
  by destruct (forallb (fun e => is_str (fst e)) details
               && forallb (fun e => is_str (fst e)) daily_totals).
Qed.

End ReportFacts.

Lemma length_flat_map_sum {A B : Type} (f : A -> list B) (n : A -> nat)
    (xs : list A) :
  (forall x, length (f x) = n x) ->
  length (flat_map f xs) = list_sum (map n xs).
Proof.
  intros H. induction xs as [|x xs IH]; [done|].
  change (length (f x ++ flat_map f xs) = (n x + list_sum (map n xs))%nat).
  by rewrite length_app, H, IH.
Qed.

Lemma length_insert_day (x : date * list num) (l : list (date * list num)) :
  length (insert_day x l) = S (length l).
Proof.
  induction l as [|y l IH]; [done|]. cbn [insert_day].
  destruct (toordinal (fst y) <? toordinal (fst x)); cbn [length]; [|done].
  by rewrite IH.
Qed.

Lemma length_py_sorted (l : list (date * list num)) :
  length (py_sorted l) = length l.
Proof.
  induction l as [|x l IH]; [done|]. unfold py_sorted in *. cbn [fold_right].
  by rewrite length_insert_day, IH.
Qed.

(** X12. [build_report_text] returns a text exactly when every employee key
    of [details] and of [daily_totals] is a string, and the text is then the
    lines of the three parts (one line per bonus, a section per breakdown, a
    table per employee with one line per day) joined by newlines. With a key that is not a string (a numeric employee
    number, say) the loops run to their end and the final [join] raises
    [TypeError]; nothing else is raised. *)
Theorem report_text_or_type_error (str_of : cell -> string) (fmt_2f : Q -> string)
    (strftime_dm : date -> string) (bonuses : bonuses_t) (details : details_t)
    (daily_totals : daily_totals_t) (transactions_count : transactions_count_t) :
  let lines := report_lines str_of fmt_2f strftime_dm bonuses details daily_totals
                 transactions_count in
  let text_keys := forallb (fun e => is_str (fst e)) details
                   && forallb (fun e => is_str (fst e)) daily_totals in
  (text_keys = true ->
   build_report_text str_of fmt_2f strftime_dm bonuses details daily_totals
     transactions_count
   = Ok (String.concat NEWLINE (map (py_str str_of) lines)))
  /\ (text_keys = false ->
      build_report_text str_of fmt_2f strftime_dm bonuses details daily_totals
        transactions_count
      = Raise TypeError)
  /\ length lines
     = (3 + length bonuses
        + list_sum (map (fun e => 3 + length (snd e)) details)
        + list_sum (map (fun e => 5 + length (snd e)) daily_totals))%nat.
Proof.
  cbv zeta. rewrite build_report_text_result.
  split; [by intros ->|]. split; [by intros ->|].
  unfold report_lines. rewrite !length_app, length_map. cbn [length].
  rewrite (length_flat_map_sum _ (fun e => 3 + length (snd e))%nat).
  2:{ intros [emp det]. unfold details_section. cbn [fst snd].
      rewrite !length_app, length_map. cbn [length]. lia. }
  rewrite (length_flat_map_sum _ (fun e => 5 + length (snd e))%nat).
  2:{ intros [emp dates]. unfold days_section. cbn [fst snd].
      rewrite !length_app, length_map, length_py_sorted. cbn [length]. lia. }
  lia.
Qed.

(* ===================================================================== *)
(** * A run and its report *)
(* ===================================================================== *)

Lemma is_str_congr (a b : cell) : py_eqb a b = true -> is_str a = is_str b.
Proof. by destruct a as [|?|?|?|?|?|?], b as [|?|?|?|?|?|?]. Qed.

Section TextKeys.
Context {V : Type}.
Implicit Types (d : list (cell * V)) (k : cell).

Lemma text_keys_set d k (v : V) :
  forallb (fun e => is_str (fst e)) (Dict.set d k v)
  = forallb (fun e => is_str (fst e)) d && is_str k.
Proof.
  induction d as [|[k0 v0] d IH]; cbn [Dict.set forallb fst].
  - by destruct (is_str k).
  - destruct (py_eqb k0 k) eqn:E; cbn [forallb fst].
    + rewrite (is_str_congr k0 k E).
      by destruct (is_str k), (forallb (fun e => is_str (fst e)) d).
    + rewrite IH. by rewrite andb_assoc.
Qed.

Lemma text_keys_update (dflt : V) (f : V -> V) d k :
  forallb (fun e => is_str (fst e)) (Dict.update dflt f d k)
  = forallb (fun e => is_str (fst e)) d && is_str k.
Proof. unfold Dict.update. apply text_keys_set. Qed.

End TextKeys.

(** The breakdowns are filed under employees of the sales data. *)
Lemma text_keys_award emp cat amount st :
  forallb (fun e => is_str (fst e)) (snd (award emp cat amount st))
  = forallb (fun e => is_str (fst e)) (snd st) && is_str emp.
Proof. unfold award. cbn [snd]. apply text_keys_update. Qed.

Lemma text_keys_day_bonuses tc emp st day :
  is_str emp = true ->
  forallb (fun e => is_str (fst e)) (snd st) = true ->
  forallb (fun e => is_str (fst e)) (snd (day_bonuses tc emp st day)) = true.
Proof.
  intros Hemp Hst. unfold day_bonuses.
  assert (Haward : forall cat amount st',
             forallb (fun e => is_str (fst e)) (snd st') = true ->
             forallb (fun e => is_str (fst e)) (snd (award emp cat amount st')) = true).
  { intros cat amount st' Hst'. rewrite text_keys_award, Hemp, andb_true_r.
    exact Hst'. }
  assert (Hfold : forallb (fun e => is_str (fst e))
                    (snd (fold_left (transaction_bonus emp) (snd day) st)) = true).
  { revert st Hst. induction (snd day) as [|t totals IH]; intros st Hst; [done|].
    cbn [fold_left]. apply IH. unfold transaction_bonus.
    destruct (Qgtb (num_to_Q t) 400), (Qgtb (num_to_Q t) 700); auto. }
  unfold average_bonus.
  destruct (Qgtb _ 150); [by apply Haward|].
  destruct (Qgtb _ 140); [by apply Haward|].
  destruct (Qgtb _ 130); [by apply Haward|done].
Qed.

Lemma text_keys_engine (sales_data : daily_totals_t) (tc : transactions_count_t) :
  forallb (fun e => is_str (fst e)) sales_data = true ->
  forallb (fun e => is_str (fst e))
    (snd (calculate_transaction_bonuses sales_data tc)) = true.
Proof.
  unfold calculate_transaction_bonuses.
  assert (Hinit : forallb (fun e : cell * list (string * Z) => is_str (fst e))
                    (snd (([], []) : bonuses_t * details_t)) = true) by done.
  revert Hinit. generalize (([], []) : bonuses_t * details_t).
  induction sales_data as [|[emp daily] sales IH]; intros st Hst; [done|].
  cbn [forallb fst fold_left snd]. intros [Hemp Hsales]%andb_true_iff.
  apply IH; [|exact Hsales]. clear IH Hsales. revert st Hst.
  induction daily as [|day daily IH]; intros st Hst; [done|].
  cbn [fold_left]. apply IH. by apply text_keys_day_bonuses.
Qed.

(** The employees of the statistics are those of the kept rows. *)
Lemma text_keys_append_line (per_invoice : per_invoice_t) emp key line_total :
  forallb (fun e => is_str (fst e)) (append_line per_invoice emp key line_total)
  = forallb (fun e => is_str (fst e)) per_invoice && is_str emp.
Proof. unfold append_line. apply text_keys_update. Qed.

Lemma append_line_nonempty (per_invoice : per_invoice_t) emp key line_total :
  Forall (fun e => snd e <> []) per_invoice ->
  Forall (fun e => snd e <> []) (append_line per_invoice emp key line_total).
Proof.
  intros Hpi. unfold append_line.
  apply (Forall_values_update_new (fun invoices => invoices <> [])); [done|done|].
  intros invoices _. unfold Dict.update.
  destruct invoices as [|[k v] invoices]; [done|]. cbn [Dict.set].
  by destruct (py_eqb k key).
Qed.

Lemma text_keys_items (items : list line_item) (per_invoice per_invoice' : per_invoice_t) :
  for_each add_line_item items per_invoice = Ok per_invoice' ->
  Forall (fun e => snd e <> []) per_invoice ->
  forallb (fun e => is_str (fst e)) per_invoice'
  = forallb (fun e => is_str (fst e)) per_invoice
    && forallb (fun it => is_str (li_emp it)) items
  /\ Forall (fun e => snd e <> []) per_invoice'.
Proof.
  revert per_invoice.
  induction items as [|it items IH]; intros per_invoice; cbn [for_each forallb].
  - intros [= <-] Hne. by rewrite andb_true_r.
  - destruct (add_line_item per_invoice it) as [pi1|e] eqn:E;
      cbn [mbind result_bind]; [|done].
    unfold add_line_item in E.
    destruct (py_mul (li_unit it) (li_qty it)) as [line_total|e];
      cbn [mbind result_bind] in E; [|done].
    injection E as <-. intros Hrun Hne.
    destruct (IH _ Hrun (append_line_nonempty _ _ _ _ Hne)) as [-> Hne'].
    split; [|exact Hne']. by rewrite text_keys_append_line, andb_assoc.
Qed.

Lemma text_keys_summarise_invoice emp st entry st' :
  summarise_invoice emp st entry = Ok st' ->
  forallb (fun e => is_str (fst e)) (snd st')
  = forallb (fun e => is_str (fst e)) (snd st) && is_str emp.
Proof.
  unfold summarise_invoice.
  destruct (py_sum (snd entry)) as [total|e]; cbn [mbind result_bind]; [|done].
  intros [= <-]. cbn [snd]. apply text_keys_update.
Qed.

Lemma text_keys_summarise_invoices emp invoices st st' :
  for_each (summarise_invoice emp) invoices st = Ok st' ->
  invoices <> [] ->
  forallb (fun e => is_str (fst e)) (snd st')
  = forallb (fun e => is_str (fst e)) (snd st) && is_str emp.
Proof.
  revert st. induction invoices as [|entry invoices IH]; intros st; [done|].
  cbn [for_each].
  destruct (summarise_invoice emp st entry) as [st1|e] eqn:E;
    cbn [mbind result_bind]; [|done].
  intros Hrun _. apply text_keys_summarise_invoice in E.
  destruct invoices as [|entry' invoices].
  - cbn [for_each] in Hrun. by injection Hrun as <-.
  - rewrite (IH st1 Hrun) by done. rewrite E.
    by destruct (is_str emp), (forallb (fun e => is_str (fst e)) (snd st)).
Qed.

Lemma text_keys_summarise_from (per_invoice : per_invoice_t) st st' :
  for_each (fun st emp_invoices =>
              for_each (summarise_invoice (fst emp_invoices)) (snd emp_invoices) st)
           per_invoice st = Ok st' ->
  Forall (fun e => snd e <> []) per_invoice ->
  forallb (fun e => is_str (fst e)) (snd st')
  = forallb (fun e => is_str (fst e)) (snd st)
    && forallb (fun e => is_str (fst e)) per_invoice.
Proof.
  revert st. induction per_invoice as [|[emp invoices] pi IH]; intros st;
    cbn [for_each forallb fst snd].
  - intros [= <-] _. by rewrite andb_true_r.
  - destruct (for_each (summarise_invoice emp) invoices st) as [st1|e] eqn:E;
      cbn [mbind result_bind]; [|done].
    intros Hrun [Hne Hpi]%Forall_cons_1. cbn [snd] in Hne.
    rewrite (IH st1 Hrun Hpi).
    rewrite (text_keys_summarise_invoices emp invoices st st1 E Hne).
    by rewrite andb_assoc.
Qed.

Lemma text_keys_aggregate (col_idx : gmap string nat) (rows : sheet)
    (items : list line_item) (tc : transactions_count_t) (dt : daily_totals_t) :
  line_items col_idx rows = Ok items ->
  aggregate col_idx rows = Ok (tc, dt) ->
  forallb (fun e => is_str (fst e)) dt
  = forallb (fun it => is_str (li_emp it)) items.
Proof.
  intros Hitems. unfold aggregate.
  rewrite (process_rows_fold col_idx rows items [] Hitems).
  destruct (for_each add_line_item items []) as [pi|e] eqn:E;
    cbn [mbind result_bind]; [|done].
  destruct (text_keys_items items [] pi E) as [Hkeys Hne]; [done|].
  unfold summarise. intros Hsum.
  apply text_keys_summarise_from in Hsum; [|exact Hne].
  cbn [snd] in Hsum. rewrite Hsum, Hkeys. done.
Qed.

(** X13. A run and its report: when the rows are read without exception and
    the statistics are built, the report on them and on the bonuses computed
    from them is produced exactly when the employee cell of every kept row is
    a string. One kept row whose employee is a number (or a date, or a
    boolean) makes [build_report_text] raise [TypeError], although the
    analysis itself succeeded. *)
Theorem report_needs_text_employees (str_of : cell -> string)
    (fmt_2f : Q -> string) (strftime_dm : date -> string)
    (col_idx : gmap string nat) (rows : sheet) (items : list line_item)
    (tc : transactions_count_t) (dt : daily_totals_t) :
  line_items col_idx rows = Ok items ->
  aggregate col_idx rows = Ok (tc, dt) ->
  let out := calculate_transaction_bonuses dt tc in
  build_report_text str_of fmt_2f strftime_dm (fst out) (snd out) dt tc
  = if forallb (fun it => is_str (li_emp it)) items
    then Ok (String.concat NEWLINE
               (map (py_str str_of)
                    (report_lines str_of fmt_2f strftime_dm (fst out) (snd out)
                       dt tc)))
    else Raise TypeError.
Proof.
  intros Hitems Hrun out. rewrite build_report_text_result.
  rewrite (text_keys_aggregate col_idx rows items tc dt Hitems Hrun).
  destruct (forallb (fun it => is_str (li_emp it)) items) eqn:E.
  - unfold out. rewrite text_keys_engine; [done|].
    by rewrite (text_keys_aggregate col_idx rows items tc dt Hitems Hrun).
  - by rewrite andb_false_r.
Qed.

Lemma report_needs_text_employees_witness :
  aggregate (build_col_idx (fun _ => EmptyString) example_header)
    (drop 3 example_sheet
       ++ [[CNum (Int 3); CNum (Int 7); CDateTime (DateTime example_day 0);
            CNum (Int 500); CNum (Int 1)]])
  = Ok ([(CStr "A", [(example_day, 2)]); (CNum (Int 7), [(example_day, 1)])],
        [(CStr "A", [(example_day, [Int 250; Int 800])]);
         (CNum (Int 7), [(example_day, [Int 500])])])
  /\ build_report_text (fun _ => EmptyString) (fun _ => EmptyString)
       (fun _ => EmptyString)
       [(CStr "A", 65); (CNum (Int 7), 55)]
       [(CStr "A", [(CAT_OVER_400, 20); (CAT_OVER_700, 10); (CAT_AVERAGE, 35)]);
        (CNum (Int 7), [(CAT_OVER_400, 20); (CAT_AVERAGE, 35)])]
       [(CStr "A", [(example_day, [Int 250; Int 800])]);
        (CNum (Int 7), [(example_day, [Int 500])])]
       [(CStr "A", [(example_day, 2)]); (CNum (Int 7), [(example_day, 1)])]
     = Raise TypeError.
Proof.
  assert (Hrun : aggregate (build_col_idx (fun _ => EmptyString) example_header)
            (drop 3 example_sheet
               ++ [[CNum (Int 3); CNum (Int 7); CDateTime (DateTime example_day 0);
                    CNum (Int 500); CNum (Int 1)]])
          = Ok ([(CStr "A", [(example_day, 2)]); (CNum (Int 7), [(example_day, 1)])],
                [(CStr "A", [(example_day, [Int 250; Int 800])]);
                 (CNum (Int 7), [(example_day, [Int 500])])])).
  { vm_compute. reflexivity. }
  split; [exact Hrun|].
  apply (report_needs_text_employees (fun _ => EmptyString) (fun _ => EmptyString)
           (fun _ => EmptyString)
           (build_col_idx (fun _ => EmptyString) example_header)
           (drop 3 example_sheet
              ++ [[CNum (Int 3); CNum (Int 7); CDateTime (DateTime example_day 0);
                   CNum (Int 500); CNum (Int 1)]])
           [ LineItem (CStr "A") example_day (CNum (Int 1)) (CNum (Int 100)) (CNum (Int 2));
             LineItem (CStr "A") example_day (CNum (Int 1)) (CNum (Int 50)) (CNum (Int 1));
             LineItem (CStr "A") example_day (CNum (Int 2)) (CNum (Int 800)) (CNum (Int 1));
             LineItem (CNum (Int 7)) example_day (CNum (Int 3)) (CNum (Int 500)) (CNum (Int 1)) ]).
  - vm_compute. reflexivity.
  - exact Hrun.
Defined.

(* ===================================================================== *)
(** * The bonus of a run, from its daily totals *)
(* ===================================================================== *)

Lemma aggregate_consistent (col_idx : gmap string nat) (rows : sheet)
    (st : transactions_count_t * daily_totals_t) :
  aggregate col_idx rows = Ok st -> stats_consistent st.
Proof.
  unfold aggregate.
  destruct (for_each (process_row col_idx) rows []) as [pi|e];
    cbn [mbind result_bind]; [|done].
  apply summarise_consistent.
Qed.

Lemma sum_Z_map_add {A : Type} (f g : A -> Z) (l : list A) :
  sum_Z (map (fun x => f x + g x) l) = sum_Z (map f l) + sum_Z (map g l).
Proof. induction l as [|x l IH]; simpl; lia. Qed.

Lemma sum_Z_map_ext {A : Type} (f g : A -> Z) (l : list A) :
  (forall x, In x l -> f x = g x) -> sum_Z (map f l) = sum_Z (map g l).
Proof.
  intros H. induction l as [|x l IH]; simpl; [done|].
  rewrite (H x) by (by left). rewrite IH; [done|]. intros y Hy. apply H. by right.
Qed.

Lemma get_default_In {V : Type} (d : list (cell * list V)) (emp : cell) (x : V) :
  In x (Dict.get_default [] d emp) -> exists k, In (k, Dict.get_default [] d emp) d.
Proof.
  unfold Dict.get_default.
  induction d as [|[k v] d IH]; simpl; [done|].
  destruct (py_eqb k emp).
  - intros _. exists k. by left.
  - intros (k' & Hk')%IH. exists k'. by right.
Qed.

(** On consistent statistics, a listed day is worth what its totals say. *)
Lemma day_amount_worth (tc : transactions_count_t) (dt : daily_totals_t)
    (emp : cell) (day : date * list num) :
  stats_consistent (tc, dt) ->
  In day (Dict.get_default [] dt emp) ->
  day_amount tc emp day = day_worth (snd day).
Proof.
  intros ((Hnd & Hinner) & Hcount & Hfull) Hday. cbn [fst snd] in *.
  destruct (get_default_In dt emp day Hday) as (k & Hk).
  assert (Hne : snd day <> []).
  { rewrite List.Forall_forall in Hfull. specialize (Hfull _ Hk).
    cbn [snd] in Hfull. rewrite List.Forall_forall in Hfull. by apply Hfull. }
  assert (Hlook : totals_of dt emp (fst day) = snd day).
  { unfold totals_of. unfold Dict.get_default at 1.
    rewrite (nodup_keys_lookup (Dict.get_default [] dt emp) (fst day) (snd day)).
    - done.
    - apply (Hinner _ Hk).
    - apply list_elem_of_In. by destruct day. }
  specialize (Hcount emp (fst day)). rewrite Hlook in Hcount.
  unfold day_amount, day_worth, day_mean.
  rewrite sum_Z_map_add, sum_over_400, sum_over_700. f_equal.
  unfold day_average. rewrite Hcount.
  destruct (Z.of_nat (length (snd day)) =? 0) eqn:E; [|done].
  destruct (snd day); [done|simpl in E; lia].
Qed.

(** X14. The bonus of a run, from its daily totals alone: when
    [analyze_workbook] returns, the bonus of an employee is the sum, over the
    days listed for the employee, of 20 for each invoice total of the day
    above 400, 10 more for each above 700, and the tier (35, 25, 20 or 0) of
    the arithmetic mean of the totals of the day. The transaction counts
    play no part of their own: each equals the number of totals of its
    day. *)
Theorem run_bonus_formula (str_of : cell -> string) (sh : sheet) (a : analysis)
    (emp : cell) :
  analyze_workbook str_of sh = Ok a ->
  bonus_of (bonuses a) emp
  = sum_Z (map (fun day => day_worth (snd day))
               (Dict.get_default [] (daily_totals a) emp)).
Proof.
  unfold analyze_workbook.
  destruct (find_header_row str_of sh REQUIRED_COLS) as [hdr|e];
    cbn [mbind result_bind]; [|done].
  destruct (aggregate (snd hdr) (drop (fst hdr) sh)) as [[tc dt]|e] eqn:Hagg;
    cbn [mbind result_bind]; [|done].
  intros [= <-]. cbn [bonuses daily_totals fst snd].
  apply aggregate_consistent in Hagg.
  unfold calculate_transaction_bonuses. rewrite engine_bonus_from.
  change (bonus_of (fst (([], []) : bonuses_t * details_t)) emp) with 0.
  rewrite Z.add_0_l.
  assert (Hdays : employee_days dt emp = Dict.get_default [] dt emp).
  { destruct Hagg as ((Hnd & _) & _).
    exact (flat_map_entry (fun days => days) dt emp eq_refl Hnd). }
  rewrite Hdays. apply sum_Z_map_ext. intros day Hday.
  by apply (day_amount_worth tc dt).
Qed.

Lemma run_bonus_formula_witness :
  bonus_of [(CStr "A", 65)] (CStr "A")
  = sum_Z (map (fun day => day_worth (snd day))
               [(example_day, [Int 250; Int 800])]).
Proof.
  apply (run_bonus_formula (fun _ => EmptyString) example_sheet
           (Analysis [(CStr "A", 65)]
              [(CStr "A", [(CAT_OVER_400, 20); (CAT_OVER_700, 10); (CAT_AVERAGE, 35)])]
              [(CStr "A", [(example_day, [Int 250; Int 800])])]
              [(CStr "A", [(example_day, 2)])])
           (CStr "A")).
  vm_compute. reflexivity.
Defined.

(* ===================================================================== *)
(** * A quantity that is empty or zero *)
(* ===================================================================== *)

Lemma field_insert_ne (col_idx : gmap string nat) (row : list cell) (name : string)
    (i : nat) (c : cell) :
  col_idx !! name <> Some i ->
  field col_idx (<[i := c]> row) name = field col_idx row name.
Proof.
  intros Hne. unfold field, col_get.
  destruct (col_idx !! name) as [j|]; cbn [mbind result_bind]; [|done].
  unfold row_get. rewrite list_lookup_insert_ne; [done|]. intros ->. by apply Hne.
Qed.

Lemma decode_row_quantity_one (col_idx : gmap string nat) (row : list cell)
    (i : nat) (q : cell) :
  col_idx !! QUANTITY_COL_NAME = Some i ->
  (forall name, In name REQUIRED_COLS -> col_idx !! name <> Some i) ->
  row !! i = Some q -> truthy q = false ->
  decode_row col_idx (<[i := CNum (Int 1)]> row) = decode_row col_idx row.
Proof.
  intros Hq Hreq Hrow Hfalsy. unfold decode_row.
  rewrite !field_insert_ne by (apply Hreq; simpl; auto).
  assert (Hqty : quantity col_idx (<[i := CNum (Int 1)]> row) = quantity col_idx row).
  { unfold quantity, row_get. rewrite Hq, Hrow.
    rewrite list_lookup_insert_eq by (by eapply lookup_lt_Some).
    cbn [mbind result_bind]. unfold py_or. by rewrite Hfalsy. }
  by rewrite Hqty.
Qed.

(** X15. A quantity that is empty or zero counts as one: a data row whose
    quantity cell is [None], 0, an empty text or [False] gives the run
    exactly what the same row with the quantity 1 gives. Such a row is not
    dropped and its line is not zero: it adds its unit price to its
    invoice. *)
Theorem empty_quantity_counts_as_one (col_idx : gmap string nat)
    (before : sheet) (row : list cell) (after : sheet) (i : nat) (q : cell) :
  col_idx !! QUANTITY_COL_NAME = Some i ->
  (forall name, In name REQUIRED_COLS -> col_idx !! name <> Some i) ->
  row !! i = Some q -> truthy q = false ->
  aggregate col_idx (before ++ row :: after)
  = aggregate col_idx (before ++ <[i := CNum (Int 1)]> row :: after).
Proof.
  intros Hq Hreq Hrow Hfalsy. unfold aggregate. rewrite !for_each_app.
  destruct (for_each (process_row col_idx) before []) as [pi|e]; [|done].
  cbn [mbind result_bind for_each].
  assert (Hsame : process_row col_idx pi (<[i := CNum (Int 1)]> row)
                  = process_row col_idx pi row).
  { unfold process_row.
    by rewrite (decode_row_quantity_one col_idx row i q Hq Hreq Hrow Hfalsy). }
  by rewrite Hsame.
Qed.

Lemma empty_quantity_counts_as_one_witness :
  aggregate (build_col_idx (fun _ => EmptyString) example_header)
    [[CNum (Int 5); CStr "A"; CDateTime (DateTime example_day 0);
      CNum (Int 450); CNum (Int 0)]]
  = Ok ([(CStr "A", [(example_day, 1)])],
        [(CStr "A", [(example_day, [Int 450])])]).
Proof.
  refine (eq_trans
            (empty_quantity_counts_as_one
               (build_col_idx (fun _ => EmptyString) example_header) []
               [CNum (Int 5); CStr "A"; CDateTime (DateTime example_day 0);
                CNum (Int 450); CNum (Int 0)] [] 4%nat (CNum (Int 0)) _ _ _ _) _).
  - vm_compute. reflexivity.
  - intros name [<-|[<-|[<-|[<-|[]]]]]; vm_compute; discriminate.
  - reflexivity.
  - reflexivity.
  - vm_compute. reflexivity.
Defined.
